(** * VideoHub: media ingestion pipeline, status channel and streaming gate

    A shallow embedding of the parts of the VideoHub code base that drive an
    uploaded video from "uploading" to a terminal state, publish progress to
    the owner, and serve the bytes back under access control:

    - [backend/src/models/Video.js]            (modules [VideoModel],
                                                 [VideoMethods])
    - [backend/src/utils/apiResponse.js]       (modules [ApiResponse],
                                                 [Pagination])
    - [backend/src/utils/fileUpload.js]        (module [FileUpload])
    - [backend/src/utils/videoProcessor.js]    (module [VideoProcessor])
    - [backend/src/middleware/authMiddleware.js] (module [AuthMiddleware])
    - [backend/src/controllers/videoController.js] (modules [VideoController],
                                                 [VideoManagement])
    - [frontend/src/services/socketService.js] (modules [SocketService],
                                                 [SocketTraces])

    JavaScript values are modelled as the code uses them: strings are byte
    strings (one [ascii] per code unit, as Node decodes header values),
    numbers that the code only uses as integers are [Z], a number that may be
    [NaN] is [option Z], [null]/[undefined] fields are [option]s, and a
    Mongo collection or a [Map] is a [gmap] keyed by the id string. *)

From Stdlib Require Import ZArith Lia Bool Ascii String.
From Stdlib Require Import DecimalString.
From stdpp Require Import base option list strings gmap.

Local Open Scope Z_scope.

(** ** JavaScript primitives used by the controllers *)

Module JS.

(** A number that may be [NaN]: [None] is [NaN].  The numbers of this code
    are integers, and they are exact here.  JavaScript numbers are IEEE
    doubles, which are exact on the integers up to [MAX_SAFE_INTEGER] in
    absolute value and round beyond; the model is of that range, and every
    statement that reads a number from a request or from the environment
    bounds it by [MAX_SAFE_INTEGER]. *)
Definition jsnum : Type := option Z.

(** [Number.MAX_SAFE_INTEGER] *)
Definition MAX_SAFE_INTEGER : Z := 2 ^ 53 - 1.

Definition NaN : jsnum := None.

Definition jsSub (a b : jsnum) : jsnum :=
  match a, b with
  | Some x, Some y => Some (x - y)
  | _, _ => NaN
  end.

Definition jsAdd (a b : jsnum) : jsnum :=
  match a, b with
  | Some x, Some y => Some (x + y)
  | _, _ => NaN
  end.

(** [`${n}`]: the decimal rendering of an integer-valued number, ["NaN"] for
    [NaN]. *)
Definition numberToString (n : jsnum) : string :=
  match n with
  | None => "NaN"
  | Some z => NilZero.string_of_int (Z.to_int z)
  end.

(** Truthiness of a string value: the empty string is falsy. *)
Definition truthyStr (s : string) : bool := negb (String.eqb s EmptyString).

(** Truthiness of a string-or-null/undefined value. *)
Definition truthy (o : option string) : bool :=
  match o with
  | Some s => truthyStr s
  | None => false
  end.

(** [a === b] on string-or-null values. *)
Definition strictEq (a b : option string) : bool :=
  match a, b with
  | Some x, Some y => String.eqb x y
  | None, None => true
  | _, _ => false
  end.

(** StrWhiteSpaceChar restricted to the code units a byte string can hold:
    TAB, LF, VT, FF, CR, SP and NBSP. *)
Definition isStrWhiteSpace (c : ascii) : bool :=
  let n := nat_of_ascii c in
  existsb (Nat.eqb n) [9; 10; 11; 12; 13; 32; 160]%nat.

Definition digitValue (c : ascii) : option Z :=
  let n := Z.of_nat (nat_of_ascii c) in
  if (48 <=? n) && (n <=? 57) then Some (n - 48) else None.

Fixpoint skipWhite (s : string) : string :=
  match s with
  | String c s' => if isStrWhiteSpace c then skipWhite s' else s
  | EmptyString => EmptyString
  end.

(** The longest prefix of decimal digits, accumulated left to right; [acc]
    is [None] until the first digit has been read. *)
Fixpoint parseDigits (s : string) (acc : option Z) : option Z :=
  match s with
  | String c s' =>
      match digitValue c with
      | Some d => parseDigits s' (Some (10 * default 0 acc + d))
      | None => acc
      end
  | EmptyString => acc
  end.

(** [parseInt(s, 10)]: leading white space is skipped, an optional sign is
    read, then the longest run of digits; no digit at all gives [NaN]. *)
Definition parseInt (s : string) : jsnum :=
  match skipWhite s with
  | String c r =>
      if Ascii.eqb c "-" then Z.opp <$> parseDigits r None
      else if Ascii.eqb c "+" then parseDigits r None
      else parseDigits (String c r) None
  | EmptyString => NaN
  end.

(** The value of a hexadecimal digit. *)
Definition hexDigitValue (c : ascii) : option Z :=
  let n := Z.of_nat (nat_of_ascii c) in
  if (48 <=? n) && (n <=? 57) then Some (n - 48)
  else if (65 <=? n) && (n <=? 70) then Some (n - 55)
  else if (97 <=? n) && (n <=? 102) then Some (n - 87)
  else None.

Fixpoint parseHexDigits (s : string) (acc : option Z) : option Z :=
  match s with
  | String c s' =>
      match hexDigitValue c with
      | Some d => parseHexDigits s' (Some (16 * default 0 acc + d))
      | None => acc
      end
  | EmptyString => acc
  end.

(** What [parseInt(s)] reads after the sign: hexadecimal digits after a
    prefix [0x] or [0X], decimal digits otherwise. *)
Definition parseUnsigned (s : string) : jsnum :=
  match s with
  | String "0" (String x r) =>
      if Ascii.eqb x "x" || Ascii.eqb x "X" then parseHexDigits r None
      else parseDigits s None
  | _ => parseDigits s None
  end.

(** [parseInt(s)], without a radix. *)
Definition parseIntNoRadix (s : string) : jsnum :=
  match skipWhite s with
  | String c r =>
      if Ascii.eqb c "-" then Z.opp <$> parseUnsigned r
      else if Ascii.eqb c "+" then parseUnsigned r
      else parseUnsigned (String c r)
  | EmptyString => NaN
  end.

(** The vocabulary used to state what [parseInt] and [split] do on a run of
    decimal digits: the strings made of digits only, the number such a run
    denotes, the strings a digit run stops at, and the strings without a
    dash. *)
Definition isDigit (c : ascii) : bool :=
  match digitValue c with
  | Some _ => true
  | None => false
  end.

Fixpoint allDigits (s : string) : bool :=
  match s with
  | String c s' => isDigit c && allDigits s'
  | EmptyString => true
  end.

Fixpoint decimalValue (s : string) (acc : Z) : Z :=
  match s with
  | String c s' => decimalValue s' (10 * acc + default 0 (digitValue c))
  | EmptyString => acc
  end.

Definition stopsDigits (t : string) : bool :=
  match t with
  | String c _ => negb (isDigit c)
  | EmptyString => true
  end.

Fixpoint noDash (s : string) : bool :=
  match s with
  | String c s' => negb (Ascii.eqb c "-") && noDash s'
  | EmptyString => true
  end.

(** [s.startsWith(p)], returning what follows the prefix. *)
Fixpoint stripPrefix (p s : string) : option string :=
  match p, s with
  | EmptyString, _ => Some s
  | String a p', String b s' => if Ascii.eqb a b then stripPrefix p' s' else None
  | String _ _, EmptyString => None
  end.

(** [s.replace(/pat/, '')] for a pattern without metacharacters: the first
    occurrence of [pat] is removed, the rest of the string is kept. *)
Fixpoint removeFirst (pat s : string) : string :=
  match stripPrefix pat s with
  | Some rest => rest
  | None =>
      match s with
      | String c s' => String c (removeFirst pat s')
      | EmptyString => EmptyString
      end
  end.

(** [s.split(sep)] for a one-character separator. *)
Fixpoint split (sep : ascii) (s : string) : list string :=
  match s with
  | EmptyString => [EmptyString]
  | String c s' =>
      if Ascii.eqb c sep then EmptyString :: split sep s'
      else
        match split sep s' with
        | h :: t => String c h :: t
        | [] => [String c EmptyString]
        end
  end.

(** [s.includes(k)]. *)
Fixpoint includes (s k : string) : bool :=
  match stripPrefix k s with
  | Some _ => true
  | None =>
      match s with
      | String _ s' => includes s' k
      | EmptyString => false
      end
  end.

(** [s.toLowerCase()] on the ASCII letters. *)
Definition lowerChar (c : ascii) : ascii :=
  let n := nat_of_ascii c in
  if (65 <=? n)%nat && (n <=? 90)%nat then ascii_of_nat (n + 32) else c.

Fixpoint toLowerCase (s : string) : string :=
  match s with
  | String c s' => String (lowerChar c) (toLowerCase s')
  | EmptyString => EmptyString
  end.

Fixpoint trimStart (s : string) : string :=
  match s with
  | String c s' => if isStrWhiteSpace c then trimStart s' else s
  | EmptyString => EmptyString
  end.

(** [trimEnd], by a right-to-left pass: a white-space character is dropped
    exactly when everything after it has been dropped. *)
Fixpoint trimEnd (s : string) : string :=
  match s with
  | String c s' =>
      match trimEnd s' with
      | EmptyString => if isStrWhiteSpace c then EmptyString else String c EmptyString
      | r => String c r
      end
  | EmptyString => EmptyString
  end.

Definition trim (s : string) : string := trimEnd (trimStart s).

End JS.

(** ** models/User.js: the fields of a user document the video code reads *)

Module UserModel.

Record User : Type := mkUser {
  username : string;
  email : string;
  role : string;
  organization : option string;
}.

End UserModel.

(** ** models/Video.js *)

Module VideoModel.

Inductive VideoStatus : Type := UPLOADING | PROCESSING | COMPLETED | FAILED.

Inductive SensitivityStatus : Type := PENDING | SAFE | FLAGGED.

Definition statusString (s : VideoStatus) : string :=
  match s with
  | UPLOADING => "uploading"
  | PROCESSING => "processing"
  | COMPLETED => "completed"
  | FAILED => "failed"
  end.

Definition sensitivityString (s : SensitivityStatus) : string :=
  match s with
  | PENDING => "pending"
  | SAFE => "safe"
  | FLAGGED => "flagged"
  end.

Definition VideoStatus_eqb (a b : VideoStatus) : bool :=
  match a, b with
  | UPLOADING, UPLOADING | PROCESSING, PROCESSING
  | COMPLETED, COMPLETED | FAILED, FAILED => true
  | _, _ => false
  end.

Definition SensitivityStatus_eqb (a b : SensitivityStatus) : bool :=
  match a, b with
  | PENDING, PENDING | SAFE, SAFE | FLAGGED, FLAGGED => true
  | _, _ => false
  end.

(** A video document.  The schema's timestamps, tags, thumbnails array and
    sensitivityDetails are not read by the modelled code and are left out;
    [resolution_width]/[resolution_height] are the two paths of the nested
    [resolution] object. *)
Record Video : Type := mkVideo {
  _id : string;
  title : string;
  description : string;
  filename : string;
  originalFilename : string;
  filepath : string;
  filesize : Z;
  duration : option Z;
  mimeType : string;
  resolution_width : option Z;
  resolution_height : option Z;
  bitrate : option Z;
  codec : option string;
  uploadedBy : string;
  organization : option string;
  status : VideoStatus;
  sensitivityStatus : SensitivityStatus;
  processingProgress : Z;
  processingError : option string;
  thumbnailPath : option string;
  viewCount : Z;
  isPublic : bool;
  isDeleted : bool;
}.

(** The [$set] document of a [findByIdAndUpdate] call: [None] leaves the path
    alone.  Only the paths the controller ever sets appear.  The controller
    also passes ['metadata.width'], ['metadata.height'], ['metadata.fps'],
    ['metadata.codec'] and ['metadata.bitrate']; the schema declares no
    [metadata] path, so under the schema's (default) strict mode they are
    dropped from the update and have no field here. *)
Record Update : Type := mkUpdate {
  set_status : option VideoStatus;
  set_processingProgress : option Z;
  set_processingError : option string;
  set_sensitivityStatus : option SensitivityStatus;
  set_duration : option Z;
  set_thumbnailPath : option (option string);
}.

Definition noUpdate : Update :=
  {| set_status := None; set_processingProgress := None;
     set_processingError := None; set_sensitivityStatus := None;
     set_duration := None; set_thumbnailPath := None |}.

Definition applyUpdate (u : Update) (v : Video) : Video :=
  {| _id := _id v; title := title v; description := description v;
     filename := filename v; originalFilename := originalFilename v;
     filepath := filepath v; filesize := filesize v;
     duration := match set_duration u with Some d => Some d | None => duration v end;
     mimeType := mimeType v;
     resolution_width := resolution_width v;
     resolution_height := resolution_height v;
     bitrate := bitrate v; codec := codec v;
     uploadedBy := uploadedBy v; organization := organization v;
     status := default (status v) (set_status u);
     sensitivityStatus := default (sensitivityStatus v) (set_sensitivityStatus u);
     processingProgress := default (processingProgress v) (set_processingProgress u);
     processingError :=
       match set_processingError u with Some e => Some e | None => processingError v end;
     thumbnailPath := default (thumbnailPath v) (set_thumbnailPath u);
     viewCount := viewCount v; isPublic := isPublic v; isDeleted := isDeleted v |}.

Definition withOrganization (o : option string) (v : Video) : Video :=
  {| _id := _id v; title := title v; description := description v;
     filename := filename v; originalFilename := originalFilename v;
     filepath := filepath v; filesize := filesize v; duration := duration v;
     mimeType := mimeType v;
     resolution_width := resolution_width v;
     resolution_height := resolution_height v;
     bitrate := bitrate v; codec := codec v;
     uploadedBy := uploadedBy v; organization := o;
     status := status v; sensitivityStatus := sensitivityStatus v;
     processingProgress := processingProgress v;
     processingError := processingError v; thumbnailPath := thumbnailPath v;
     viewCount := viewCount v; isPublic := isPublic v; isDeleted := isDeleted v |}.

Definition withViewCount (n : Z) (v : Video) : Video :=
  {| _id := _id v; title := title v; description := description v;
     filename := filename v; originalFilename := originalFilename v;
     filepath := filepath v; filesize := filesize v; duration := duration v;
     mimeType := mimeType v;
     resolution_width := resolution_width v;
     resolution_height := resolution_height v;
     bitrate := bitrate v; codec := codec v;
     uploadedBy := uploadedBy v; organization := organization v;
     status := status v; sensitivityStatus := sensitivityStatus v;
     processingProgress := processingProgress v;
     processingError := processingError v; thumbnailPath := thumbnailPath v;
     viewCount := n; isPublic := isPublic v; isDeleted := isDeleted v |}.

Definition withIsDeleted (b : bool) (v : Video) : Video :=
  {| _id := _id v; title := title v; description := description v;
     filename := filename v; originalFilename := originalFilename v;
     filepath := filepath v; filesize := filesize v; duration := duration v;
     mimeType := mimeType v;
     resolution_width := resolution_width v;
     resolution_height := resolution_height v;
     bitrate := bitrate v; codec := codec v;
     uploadedBy := uploadedBy v; organization := organization v;
     status := status v; sensitivityStatus := sensitivityStatus v;
     processingProgress := processingProgress v;
     processingError := processingError v; thumbnailPath := thumbnailPath v;
     viewCount := viewCount v; isPublic := isPublic v; isDeleted := b |}.

(** The [enum] of the [mimeType] path. *)
Definition mimeTypeEnum : list string :=
  ["video/mp4"; "video/mpeg"; "video/quicktime"; "video/x-msvideo";
   "video/webm"; "video/x-matroska"].

Definition inList (s : string) (l : list string) : bool :=
  existsb (String.eqb s) l.

(** Schema validation, run by [create] and [save]: for each path whose
    validator fails, the path and the validator's message, in schema
    order. *)
Definition validationErrors (v : Video) : list (string * string) :=
  (if String.eqb (title v) EmptyString then [("title", "Video title is required")]
   else []) ++
  (if (200 <? Z.of_nat (String.length (title v)))
   then [("title", "Title cannot exceed 200 characters")] else []) ++
  (if (2000 <? Z.of_nat (String.length (description v)))
   then [("description", "Description cannot exceed 2000 characters")] else []) ++
  (if String.eqb (filename v) EmptyString then [("filename", "Filename is required")]
   else []) ++
  (if String.eqb (originalFilename v) EmptyString
   then [("originalFilename", "Original filename is required")] else []) ++
  (if String.eqb (filepath v) EmptyString then [("filepath", "Filepath is required")]
   else []) ++
  (if filesize v <? 0 then [("filesize", "Filesize cannot be negative")] else []) ++
  (match duration v with
   | Some d => if d <? 0 then [("duration", "Duration cannot be negative")] else []
   | None => []
   end) ++
  (if String.eqb (mimeType v) EmptyString then [("mimeType", "MIME type is required")]
   else if inList (mimeType v) mimeTypeEnum then []
   else [("mimeType", "Unsupported video format")]) ++
  (if String.eqb (uploadedBy v) EmptyString
   then [("uploadedBy", "Uploader reference is required")] else []) ++
  (if processingProgress v <? 0
   then [("processingProgress", "Progress cannot be less than 0")] else []) ++
  (if 100 <? processingProgress v
   then [("processingProgress", "Progress cannot exceed 100")] else []).

(** The [pre('save')] hook: a document without an organization takes the
    organization of its uploader, when that user exists and has one. *)
Definition preSave (users : gmap string UserModel.User) (v : Video) : Video :=
  if negb (JS.truthy (organization v)) && JS.truthyStr (uploadedBy v) then
    match users !! uploadedBy v with
    | Some u =>
        if JS.truthy (UserModel.organization u)
        then withOrganization (UserModel.organization u) v
        else v
    | None => v
    end
  else v.

(** [incrementViews]: the count goes up by one and the document is saved
    with [validateBeforeSave: false]; the save hook still runs. *)
Definition incrementViews (users : gmap string UserModel.User) (v : Video) : Video :=
  preSave users (withViewCount (viewCount v + 1) v).

(** [softDelete]: the flag is set and the document saved (the deletion
    timestamp is not modelled).  The file on disk is left in place. *)
Definition softDelete (users : gmap string UserModel.User) (v : Video) : Video :=
  preSave users (withIsDeleted true v).

End VideoModel.

(** ** utils/apiResponse.js, and the shape of an HTTP response *)

Module ApiResponse.

Module HttpStatus.
Definition OK : Z := 200.
Definition CREATED : Z := 201.
Definition NO_CONTENT : Z := 204.
Definition BAD_REQUEST : Z := 400.
Definition UNAUTHORIZED : Z := 401.
Definition FORBIDDEN : Z := 403.
Definition NOT_FOUND : Z := 404.
Definition CONFLICT : Z := 409.
Definition INTERNAL_SERVER_ERROR : Z := 500.
End HttpStatus.

(** The [video] object of the upload acknowledgment.  [filesizeFormatted]
    and [createdAt] are left out (floating-point formatting and the clock). *)
Record UploadedView : Type := mkUploadedView {
  up_id : string;
  up_title : string;
  up_description : string;
  up_filename : string;
  up_originalFilename : string;
  up_filesize : Z;
  up_mimeType : string;
  up_status : string;
  up_sensitivityStatus : string;
  up_processingProgress : Z;
}.

Inductive Payload : Type :=
  | UploadPayload (v : UploadedView)
  (** the fields of the document that [getVideoById] copies into its
      answer, carried here as the document itself *)
  | VideoPayload (v : VideoModel.Video).

Inductive Body : Type :=
  (** [res.json({ success, message, data })] *)
  | Json (success : bool) (message : string) (data : option Payload)
  (** [fs.createReadStream(...).pipe(res)]: the bytes read *)
  | Piped (bytes : list Byte.byte)
  (** [res.writeHead] has set the status and the headers, but creating the
      stream threw before anything was written; the handler's [catch] finds
      [headersSent] set and sends nothing, so neither the head nor a body
      reaches the client *)
  | Unwritten.

Record Response : Type := mkResponse {
  statusCode : Z;
  headers : list (string * string);
  body : Body;
}.

(** The value of a response header, by name. *)
Definition header (name : string) (r : Response) : option string :=
  snd <$> List.find (fun h => String.eqb (fst h) name) (headers r).

Definition successResponse (data : option Payload) (message : string)
    (statusCode : Z) : Response :=
  {| statusCode := statusCode; headers := []; body := Json true message data |}.

Definition errorResponse (message : string) (statusCode : Z) : Response :=
  {| statusCode := statusCode; headers := []; body := Json false message None |}.

Definition createdResponse (data : option Payload) (message : string) : Response :=
  successResponse data message HttpStatus.CREATED.

(** What a controller does with a request: it answers, or hands an error to
    [next]. *)
Inductive Outcome : Type :=
  | Sent (r : Response)
  | Next (error : string).

End ApiResponse.

(** ** utils/fileUpload.js *)

Module FileUpload.

Definition ALLOWED_VIDEO_TYPES : list string :=
  ["video/mp4"; "video/mpeg"; "video/quicktime"; "video/x-msvideo";
   "video/webm"; "video/x-matroska"; "video/avi"; "video/mkv"].

Definition ALLOWED_EXTENSIONS : list string :=
  [".mp4"; ".mpeg"; ".mov"; ".avi"; ".webm"; ".mkv"].

Definition DEFAULT_MAX_SIZE : Z := 500 * 1024 * 1024.

(** [path.extname] of a bare file name (no directory part, as multer hands
    [originalname] over): from the last dot on, unless that dot opens the
    name; [".."] has no extension. *)
Definition extname (name : string) : string :=
  match reverse (JS.split "." name) with
  | [] | [_] => EmptyString
  | [_; EmptyString] => EmptyString
  | [EmptyString; EmptyString; EmptyString] => EmptyString
  | ext :: _ => String "." ext
  end.

(** [getMaxFileSize], from the value of [process.env.MAX_FILE_SIZE], read
    by [parseInt] without a radix. *)
Definition getMaxFileSize (envSize : option string) : Z :=
  match envSize with
  | Some s =>
      if JS.truthyStr s then
        match JS.parseIntNoRadix s with
        | Some n => n
        | None => DEFAULT_MAX_SIZE
        end
      else DEFAULT_MAX_SIZE
  | None => DEFAULT_MAX_SIZE
  end.

(** The part of a multipart request that carries the file. *)
Record IncomingFile : Type := mkIncomingFile {
  in_originalname : string;
  in_mimetype : string;
  in_content : list Byte.byte;
}.

(** [req.file] once multer has stored the upload. *)
Record File : Type := mkFile {
  originalname : string;
  mimetype : string;
  filename : string;
  path : string;
  size : Z;
}.

Inductive FilterError : Type := INVALID_FILE_TYPE | INVALID_EXTENSION.

Definition videoFileFilter (file : IncomingFile) : option FilterError :=
  if negb (VideoModel.inList (in_mimetype file) ALLOWED_VIDEO_TYPES)
  then Some INVALID_FILE_TYPE
  else if negb (VideoModel.inList (JS.toLowerCase (extname (in_originalname file)))
                  ALLOWED_EXTENSIONS)
  then Some INVALID_EXTENSION
  else None.

Definition filterErrorMessage (e : FilterError) : string :=
  match e with
  | INVALID_FILE_TYPE => "Invalid file type. Allowed types: MP4, MPEG, MOV, AVI, WebM, MKV"
  | INVALID_EXTENSION =>
      "Invalid file extension. Allowed: .mp4, .mpeg, .mov, .avi, .webm, .mkv"
  end.

(** [deleteFile]: the file is unlinked when it exists. *)
Definition deleteFile (files : gmap string (list Byte.byte)) (filepath : string)
    : gmap string (list Byte.byte) :=
  delete filepath files.

End FileUpload.

(** ** utils/videoProcessor.js *)

Module VideoProcessor.

(** The outcome of a call that may throw: the value, or the message of the
    error. *)
Inductive Result (A : Type) : Type :=
  | Ok (a : A)
  | Throw (message : string).
Arguments Ok {A} a.
Arguments Throw {A} message.

Definition UNSAFE_KEYWORDS : list string :=
  ["nsfw"; "explicit"; "violence"; "attack"; "kill"; "abuse"; "test-flag"].

(** The [metadata] argument of [analyzeSensitivity]; a field that is absent
    is [None]. *)
Record TextMetadata : Type := mkTextMetadata {
  meta_title : option string;
  meta_description : option string;
}.

(** [analyzeSensitivity].  [simulatedFlag] is the outcome of the draw
    [Math.random() < 0.1], supplied by the environment; it is only consulted
    when no keyword matched. *)
Definition analyzeSensitivity (metadata : TextMetadata) (simulatedFlag : bool)
    : VideoModel.SensitivityStatus :=
  if negb (JS.truthy (meta_title metadata)) && negb (JS.truthy (meta_description metadata))
  then VideoModel.SAFE
  else
    let content :=
      JS.toLowerCase (default EmptyString (meta_title metadata) +:+ " " +:+
                      default EmptyString (meta_description metadata)) in
    let hasUnsafeContent := existsb (JS.includes content) UNSAFE_KEYWORDS in
    if hasUnsafeContent then VideoModel.FLAGGED
    else if simulatedFlag then VideoModel.FLAGGED
    else VideoModel.SAFE.

(** What [getVideoMetadata] resolves with, as far as [processVideo] reads
    it; [probe_duration] is [metadata.duration || 0] already rounded to whole
    seconds, as [Math.round] leaves it. *)
Record ProbeData : Type := mkProbeData {
  probe_duration : Z;
  probe_width : option Z;
  probe_height : option Z;
  probe_codec : option string;
  probe_bitrate : Z;
  probe_hasAudio : bool;
}.

(** What the external tool does on one file: the answers of [ffprobe] and of
    the screenshot command (an error carries [err.message]), and the draw of
    the classifier call made inside [processVideo]. *)
Record Tool : Type := mkTool {
  ffprobe : Result ProbeData;
  screenshots : Result string;
  innerDraw : bool;
}.

Definition getVideoMetadata (tool : Tool) : Result ProbeData :=
  match ffprobe tool with
  | Ok m => Ok m
  | Throw message => Throw ("Failed to read video metadata: " +:+ message)
  end.

Definition generateThumbnail (tool : Tool) : Result string :=
  match screenshots tool with
  | Ok thumbnailPath => Ok thumbnailPath
  | Throw message => Throw ("Failed to generate thumbnail: " +:+ message)
  end.

Record ProcessingResult : Type := mkProcessingResult {
  res_duration : Z;
  res_thumbnailPath : option string;
  res_sensitivityStatus : VideoModel.SensitivityStatus;
  res_metadata : ProbeData;
}.

(** [processVideo]: an error of the probe is rethrown with a prefix; an
    error of the thumbnailer is caught and leaves [thumbnailPath] null. *)
Definition processVideo (tool : Tool) (videoMetadata : TextMetadata)
    : Result ProcessingResult :=
  match getVideoMetadata tool with
  | Throw message => Throw ("Video processing failed: " +:+ message)
  | Ok metadata =>
      let thumbnailPath :=
        match generateThumbnail tool with
        | Ok p => Some p
        | Throw _ => None
        end in
      let sensitivityStatus := analyzeSensitivity videoMetadata (innerDraw tool) in
      Ok {| res_duration := probe_duration metadata;
            res_thumbnailPath := thumbnailPath;
            res_sensitivityStatus := sensitivityStatus;
            res_metadata := metadata |}
  end.

End VideoProcessor.

(** ** The claims of a verified token, also [req.user] after [protect] *)

Module Auth.

Record TokenPayload : Type := mkTokenPayload {
  userId : string;
  email : string;
  role : string;
  organization : option string;
}.

End Auth.

(** ** controllers/videoController.js *)

Module VideoController.

Import VideoModel ApiResponse VideoProcessor.

(** The payload of a [videoStatusUpdate] event ([durationFormatted] is left
    out). *)
Record StatusEvent : Type := mkStatusEvent {
  ev_videoId : string;
  ev_status : string;
  ev_progress : Z;
  ev_message : string;
  ev_thumbnailPath : option string;
  ev_duration : option Z;
  ev_error : option string;
  ev_sensitivityStatus : option string;
}.

Definition progressEvent (videoId status : string) (progress : Z) (message : string)
    : StatusEvent :=
  {| ev_videoId := videoId; ev_status := status; ev_progress := progress;
     ev_message := message; ev_thumbnailPath := None; ev_duration := None;
     ev_error := None; ev_sensitivityStatus := None |}.

(** Everything the controllers read and write: the two collections, the
    files on disk, whether [global.io] is set, and the events emitted so far
    as (room, payload) in emission order. *)
Record World : Type := mkWorld {
  videos : gmap string Video;
  users : gmap string UserModel.User;
  files : gmap string (list Byte.byte);
  io : bool;
  emitted : list (string * StatusEvent);
}.

Definition setVideos (vs : gmap string Video) (w : World) : World :=
  {| videos := vs; users := users w; files := files w; io := io w;
     emitted := emitted w |}.

Definition setFiles (fs : gmap string (list Byte.byte)) (w : World) : World :=
  {| videos := videos w; users := users w; files := fs; io := io w;
     emitted := emitted w |}.

Definition setEmitted (es : list (string * StatusEvent)) (w : World) : World :=
  {| videos := videos w; users := users w; files := files w; io := io w;
     emitted := es |}.

(** *** A state-and-exception monad for the asynchronous controller code *)

Definition M (A : Type) : Type := World -> Result A * World.

Definition ret {A : Type} (a : A) : M A := fun w => (Ok a, w).

Definition bind {A B : Type} (c : M A) (k : A -> M B) : M B :=
  fun w =>
    match c w with
    | (Ok a, w') => k a w'
    | (Throw message, w') => (Throw message, w')
    end.

Definition liftResult {A : Type} (r : Result A) : M A := fun w => (r, w).

(** [try { body } catch (error) { handler(error.message) }] *)
Definition tryCatch {A : Type} (body : M A) (handler : string -> M A) : M A :=
  fun w =>
    match body w with
    | (Ok a, w') => (Ok a, w')
    | (Throw message, w') => handler message w'
    end.

Notation "x <- c ;; k" := (bind c (fun x => k))
  (at level 100, c at next level, right associativity).
Notation "c ;;; k" := (bind c (fun _ => k))
  (at level 100, right associativity).

(** [Video.findById(id)] *)
Definition findById (id : string) : M (option Video) :=
  fun w => (Ok (videos w !! id), w).

(** [Video.findByIdAndUpdate(id, update)]: nothing happens when no document
    has the id; validators do not run on updates. *)
Definition findByIdAndUpdate (id : string) (u : Update) : M unit :=
  fun w => (Ok tt, setVideos (alter (applyUpdate u) id (videos w)) w).

(** [if (global.io && userId) global.io.to(userId).emit('videoStatusUpdate', ev)] *)
Definition emitStatus (userId : string) (ev : StatusEvent) : M unit :=
  fun w =>
    if io w && JS.truthyStr userId
    then (Ok tt, setEmitted (emitted w ++ [(userId, ev)]) w)
    else (Ok tt, w).

(** What the environment answers during one run of the orchestrator. *)
Record Oracle : Type := mkOracle {
  ffmpegAvailable : bool;
  draw : bool;
  tool : Tool;
}.

(** [processVideoInBackground].  The [try] block is the argument of
    [tryCatch]; the only call of the block that can throw in this model is
    [processVideo], so the lookup that opens the block is written before it
    and [video] is in scope of the handler, as the [let video] of the source
    is. *)
Definition processVideoInBackground (env : Oracle) (videoId filePath : string)
    : M unit :=
  found <- findById videoId ;;
  match found with
  | None => ret tt
  | Some video =>
      let userId := uploadedBy video in
      tryCatch
        (emitStatus userId
           (progressEvent videoId "processing" 10 "Processing started") ;;;
         if negb (ffmpegAvailable env) then
           findByIdAndUpdate videoId
             {| set_status := Some COMPLETED; set_processingProgress := Some 100;
                set_processingError := None; set_sensitivityStatus := None;
                set_duration := None; set_thumbnailPath := None |} ;;;
           emitStatus userId
             (progressEvent videoId "completed" 100
                "Video uploaded (FFmpeg not available for processing)")
         else
           findByIdAndUpdate videoId
             {| set_status := None; set_processingProgress := Some 30;
                set_processingError := None; set_sensitivityStatus := None;
                set_duration := None; set_thumbnailPath := None |} ;;;
           emitStatus userId
             (progressEvent videoId "processing" 30 "Extracting metadata...") ;;;
           let videoMetadata :=
             {| meta_title := Some (title video);
                meta_description := Some (description video) |} in
           let sensitivityStatus := analyzeSensitivity videoMetadata (draw env) in
           findByIdAndUpdate videoId
             {| set_status := None; set_processingProgress := None;
                set_processingError := None;
                set_sensitivityStatus := Some sensitivityStatus;
                set_duration := None; set_thumbnailPath := None |} ;;;
           result <- liftResult (processVideo (tool env) videoMetadata) ;;
           findByIdAndUpdate videoId
             {| set_status := None; set_processingProgress := Some 80;
                set_processingError := None; set_sensitivityStatus := None;
                set_duration := None; set_thumbnailPath := None |} ;;;
           emitStatus userId
             (progressEvent videoId "processing" 80 "Generating thumbnail...") ;;;
           findByIdAndUpdate videoId
             {| set_status := Some COMPLETED; set_processingProgress := Some 100;
                set_processingError := None; set_sensitivityStatus := None;
                set_duration := Some (res_duration result);
                set_thumbnailPath := Some (res_thumbnailPath result) |} ;;;
           emitStatus userId
             {| ev_videoId := videoId; ev_status := "completed";
                ev_progress := 100; ev_message := "Processing complete";
                ev_thumbnailPath := res_thumbnailPath result;
                ev_duration := Some (res_duration result);
                ev_error := None;
                ev_sensitivityStatus := Some (sensitivityString sensitivityStatus) |})
        (fun message =>
           findByIdAndUpdate videoId
             {| set_status := Some FAILED; set_processingProgress := Some 0;
                set_processingError := Some message;
                set_sensitivityStatus := None;
                set_duration := None; set_thumbnailPath := None |} ;;;
           emitStatus userId
             {| ev_videoId := videoId; ev_status := "failed"; ev_progress := 0;
                ev_message := "Processing failed: " +:+ message;
                ev_thumbnailPath := None; ev_duration := None;
                ev_error := Some message; ev_sensitivityStatus := None |})
  end.

(** *** Saving documents *)

(** The unique index on [filename]: some stored document other than [self]
    already has the name. *)
Definition filenameTaken (vs : gmap string Video) (self name : string) : bool :=
  bool_decide (map_Exists (fun k v => k <> self /\ filename v = name) vs).

(** The message of the [ValidationError] that [save] throws: each failure
    as its path, a colon and the validator's message. *)
Definition validationMessage (errors : list (string * string)) : string :=
  "Video validation failed: " +:+
  String.concat ", " (map (fun e => fst e +:+ ": " +:+ snd e) errors).

(** [doc.save()]: validation, then the save hook, then the write, which the
    unique index may refuse.  The saved document is returned. *)
Definition save (doc : Video) : M Video :=
  fun w =>
    match validationErrors doc with
    | [] =>
        let saved := preSave (users w) doc in
        if filenameTaken (videos w) (_id saved) (filename saved)
        then (Throw "E11000 duplicate key error", w)
        else (Ok saved, setVideos (<[_id saved := saved]> (videos w)) w)
    | errors => (Throw (validationMessage errors), w)
    end.

(** The document that [Video.create(videoData)] builds: the data and the
    schema defaults, with the [trim] setters applied, under the fresh id
    [newId]. *)
Definition newDocument (newId : string) (videoData : Video) : Video :=
  {| _id := newId;
     title := JS.trim (title videoData);
     description := JS.trim (description videoData);
     filename := JS.trim (filename videoData);
     originalFilename := JS.trim (originalFilename videoData);
     filepath := filepath videoData;
     filesize := filesize videoData;
     duration := None;
     mimeType := mimeType videoData;
     resolution_width := None;
     resolution_height := None;
     bitrate := None;
     codec := None;
     uploadedBy := uploadedBy videoData;
     organization := JS.trim <$> organization videoData;
     status := status videoData;
     sensitivityStatus := sensitivityStatus videoData;
     processingProgress := processingProgress videoData;
     processingError := None;
     thumbnailPath := None;
     viewCount := 0;
     isPublic := false;
     isDeleted := false |}.

(** [Video.create(videoData)] *)
Definition create (newId : string) (videoData : Video) : M Video :=
  save (newDocument newId videoData).

Definition withProcessing (v : Video) : Video :=
  applyUpdate
    {| set_status := Some PROCESSING; set_processingProgress := Some 10;
       set_processingError := None; set_sensitivityStatus := None;
       set_duration := None; set_thumbnailPath := None |} v.

(** *** uploadVideo *)

(** The request as the controller sees it, after [protect] and multer
    ([req.body.tags] is not modelled). *)
Record UploadRequest : Type := mkUploadRequest {
  req_file : option FileUpload.File;
  req_title : option string;
  req_description : option string;
  req_user : Auth.TokenPayload;
}.

(** The answer of the upload controller and the background call it made, as
    (videoId, filePath). *)
Record UploadResult : Type := mkUploadResult {
  outcome : Outcome;
  scheduled : option (string * string);
}.

Definition uploadedView (video : Video) : UploadedView :=
  {| up_id := _id video;
     up_title := title video;
     up_description := description video;
     up_filename := filename video;
     up_originalFilename := originalFilename video;
     up_filesize := filesize video;
     up_mimeType := mimeType video;
     up_status := statusString (status video);
     up_sensitivityStatus := sensitivityString (sensitivityStatus video);
     up_processingProgress := processingProgress video |}.

(** The [videoData] object of [uploadVideo] (the [_id] is not part of it). *)
Definition videoDataOf (req : UploadRequest) (file : FileUpload.File) : Video :=
  {| _id := EmptyString;
     title := JS.trim (default EmptyString (req_title req));
     description :=
       if JS.truthy (req_description req)
       then JS.trim (default EmptyString (req_description req))
       else EmptyString;
     filename := FileUpload.filename file;
     originalFilename := FileUpload.originalname file;
     filepath := FileUpload.path file;
     filesize := FileUpload.size file;
     duration := None;
     mimeType := FileUpload.mimetype file;
     resolution_width := None;
     resolution_height := None;
     bitrate := None;
     codec := None;
     uploadedBy := Auth.userId (req_user req);
     organization :=
       if JS.truthy (Auth.organization (req_user req))
       then Auth.organization (req_user req) else None;
     status := UPLOADING;
     sensitivityStatus := PENDING;
     processingProgress := 0;
     processingError := None;
     thumbnailPath := None;
     viewCount := 0;
     isPublic := false;
     isDeleted := false |}.

(** [uploadVideo].  [newId] is the id the database assigns.  The [catch]
    block deletes the file only while [video] is still null, that is when
    [create] threw. *)
Definition uploadVideo (newId : string) (req : UploadRequest) (w : World)
    : UploadResult * World :=
  match req_file req with
  | None =>
      ({| outcome := Sent (errorResponse
                             "No video file uploaded. Please select a video file."
                             HttpStatus.BAD_REQUEST);
          scheduled := None |}, w)
  | Some file =>
      let uploadedFilePath := FileUpload.path file in
      if negb (JS.truthy (req_title req))
         || negb (JS.truthyStr (JS.trim (default EmptyString (req_title req))))
      then
        ({| outcome := Sent (errorResponse "Video title is required."
                               HttpStatus.BAD_REQUEST);
            scheduled := None |},
         setFiles (FileUpload.deleteFile (files w) uploadedFilePath) w)
      else
        match create newId (videoDataOf req file) w with
        | (Throw message, w1) =>
            ({| outcome := Next message; scheduled := None |},
             if JS.truthyStr uploadedFilePath
             then setFiles (FileUpload.deleteFile (files w1) uploadedFilePath) w1
             else w1)
        | (Ok created, w1) =>
            match save (withProcessing created) w1 with
            | (Throw message, w2) =>
                ({| outcome := Next message; scheduled := None |}, w2)
            | (Ok video, w2) =>
                ({| outcome :=
                      Sent (createdResponse
                              (Some (UploadPayload (uploadedView video)))
                              "Video uploaded successfully. Processing started.");
                    scheduled := Some (_id video, uploadedFilePath) |}, w2)
            end
        end
  end.

(** A record as the upload controller leaves it: in processing at 10, with
    nothing derived yet and no verdict. *)
Definition freshlyUploaded (v : Video) : Prop :=
  status v = PROCESSING /\ processingProgress v = 10 /\
  sensitivityStatus v = PENDING /\ processingError v = None /\
  duration v = None /\ resolution_width v = None /\ resolution_height v = None /\
  bitrate v = None /\ codec v = None /\ thumbnailPath v = None.

(** *** The upload route: multer, [handleMulterError], then the controller *)

Section UploadRoute.

(** [process.env.MAX_FILE_SIZE], and [formatFileSize], whose floating-point
    arithmetic is not modelled. *)
Variable MAX_FILE_SIZE : option string.
Variable formatFileSize : Z -> string.

(** [req.file] for an upload that multer stored under the generated name
    [storedName], at [storedPath] in the videos directory. *)
Definition storedFile (storedName storedPath : string) (f : FileUpload.IncomingFile)
    : FileUpload.File :=
  {| FileUpload.originalname := FileUpload.in_originalname f;
     FileUpload.mimetype := FileUpload.in_mimetype f;
     FileUpload.filename := storedName;
     FileUpload.path := storedPath;
     FileUpload.size := Z.of_nat (length (FileUpload.in_content f)) |}.

(** The file filter runs first, then the size limit while the bytes are
    written: the parser reports the limit as soon as the bytes read reach
    [limits.fileSize], so a file of exactly that size is refused like a
    larger one.  The limit is taken to be positive, as it is wherever uploads
    are meant to be accepted.  A rejected upload leaves no file behind. *)
Definition uploadRoute (storedName storedPath newId : string)
    (incoming : option FileUpload.IncomingFile)
    (bodyTitle bodyDescription : option string) (user : Auth.TokenPayload)
    (w : World) : UploadResult * World :=
  match incoming with
  | None =>
      uploadVideo newId
        {| req_file := None; req_title := bodyTitle;
           req_description := bodyDescription; req_user := user |} w
  | Some f =>
      match FileUpload.videoFileFilter f with
      | Some e =>
          ({| outcome := Sent {| statusCode := 400; headers := [];
                                 body := Json false (FileUpload.filterErrorMessage e) None |};
              scheduled := None |}, w)
      | None =>
          let size := Z.of_nat (length (FileUpload.in_content f)) in
          let limit := FileUpload.getMaxFileSize MAX_FILE_SIZE in
          if limit <=? size then
            ({| outcome :=
                  Sent {| statusCode := 400; headers := [];
                          body := Json false
                                    ("File too large. Maximum size is " +:+
                                     formatFileSize limit) None |};
                scheduled := None |}, w)
          else
            uploadVideo newId
              {| req_file := Some (storedFile storedName storedPath f);
                 req_title := bodyTitle;
                 req_description := bodyDescription;
                 req_user := user |}
              (setFiles (<[storedPath := FileUpload.in_content f]> (files w)) w)
      end
  end.

End UploadRoute.

(** *** getVideoById *)

(** [getVideoById] for the authenticated [user].  The query selects on
    [_id] and [isDeleted: false]; [populate] replaces [uploadedBy] by the
    user document, or by null when there is none, in which case reading
    [uploadedBy._id] throws and the error goes to [next]. *)
Definition getVideoById (user : Auth.TokenPayload) (id : string) (w : World)
    : Outcome * World :=
  match videos w !! id with
  | None => (Sent (errorResponse "Video not found" HttpStatus.NOT_FOUND), w)
  | Some video =>
      if isDeleted video
      then (Sent (errorResponse "Video not found" HttpStatus.NOT_FOUND), w)
      else
        match users w !! uploadedBy video with
        | None => (Next "Cannot read properties of null (reading '_id')", w)
        | Some _ =>
            let isOwner := String.eqb (uploadedBy video) (Auth.userId user) in
            let sameOrg :=
              JS.truthy (organization video)
              && JS.strictEq (organization video) (Auth.organization user) in
            let isAdmin := String.eqb (Auth.role user) "admin" in
            if negb isOwner && negb isAdmin && negb (sameOrg && isPublic video)
            then (Sent (errorResponse "You do not have permission to view this video"
                          HttpStatus.FORBIDDEN), w)
            else
              let video' := if negb isOwner then incrementViews (users w) video else video in
              (Sent (successResponse (Some (VideoPayload video'))
                       "Video retrieved successfully" HttpStatus.OK),
               if negb isOwner then setVideos (<[id := video']> (videos w)) w else w)
        end
  end.

(** *** streamVideo *)

Record StreamRequest : Type := mkStreamRequest {
  params_id : string;
  query_token : option string;
  headers_range : option string;
}.

Definition jsonError (code : Z) (message : string) : Response :=
  {| statusCode := code; headers := []; body := Json false message None |}.

(** [fs.createReadStream(path, { start, end })] read to the end: the bytes
    from offset [start] to offset [end] inclusive, cut at the end of the
    file.  Node refuses a [start] or [end] that is not an integer between 0
    and [MAX_SAFE_INTEGER], and a [start] above [end], by throwing; that is
    [None]. *)
Definition createReadStream (content : list Byte.byte) (start end_ : JS.jsnum)
    : option (list Byte.byte) :=
  match start, end_ with
  | Some s, Some e =>
      if (0 <=? s) && (s <=? JS.MAX_SAFE_INTEGER)
         && (0 <=? e) && (e <=? JS.MAX_SAFE_INTEGER) && (s <=? e)
      then Some (take (Z.to_nat (e - s + 1)) (drop (Z.to_nat s) content))
      else None
  | _, _ => None
  end.

(** STEP 2 of [streamVideo]: [true] when the request is answered 403 there.
    Nothing in the block can throw on a stored document, whose [uploadedBy]
    is set, so the [try]/[catch] around it never takes its handler. *)
Definition ownershipDenied (decoded : Auth.TokenPayload) (video : Video) : bool :=
  if String.eqb (Auth.role decoded) "admin" then false
  else
    let videoOwnerId := uploadedBy video in
    if negb (String.eqb videoOwnerId (Auth.userId decoded)) then
      negb (isPublic video)
      && (negb (JS.truthy (Auth.organization decoded))
          || negb (JS.strictEq (organization video) (Auth.organization decoded)))
    else false.

(** The byte-serving tail of [streamVideo], from the look-up of the file
    on. *)
Definition serveBytes (w : World) (video : Video) (range : option string)
    : Response :=
  let videoPath := filepath video in
  match (if JS.truthyStr videoPath then files w !! videoPath else None) with
  | None => jsonError HttpStatus.NOT_FOUND "Video file not found"
  | Some content =>
      let fileSize := Z.of_nat (length content) in
      if negb (JS.truthy range) then
        {| statusCode := 200;
           headers := [("Content-Length", JS.numberToString (Some fileSize));
                       ("Content-Type", "video/mp4")];
           body := Piped content |}
      else
        let parts := JS.split "-" (JS.removeFirst "bytes=" (default EmptyString range)) in
        let start := JS.parseInt (default EmptyString (parts !! 0%nat)) in
        let end_ :=
          match parts !! 1%nat with
          | Some p => if JS.truthyStr p then JS.parseInt p else Some (fileSize - 1)
          | None => Some (fileSize - 1)
          end in
        let chunksize := JS.jsAdd (JS.jsSub end_ start) (Some 1) in
        {| statusCode := 206;
           headers :=
             [("Content-Range",
               "bytes " +:+ JS.numberToString start +:+ "-" +:+
               JS.numberToString end_ +:+ "/" +:+ JS.numberToString (Some fileSize));
              ("Accept-Ranges", "bytes");
              ("Content-Length", JS.numberToString chunksize);
              ("Content-Type", "video/mp4")];
           body :=
             match createReadStream content start end_ with
             | Some bytes => Piped bytes
             | None => Unwritten
             end |}
  end.

Section Stream.

(** [jwt.verify(token, process.env.JWT_SECRET)]: the claims of a token that
    is well formed, signed with the secret and not expired; [None] when the
    library throws. *)
Variable jwt_verify : string -> option Auth.TokenPayload.

(** [streamVideo].  [params_id] ranges over well-formed document ids; on any
    other string the look-up itself throws and the outer handler answers
    500. *)
Definition streamVideo (req : StreamRequest) (w : World) : Response :=
  if negb (JS.truthy (query_token req)) then
    jsonError HttpStatus.UNAUTHORIZED "Authentication token required"
  else
    match jwt_verify (default EmptyString (query_token req)) with
    | None => jsonError HttpStatus.UNAUTHORIZED "Invalid or expired token"
    | Some decoded =>
        match videos w !! params_id req with
        | None => jsonError HttpStatus.NOT_FOUND "Video not found"
        | Some video =>
            if ownershipDenied decoded video then
              jsonError HttpStatus.FORBIDDEN
                "You do not have permission to access this video"
            else if negb (VideoStatus_eqb (status video) COMPLETED) then
              jsonError HttpStatus.BAD_REQUEST "Video is still being processed"
            else if SensitivityStatus_eqb (sensitivityStatus video) FLAGGED
                    && negb (String.eqb (Auth.role decoded) "admin") then
              jsonError HttpStatus.FORBIDDEN
                "Content flagged as sensitive. Admin access required."
            else serveBytes w video (headers_range req)
        end
    end.

End Stream.

End VideoController.

(** ** frontend/src/services/socketService.js *)

Module SocketService.

(** A callback passed by a component.  Function values are compared by
    identity ([===]); the number is that identity. *)
Definition Callback : Type := nat.

(** The closure [handler] that [addListener] creates around a callback; each
    call creates a new function value, identified by [handler_id]. *)
Record Handler : Type := mkHandler {
  handler_id : nat;
  handler_callback : Callback;
}.

Definition Handler_eqb (a b : Handler) : bool :=
  Nat.eqb (handler_id a) (handler_id b).

(** The socket.io client object: its [connected] flag and the handlers
    registered with [socket.on], oldest first. *)
Record Socket : Type := mkSocket {
  connected : bool;
  registered : list (string * Handler);
}.

(** The fields of the [SocketService] singleton, and the counter that names
    the next closure. *)
Record State : Type := mkState {
  socket : option Socket;
  isConnected : bool;
  listeners : gmap string Handler;
  pendingSubscriptions : list (string * Callback);
  nextHandler : nat;
}.

Definition initial : State :=
  {| socket := None; isConnected := false; listeners := ∅;
     pendingSubscriptions := []; nextHandler := 0 |}.

Definition eventName : string := "videoStatusUpdate".

(** [socket.on(eventName, handler)] *)
Definition socket_on (name : string) (h : Handler) (s : Socket) : Socket :=
  {| connected := connected s; registered := registered s ++ [(name, h)] |}.

(** [socket.off(eventName, handler)]: the first registration of that very
    function for the event is removed. *)
Fixpoint removeRegistration (name : string) (h : Handler)
    (l : list (string * Handler)) : list (string * Handler) :=
  match l with
  | [] => []
  | (n, h') :: rest =>
      if String.eqb n name && Handler_eqb h' h then rest
      else (n, h') :: removeRegistration name h rest
  end.

Definition socket_off (name : string) (h : Handler) (s : Socket) : Socket :=
  {| connected := connected s;
     registered := removeRegistration name h (registered s) |}.

(** [addListener] *)
Definition addListener (name : string) (callback : Callback) (st : State) : State :=
  match socket st with
  | None => st
  | Some s =>
      let handler := {| handler_id := nextHandler st; handler_callback := callback |} in
      {| socket := Some (socket_on name handler s);
         isConnected := isConnected st;
         listeners := <[name := handler]> (listeners st);
         pendingSubscriptions := pendingSubscriptions st;
         nextHandler := S (nextHandler st) |}
  end.

(** [processPendingSubscriptions]: the queue is shifted empty, each entry
    going through [addListener] in order. *)
Definition processPendingSubscriptions (st : State) : State :=
  fold_left (fun acc sub => addListener (fst sub) (snd sub) acc)
    (pendingSubscriptions st)
    {| socket := socket st; isConnected := isConnected st;
       listeners := listeners st; pendingSubscriptions := [];
       nextHandler := nextHandler st |}.

(** [connect(token)]: nothing happens when the socket is connected or the
    token is missing; otherwise a new socket object replaces the old one. *)
Definition connect (token : option string) (st : State) : State :=
  if match socket st with Some s => connected s | None => false end then st
  else if negb (JS.truthy token) then st
  else {| socket := Some {| connected := false; registered := [] |};
          isConnected := isConnected st; listeners := listeners st;
          pendingSubscriptions := pendingSubscriptions st;
          nextHandler := nextHandler st |}.

(** The transport reports ['connect'] on the current socket. *)
Definition onConnect (st : State) : State :=
  match socket st with
  | None => st
  | Some s =>
      processPendingSubscriptions
        {| socket := Some {| connected := true; registered := registered s |};
           isConnected := true; listeners := listeners st;
           pendingSubscriptions := pendingSubscriptions st;
           nextHandler := nextHandler st |}
  end.

(** The transport reports ['disconnect']: the socket object and its
    registrations stay. *)
Definition onDisconnect (st : State) : State :=
  match socket st with
  | None => st
  | Some s =>
      {| socket := Some {| connected := false; registered := registered s |};
         isConnected := false; listeners := listeners st;
         pendingSubscriptions := pendingSubscriptions st;
         nextHandler := nextHandler st |}
  end.

(** The transport reports ['reconnect']. *)
Definition onReconnect (st : State) : State :=
  match socket st with
  | None => st
  | Some _ => processPendingSubscriptions st
  end.

(** [disconnect()] *)
Definition disconnect (st : State) : State :=
  match socket st with
  | None => st
  | Some _ =>
      {| socket := None; isConnected := false; listeners := ∅;
         pendingSubscriptions := []; nextHandler := nextHandler st |}
  end.

(** [subscribeToVideoUpdates(callback)]: the state after the call.  The
    function it returns is [unsubscribe callback]. *)
Definition subscribeToVideoUpdates (callback : Callback) (st : State) : State :=
  match socket st with
  | Some s =>
      if connected s then addListener eventName callback st
      else {| socket := socket st; isConnected := isConnected st;
              listeners := listeners st;
              pendingSubscriptions := pendingSubscriptions st ++ [(eventName, callback)];
              nextHandler := nextHandler st |}
  | None =>
      {| socket := socket st; isConnected := isConnected st;
         listeners := listeners st;
         pendingSubscriptions := pendingSubscriptions st ++ [(eventName, callback)];
         nextHandler := nextHandler st |}
  end.

Definition purgePending (callback : Callback) (l : list (string * Callback))
    : list (string * Callback) :=
  List.filter (fun sub => negb (String.eqb (fst sub) eventName && Nat.eqb (snd sub) callback)) l.

(** The closure returned by [subscribeToVideoUpdates(callback)].  The socket
    is only dereferenced under the guard [this.socket && ...], so no call of
    it can throw. *)
Definition unsubscribe (callback : Callback) (st : State) : State :=
  match socket st, listeners st !! eventName with
  | Some s, Some handler =>
      {| socket := Some (socket_off eventName handler s);
         isConnected := isConnected st;
         listeners := delete eventName (listeners st);
         pendingSubscriptions := purgePending callback (pendingSubscriptions st);
         nextHandler := nextHandler st |}
  | _, _ =>
      {| socket := socket st; isConnected := isConnected st;
         listeners := listeners st;
         pendingSubscriptions := purgePending callback (pendingSubscriptions st);
         nextHandler := nextHandler st |}
  end.

(** The server emits [name]: the callbacks that run, in order. *)
Definition delivered (name : string) (st : State) : list Callback :=
  match socket st with
  | None => []
  | Some s =>
      map (fun r => handler_callback (snd r))
        (List.filter (fun r => String.eqb (fst r) name) (registered s))
  end.

End SocketService.

(** ** A concrete deployment, used to run the code on explicit requests *)

Module Scenario.

Import VideoModel VideoController.

(** Alice owns every record; Carol shares her organization, Bob does not;
    Root is an administrator. *)
Definition alice : Auth.TokenPayload :=
  {| Auth.userId := "u-alice"; Auth.email := "alice@acme.test";
     Auth.role := "editor"; Auth.organization := Some "acme" |}.

Definition bob : Auth.TokenPayload :=
  {| Auth.userId := "u-bob"; Auth.email := "bob@globex.test";
     Auth.role := "viewer"; Auth.organization := Some "globex" |}.

Definition carol : Auth.TokenPayload :=
  {| Auth.userId := "u-carol"; Auth.email := "carol@acme.test";
     Auth.role := "viewer"; Auth.organization := Some "acme" |}.

Definition root : Auth.TokenPayload :=
  {| Auth.userId := "u-root"; Auth.email := "root@videohub.test";
     Auth.role := "admin"; Auth.organization := None |}.

Definition jwt_verify (token : string) : option Auth.TokenPayload :=
  if String.eqb token "token-alice" then Some alice
  else if String.eqb token "token-bob" then Some bob
  else if String.eqb token "token-carol" then Some carol
  else if String.eqb token "token-root" then Some root
  else None.

(** A file of 1000 bytes; the byte at offset [i] is [i mod 256]. *)
Definition bytes1000 : list Byte.byte :=
  map (fun i => default Byte.x00 (Byte.of_nat (i mod 256))) (seq 0 1000).

Definition pathOf (id : string) : string := "uploads/videos/" +:+ id +:+ ".mp4".

Definition clip (id title : string) (public : bool) (st : VideoStatus)
    (verdict : SensitivityStatus) (deleted : bool) : Video :=
  {| _id := id; title := title; description := EmptyString;
     filename := id +:+ ".mp4"; originalFilename := "holiday.mp4";
     filepath := pathOf id; filesize := 1000; duration := None;
     mimeType := "video/mp4";
     resolution_width := None; resolution_height := None;
     bitrate := None; codec := None;
     uploadedBy := "u-alice"; organization := Some "acme";
     status := st; sensitivityStatus := verdict;
     processingProgress := match st with COMPLETED => 100 | FAILED => 0 | _ => 10 end;
     processingError := None; thumbnailPath := None;
     viewCount := 0; isPublic := public; isDeleted := deleted |}.

Definition library : gmap string Video :=
  list_to_map
    [("v-public", clip "v-public" "holiday" true COMPLETED SAFE false);
     ("v-private", clip "v-private" "holiday" false COMPLETED SAFE false);
     ("v-flagged", clip "v-flagged" "explicit content test" true COMPLETED FLAGGED false);
     ("v-processing", clip "v-processing" "holiday" false PROCESSING PENDING false);
     ("v-deleted", clip "v-deleted" "holiday" true COMPLETED SAFE true);
     ("v-new", clip "v-new" "explicit content test" false PROCESSING PENDING false)].

Definition disk : gmap string (list Byte.byte) :=
  list_to_map
    (map (fun id => (pathOf id, bytes1000))
       ["v-public"; "v-private"; "v-flagged"; "v-processing"; "v-deleted"; "v-new"]).

Definition accounts : gmap string UserModel.User :=
  {[ "u-alice" := {| UserModel.username := "alice";
                     UserModel.email := "alice@acme.test";
                     UserModel.role := "editor";
                     UserModel.organization := Some "acme" |} ]}.

Definition world : World :=
  {| videos := library; users := accounts; files := disk; io := true;
     emitted := [] |}.

Definition request (id token : string) (range : option string) : StreamRequest :=
  {| params_id := id; query_token := Some token; headers_range := range |}.

(** Four runs of the external tool: absent, failing at the probe, failing
    at the thumbnail, and working. *)
Definition probed : VideoProcessor.ProbeData :=
  {| VideoProcessor.probe_duration := 10;
     VideoProcessor.probe_width := Some 1280;
     VideoProcessor.probe_height := Some 720;
     VideoProcessor.probe_codec := Some "h264";
     VideoProcessor.probe_bitrate := 800000;
     VideoProcessor.probe_hasAudio := true |}.

Definition toolWorking : VideoProcessor.Tool :=
  {| VideoProcessor.ffprobe := VideoProcessor.Ok probed;
     VideoProcessor.screenshots := VideoProcessor.Ok "uploads/thumbnails/thumb_1.png";
     VideoProcessor.innerDraw := false |}.

Definition toolProbeFails : VideoProcessor.Tool :=
  {| VideoProcessor.ffprobe := VideoProcessor.Throw "Invalid data found when processing input";
     VideoProcessor.screenshots := VideoProcessor.Ok "uploads/thumbnails/thumb_1.png";
     VideoProcessor.innerDraw := false |}.

Definition toolThumbnailFails : VideoProcessor.Tool :=
  {| VideoProcessor.ffprobe := VideoProcessor.Ok probed;
     VideoProcessor.screenshots := VideoProcessor.Throw "ffmpeg exited with code 1";
     VideoProcessor.innerDraw := false |}.

Definition run (available : bool) (t : VideoProcessor.Tool) : Oracle :=
  {| ffmpegAvailable := available; draw := false; tool := t |}.

(** An upload by Alice of a 1000-byte MP4 titled "demo". *)
Definition incoming : FileUpload.IncomingFile :=
  {| FileUpload.in_originalname := "demo.mp4";
     FileUpload.in_mimetype := "video/mp4";
     FileUpload.in_content := bytes1000 |}.

Definition upload (w : World) : UploadResult * World :=
  uploadRoute None (fun _ => "500 MB") "3f2a_1700000000000.mp4"
    "uploads/videos/3f2a_1700000000000.mp4"
    "v-demo" (Some incoming) (Some "demo") None alice w.

End Scenario.

(** ** models/Video.js: the instance methods and the duration virtual *)

Module VideoMethods.

Import VideoModel VideoProcessor VideoController.

(** [Math.min(100, Math.max(0, progress))] *)
Definition clampProgress (progress : Z) : Z := Z.min 100 (Z.max 0 progress).

(** The document [updateProgress(progress, status)] hands to [save]; a
    missing or empty [status] argument is [None].  The test for completion
    reads the argument, not the clamped field. *)
Definition progressed (progress : Z) (newStatus : option VideoStatus) (v : Video)
    : Video :=
  let moved :=
    applyUpdate
      {| set_status := newStatus;
         set_processingProgress := Some (clampProgress progress);
         set_processingError := None; set_sensitivityStatus := None;
         set_duration := None; set_thumbnailPath := None |} v in
  if (100 <=? progress) && VideoStatus_eqb (status moved) PROCESSING
  then applyUpdate
         {| set_status := Some COMPLETED; set_processingProgress := None;
            set_processingError := None; set_sensitivityStatus := None;
            set_duration := None; set_thumbnailPath := None |} moved
  else moved.

Definition updateProgress (progress : Z) (newStatus : option VideoStatus) (v : Video)
    : M Video :=
  save (progressed progress newStatus v).

(** [markAsFailed(error)] *)
Definition markAsFailed (error : string) (v : Video) : M Video :=
  save (applyUpdate
          {| set_status := Some FAILED; set_processingProgress := None;
             set_processingError := Some error; set_sensitivityStatus := None;
             set_duration := None; set_thumbnailPath := None |} v).

(** [n.toString().padStart(2, '0')] *)
Definition padStart2 (s : string) : string :=
  match String.length s with
  | O => "00"
  | S O => String "0" s
  | _ => s
  end.

Definition clock (d : Z) : string :=
  let hours := d / 3600 in
  let minutes := Z.rem d 3600 / 60 in
  let seconds := Z.rem d 60 in
  if 0 <? hours then
    JS.numberToString (Some hours) +:+ ":" +:+
    padStart2 (JS.numberToString (Some minutes)) +:+ ":" +:+
    padStart2 (JS.numberToString (Some seconds))
  else
    JS.numberToString (Some minutes) +:+ ":" +:+
    padStart2 (JS.numberToString (Some seconds)).

(** The virtual [durationFormatted]: null for a null or zero duration.
    Durations are whole seconds, as [Math.round] stores them. *)
Definition durationFormatted (v : Video) : option string :=
  match duration v with
  | None => None
  | Some d => if d =? 0 then None else Some (clock d)
  end.

(** The controller's own [formatDuration]. *)
Definition formatDuration (seconds : option Z) : string :=
  match seconds with
  | None => "0:00"
  | Some s => if (s =? 0) || (s <=? 0) then "0:00" else clock s
  end.

End VideoMethods.

(** ** utils/apiResponse.js: the pagination object of [paginatedResponse] *)

Module Pagination.

(** A number as [parseInt] and a division can produce it. *)
Inductive Num : Type :=
  | Fin (z : Z)
  | PosInf
  | NegInf
  | NaNv.

Definition ofParsed (n : JS.jsnum) : Num :=
  match n with
  | Some z => Fin z
  | None => NaNv
  end.

(** [Math.ceil(total / limit)] for a count [total]; the quotient of two
    integers below 2^53 is rounded by [Math.ceil] to the integer ceiling. *)
Definition ceilDiv (total : Z) (limit : Num) : Num :=
  match limit with
  | Fin 0 => if total =? 0 then NaNv else if 0 <? total then PosInf else NegInf
  | Fin l => Fin (- ((- total) / l))
  | PosInf | NegInf => Fin 0
  | NaNv => NaNv
  end.

(** [a < b] *)
Definition lt (a b : Num) : bool :=
  match a, b with
  | Fin x, Fin y => x <? y
  | Fin _, PosInf | NegInf, Fin _ | NegInf, PosInf => true
  | _, _ => false
  end.

Record Page : Type := mkPage {
  currentPage : Num;
  totalPages : Num;
  totalItems : Z;
  itemsPerPage : Num;
  hasNextPage : bool;
  hasPrevPage : bool;
}.

Definition pagination (page limit : Num) (total : Z) : Page :=
  let totalPages := ceilDiv total limit in
  {| currentPage := page;
     totalPages := totalPages;
     totalItems := total;
     itemsPerPage := limit;
     hasNextPage := lt page totalPages;
     hasPrevPage := lt (Fin 1) page |}.

End Pagination.

(** ** middleware/authMiddleware.js: [restrictTo] *)

Module AuthMiddleware.

Import ApiResponse.

(** [restrictTo(...roles)] on a request whose [req.user] is [user]: the
    answer it sends, or [None] when it calls [next()]. *)
Definition restrictTo (roles : list string) (user : option Auth.TokenPayload)
    : option Response :=
  match user with
  | None => Some (errorResponse "Authentication required." HttpStatus.UNAUTHORIZED)
  | Some u =>
      if negb (VideoModel.inList (Auth.role u) roles)
      then Some (errorResponse "You do not have permission to perform this action."
                   HttpStatus.FORBIDDEN)
      else None
  end.

End AuthMiddleware.

(** ** controllers/videoController.js: listing, statistics and management *)

Module VideoManagement.

Import VideoModel ApiResponse VideoProcessor VideoController.

(** *** getVideos: the query *)

(** The [status] query parameter is used when it names a state. *)
Definition statusFilter (status : option string) (v : Video) : bool :=
  match status with
  | Some s =>
      if JS.truthyStr s && inList s (map statusString [UPLOADING; PROCESSING; COMPLETED; FAILED])
      then String.eqb (statusString (VideoModel.status v)) s
      else true
  | None => true
  end.

(** The filter [getVideos] builds for [req.user]: not deleted, of the asked
    state, and the caller's own; for a caller with an organization, also the
    public documents of that organization. *)
Definition getVideosQuery (user : Auth.TokenPayload) (status : option string)
    (v : Video) : bool :=
  negb (isDeleted v) && statusFilter status v &&
  (if JS.truthy (Auth.organization user) then
     String.eqb (uploadedBy v) (Auth.userId user)
     || (JS.strictEq (organization v) (Auth.organization user) && isPublic v)
   else String.eqb (uploadedBy v) (Auth.userId user)).

(** The documents a filter selects, and [countDocuments]. *)
Definition selected (query : Video -> bool) (w : World) : list Video :=
  List.filter query (snd <$> map_to_list (videos w)).

Definition countDocuments (query : Video -> bool) (w : World) : Z :=
  Z.of_nat (length (selected query w)).

(** *** getVideoStats *)

Definition statsQuery (user : Auth.TokenPayload) (v : Video) : bool :=
  negb (isDeleted v) &&
  (if JS.truthy (Auth.organization user)
   then JS.strictEq (organization v) (Auth.organization user)
   else String.eqb (uploadedBy v) (Auth.userId user)).

Record StatusStat : Type := mkStatusStat {
  stat_count : Z;
  stat_totalSize : Z;
}.

Definition sumSizes (docs : list Video) : Z :=
  fold_right (fun v acc => filesize v + acc) 0 docs.

(** One group of the [$group] stage: nothing for a state no document is in. *)
Definition groupOf (docs : list Video) (s : VideoStatus) : option StatusStat :=
  match List.filter (fun v => VideoStatus_eqb (status v) s) docs with
  | [] => None
  | g => Some {| stat_count := Z.of_nat (length g); stat_totalSize := sumSizes g |}
  end.

(** The [data] of [getVideoStats] (the formatted sizes are left out). *)
Record Stats : Type := mkStats {
  totalVideos : Z;
  totalSize : Z;
  byStatus : VideoStatus -> option StatusStat;
}.

Definition getVideoStats (user : Auth.TokenPayload) (w : World) : Stats :=
  let docs := selected (statsQuery user) w in
  {| totalVideos := Z.of_nat (length docs);
     totalSize := match docs with [] => 0 | _ => sumSizes docs end;
     byStatus := groupOf docs |}.

(** The count and the size a group stands for; a state without a group
    counts for nothing. *)
Definition countOf (g : option StatusStat) : Z :=
  match g with
  | Some s => stat_count s
  | None => 0
  end.

Definition sizeOf (g : option StatusStat) : Z :=
  match g with
  | Some s => stat_totalSize s
  | None => 0
  end.

(** *** deleteVideo, updateVideo, toggleSensitivityStatus *)

(** What these controllers answer: the status code and message, the document
    they report on, and for the moderation toggle the verdict it replaced. *)
Record Reply : Type := mkReply {
  reply_code : Z;
  reply_success : bool;
  reply_message : string;
  reply_video : option Video;
  reply_previous : option SensitivityStatus;
}.

Inductive Result : Type :=
  | Answered (r : Reply)
  | PassedOn (error : string).

Definition refuse (code : Z) (message : string) : Result :=
  Answered {| reply_code := code; reply_success := false; reply_message := message;
              reply_video := None; reply_previous := None |}.

(** [deleteVideo]: the soft delete goes through [save], validators
    included. *)
Definition deleteVideo (user : Auth.TokenPayload) (id : string) (w : World)
    : Result * World :=
  match videos w !! id with
  | None => (refuse HttpStatus.NOT_FOUND "Video not found", w)
  | Some video =>
      let isOwner := String.eqb (uploadedBy video) (Auth.userId user) in
      let isAdmin := String.eqb (Auth.role user) "admin" in
      if negb isOwner && negb isAdmin then
        (refuse HttpStatus.FORBIDDEN "You do not have permission to delete this video", w)
      else
        match save (withIsDeleted true video) w with
        | (Throw message, w') => (PassedOn message, w')
        | (Ok _, w') =>
            (Answered {| reply_code := HttpStatus.OK; reply_success := true;
                         reply_message := "Video deleted successfully";
                         reply_video := None; reply_previous := None |}, w')
        end
  end.

Definition withTitle (t : string) (v : Video) : Video :=
  {| _id := _id v; title := t; description := description v;
     filename := filename v; originalFilename := originalFilename v;
     filepath := filepath v; filesize := filesize v; duration := duration v;
     mimeType := mimeType v;
     resolution_width := resolution_width v;
     resolution_height := resolution_height v;
     bitrate := bitrate v; codec := codec v;
     uploadedBy := uploadedBy v; organization := organization v;
     status := status v; sensitivityStatus := sensitivityStatus v;
     processingProgress := processingProgress v;
     processingError := processingError v; thumbnailPath := thumbnailPath v;
     viewCount := viewCount v; isPublic := isPublic v; isDeleted := isDeleted v |}.

Definition withDescription (d : string) (v : Video) : Video :=
  {| _id := _id v; title := title v; description := d;
     filename := filename v; originalFilename := originalFilename v;
     filepath := filepath v; filesize := filesize v; duration := duration v;
     mimeType := mimeType v;
     resolution_width := resolution_width v;
     resolution_height := resolution_height v;
     bitrate := bitrate v; codec := codec v;
     uploadedBy := uploadedBy v; organization := organization v;
     status := status v; sensitivityStatus := sensitivityStatus v;
     processingProgress := processingProgress v;
     processingError := processingError v; thumbnailPath := thumbnailPath v;
     viewCount := viewCount v; isPublic := isPublic v; isDeleted := isDeleted v |}.

Definition withIsPublic (b : bool) (v : Video) : Video :=
  {| _id := _id v; title := title v; description := description v;
     filename := filename v; originalFilename := originalFilename v;
     filepath := filepath v; filesize := filesize v; duration := duration v;
     mimeType := mimeType v;
     resolution_width := resolution_width v;
     resolution_height := resolution_height v;
     bitrate := bitrate v; codec := codec v;
     uploadedBy := uploadedBy v; organization := organization v;
     status := status v; sensitivityStatus := sensitivityStatus v;
     processingProgress := processingProgress v;
     processingError := processingError v; thumbnailPath := thumbnailPath v;
     viewCount := viewCount v; isPublic := b; isDeleted := isDeleted v |}.

(** The body of an update request; a field that is [undefined] is [None]
    ([tags] is not modelled). *)
Record UpdateBody : Type := mkUpdateBody {
  body_title : option string;
  body_description : option string;
  body_isPublic : option bool;
}.

Definition edited (body : UpdateBody) (v : Video) : Video :=
  let v1 := match body_title body with Some t => withTitle (JS.trim t) v | None => v end in
  let v2 := match body_description body with
            | Some d => withDescription (JS.trim d) v1
            | None => v1
            end in
  match body_isPublic body with
  | Some b => withIsPublic b v2
  | None => v2
  end.

(** [updateVideo] *)
Definition updateVideo (user : Auth.TokenPayload) (id : string) (body : UpdateBody)
    (w : World) : Result * World :=
  match videos w !! id with
  | None => (refuse HttpStatus.NOT_FOUND "Video not found", w)
  | Some video =>
      if isDeleted video then (refuse HttpStatus.NOT_FOUND "Video not found", w)
      else
        let isOwner := String.eqb (uploadedBy video) (Auth.userId user) in
        let isAdmin := String.eqb (Auth.role user) "admin" in
        if negb isOwner && negb isAdmin then
          (refuse HttpStatus.FORBIDDEN "You do not have permission to update this video", w)
        else
          match save (edited body video) w with
          | (Throw message, w') => (PassedOn message, w')
          | (Ok saved, w') =>
              (Answered {| reply_code := HttpStatus.OK; reply_success := true;
                           reply_message := "Video updated successfully";
                           reply_video := Some saved; reply_previous := None |}, w')
          end
  end.

(** A word between double quotes. *)
Definition quoted (s : string) : string :=
  String (ascii_of_nat 34) s +:+ String (ascii_of_nat 34) EmptyString.

(** The verdict a [status] body names, when it is ['safe'] or ['flagged']. *)
Definition verdictOf (status : option string) : option SensitivityStatus :=
  match status with
  | Some s =>
      if String.eqb s "safe" then Some SAFE
      else if String.eqb s "flagged" then Some FLAGGED
      else None
  | None => None
  end.

(** [toggleSensitivityStatus] *)
Definition toggleSensitivityStatus (id : string) (status : option string) (w : World)
    : Result * World :=
  match verdictOf status with
  | None =>
      (refuse HttpStatus.BAD_REQUEST
         ("Invalid status. Must be " +:+ quoted "safe" +:+ " or " +:+ quoted "flagged"), w)
  | Some verdict =>
      match videos w !! id with
      | None => (refuse HttpStatus.NOT_FOUND "Video not found", w)
      | Some video =>
          let previousStatus := sensitivityStatus video in
          match save (applyUpdate
                        {| set_status := None; set_processingProgress := None;
                           set_processingError := None;
                           set_sensitivityStatus := Some verdict;
                           set_duration := None; set_thumbnailPath := None |} video) w with
          | (Throw message, w') => (PassedOn message, w')
          | (Ok saved, w') =>
              (Answered {| reply_code := HttpStatus.OK; reply_success := true;
                           reply_message :=
                             "Video marked as " +:+ sensitivityString verdict;
                           reply_video := Some saved;
                           reply_previous := Some previousStatus |}, w')
          end
      end
  end.

Definition messageOf (r : Response) : string :=
  match body r with
  | Json _ message _ => message
  | _ => EmptyString
  end.

(** The route [PATCH /admin/:id/sensitivity]: [restrictTo('admin')] in front
    of the controller, for a request that [protect] let through with
    [req.user = user]. *)
Definition sensitivityRoute (user : Auth.TokenPayload) (id : string)
    (status : option string) (w : World) : Result * World :=
  match AuthMiddleware.restrictTo ["admin"] (Some user) with
  | Some r => (refuse (statusCode r) (messageOf r), w)
  | None => toggleSensitivityStatus id status w
  end.

End VideoManagement.

(** ** frontend/src/services/socketService.js: the rest of the service and
    its histories *)

Module SocketTraces.

Import SocketService.

(** [unsubscribeFromVideoUpdates()] *)
Definition unsubscribeFromVideoUpdates (st : State) : State :=
  match socket st, listeners st !! "videoStatusUpdate" with
  | Some s, Some handler =>
      {| socket := Some (socket_off "videoStatusUpdate" handler s);
         isConnected := isConnected st;
         listeners := delete "videoStatusUpdate" (listeners st);
         pendingSubscriptions := pendingSubscriptions st;
         nextHandler := nextHandler st |}
  | _, _ => st
  end.

(** [isSocketConnected()] *)
Definition isSocketConnected (st : State) : bool :=
  match socket st with
  | Some s => connected s
  | None => false
  end.

(** The handlers that [connect] puts on a socket stay on it when [connect]
    replaces the socket or [disconnect] drops it, and they act on the service,
    not on their socket.  An event ['connect'] of such a socket sets the flag
    and empties the queue onto the current socket, or into nothing when there
    is none; an event ['disconnect'] clears the flag; an event ['reconnect']
    empties the queue. *)
Definition onStaleConnect (st : State) : State :=
  processPendingSubscriptions
    {| socket := socket st; isConnected := true; listeners := listeners st;
       pendingSubscriptions := pendingSubscriptions st;
       nextHandler := nextHandler st |}.

Definition onStaleDisconnect (st : State) : State :=
  {| socket := socket st; isConnected := false; listeners := listeners st;
     pendingSubscriptions := pendingSubscriptions st;
     nextHandler := nextHandler st |}.

Definition onStaleReconnect (st : State) : State :=
  processPendingSubscriptions st.

(** What can happen to the service: a call of one of its methods, a call of
    a function returned by [subscribeToVideoUpdates], an event of the
    current socket, or an event of a socket that is no longer the current
    one. *)
Inductive Action : Type :=
  | Connect (token : option string)
  | TransportConnect
  | TransportDisconnect
  | TransportReconnect
  | StaleConnect
  | StaleDisconnect
  | StaleReconnect
  | Disconnect
  | Subscribe (callback : Callback)
  | Unsubscribe (callback : Callback)
  | UnsubscribeFromVideoUpdates.

Definition step (a : Action) (st : State) : State :=
  match a with
  | Connect token => connect token st
  | TransportConnect => onConnect st
  | TransportDisconnect => onDisconnect st
  | TransportReconnect => onReconnect st
  | StaleConnect => onStaleConnect st
  | StaleDisconnect => onStaleDisconnect st
  | StaleReconnect => onStaleReconnect st
  | Disconnect => disconnect st
  | Subscribe callback => subscribeToVideoUpdates callback st
  | Unsubscribe callback => unsubscribe callback st
  | UnsubscribeFromVideoUpdates => unsubscribeFromVideoUpdates st
  end.

(** The service after a history, from the freshly constructed singleton. *)
Definition run (actions : list Action) : State :=
  fold_left (fun st a => step a st) actions initial.

(** Every handler on the socket was named by a counter value already
    used. *)
Definition handlersFresh (st : State) : Prop :=
  forall s, socket st = Some s ->
    Forall (fun r => (handler_id (snd r) < nextHandler st)%nat) (registered s).

End SocketTraces.

(** ** More of the concrete deployment *)

Module Examples.

Import VideoModel VideoController.

(** Alice's public clip, with a duration of 1 h 2 min 5 s. *)
Definition timed : Video :=
  applyUpdate
    {| set_status := None; set_processingProgress := None;
       set_processingError := None; set_sensitivityStatus := None;
       set_duration := Some 3725; set_thumbnailPath := None |}
    (Scenario.clip "v-public" "holiday" true COMPLETED SAFE false).

(** An upload that declares the type [video/avi]. *)
Definition aviUpload : FileUpload.IncomingFile :=
  {| FileUpload.in_originalname := "clip.avi";
     FileUpload.in_mimetype := "video/avi";
     FileUpload.in_content := Scenario.bytes1000 |}.

(** An upload by Alice whose title is blank. *)
Definition untitledUpload (w : World) : UploadResult * World :=
  uploadRoute None (fun _ => "500 MB") "3f2a_1700000000000.mp4"
    "uploads/videos/3f2a_1700000000000.mp4"
    "v-demo" (Some Scenario.incoming) (Some "   ") None Scenario.alice w.

(** A service whose socket is still connecting, with callbacks 7 and 8
    waiting in the queue. *)
Definition connecting : SocketService.State :=
  SocketService.subscribeToVideoUpdates 8%nat
    (SocketService.subscribeToVideoUpdates 7%nat
       (SocketService.connect (Some "token") SocketService.initial)).

(** A history in which the socket is replaced while it is connecting, the
    replaced socket connects first, and the one listener is removed again;
    it ends with a connected socket. *)
Definition history : list SocketTraces.Action :=
  [SocketTraces.Subscribe 3%nat; SocketTraces.Connect (Some "token");
   SocketTraces.Connect (Some "token"); SocketTraces.StaleConnect;
   SocketTraces.TransportConnect; SocketTraces.Unsubscribe 3%nat].

End Examples.
(** * Theorems *)

(** ** Parsing a Range header *)

Section RangeParsing.

Import JS.

Lemma digit_plain c :
  isDigit c = true ->
  isStrWhiteSpace c = false /\ Ascii.eqb c "-" = false /\ Ascii.eqb c "+" = false.
Proof.
  destruct c as [[] [] [] [] [] [] [] []]; vm_compute; intros H;
    try discriminate H; repeat split.
Qed.

Lemma parseDigits_run s : forall acc t,
  allDigits s = true -> stopsDigits t = true ->
  parseDigits (s +:+ t) acc =
    match s with
    | EmptyString => acc
    | _ => Some (decimalValue s (default 0 acc))
    end.
Proof.
  induction s as [|c s IH]; intros acc t Hs Ht; simpl.
  - destruct t as [|c t]; [reflexivity|]. simpl in *.
    unfold isDigit in Ht. destruct (digitValue c); [discriminate|reflexivity].
  - simpl in Hs. apply andb_true_iff in Hs as [Hc Hs].
    unfold isDigit in Hc. destruct (digitValue c) as [d|] eqn:Hd; [|discriminate].
    rewrite (IH _ t Hs Ht). simpl. destruct s; reflexivity.
Qed.

(** [parseInt] reads a leading run of digits and ignores what follows. *)
Lemma parseInt_run s t :
  allDigits s = true -> s <> EmptyString -> stopsDigits t = true ->
  parseInt (s +:+ t) = Some (decimalValue s 0).
Proof.
  intros Hs Hne Ht. destruct s as [|c s]; [done|].
  pose proof Hs as Hs'. simpl in Hs'. apply andb_true_iff in Hs' as [Hc _].
  destruct (digit_plain c Hc) as (Hw & Hm & Hp).
  simpl in Hs. apply andb_true_iff in Hs as [_ Hs].
  unfold parseInt. simpl. rewrite Hw, Hm, Hp.
  unfold isDigit in Hc. destruct (digitValue c) as [d|]; [|discriminate].
  rewrite (parseDigits_run s _ t Hs Ht). destruct s; reflexivity.
Qed.

Lemma digitValue_nonneg c d : digitValue c = Some d -> 0 <= d.
Proof.
  unfold digitValue. destruct (_ && _) eqn:E; [|discriminate].
  intros [= <-]. apply andb_true_iff in E as [E _]. lia.
Qed.

Lemma decimalValue_nonneg s : forall acc,
  allDigits s = true -> 0 <= acc -> 0 <= decimalValue s acc.
Proof.
  induction s as [|c s IH]; intros acc Hs Hacc; [exact Hacc|].
  simpl in Hs. apply andb_true_iff in Hs as [Hc Hs]. simpl.
  apply IH; [exact Hs|]. unfold isDigit in Hc.
  destruct (digitValue c) as [d|] eqn:Hd; [|discriminate].
  apply digitValue_nonneg in Hd. simpl. lia.
Qed.

Lemma allDigits_noDash s : allDigits s = true -> noDash s = true.
Proof.
  induction s as [|c s IH]; [reflexivity|]. simpl. intros H.
  apply andb_true_iff in H as [Hc Hs].
  destruct (digit_plain c Hc) as (_ & Hm & _). rewrite Hm. simpl. auto.
Qed.

Lemma split_nonempty sep s : split sep s <> [].
Proof.
  destruct s as [|c s]; simpl; [done|].
  destruct (Ascii.eqb c sep); [done|]. destruct (split sep s); done.
Qed.

Lemma split_app_noDash s t :
  noDash s = true ->
  split "-" (s +:+ t) =
    match split "-" t with
    | h :: tl => (s +:+ h) :: tl
    | [] => [s]
    end.
Proof.
  induction s as [|c s IH]; intros H.
  - change (EmptyString +:+ t) with t.
    destruct (split "-" t) eqn:E; [by apply split_nonempty in E|reflexivity].
  - simpl in H. apply andb_true_iff in H as [Hc Hs].
    apply negb_true_iff in Hc.
    change (String c s +:+ t) with (String c (s +:+ t)).
    cbn [split]. rewrite Hc, (IH Hs).
    destruct (split "-" t) eqn:E; [by apply split_nonempty in E|reflexivity].
Qed.

Lemma append_empty_r s : s +:+ EmptyString = s.
Proof.
  induction s as [|c s IH]; [reflexivity|].
  change (String c s +:+ EmptyString) with (String c (s +:+ EmptyString)).
  by rewrite IH.
Qed.

(** Splitting ["a-b,rest"] at the dashes: the first part is [a], the second
    starts with [b] followed by the comma. *)
Lemma split_first_range a b rest :
  allDigits a = true -> allDigits b = true ->
  exists h tl,
    split "-" (a +:+ "-" +:+ b +:+ "," +:+ rest) = a :: (b +:+ "," +:+ h) :: tl.
Proof.
  intros Ha Hb.
  rewrite (split_app_noDash a _ (allDigits_noDash a Ha)).
  change ("-" +:+ b +:+ "," +:+ rest) with (String "-" (b +:+ "," +:+ rest)).
  cbn [split]. change (Ascii.eqb "-" "-") with true. cbn iota.
  rewrite append_empty_r.
  rewrite (split_app_noDash b _ (allDigits_noDash b Hb)).
  change ("," +:+ rest) with (String "," rest).
  cbn [split]. change (Ascii.eqb "," "-") with false. cbn iota.
  destruct (split "-" rest) as [|h tl] eqn:E; [by apply split_nonempty in E|].
  exists h, tl. reflexivity.
Qed.

(** Splitting ["a-b"] and ["a-"] at the dash. *)
Lemma split_single_range a b :
  allDigits a = true -> allDigits b = true ->
  split "-" (a +:+ "-" +:+ b) = [a; b].
Proof.
  intros Ha Hb.
  rewrite (split_app_noDash a _ (allDigits_noDash a Ha)).
  change ("-" +:+ b) with (String "-" b).
  cbn [split]. change (Ascii.eqb "-" "-") with true. cbn iota.
  rewrite append_empty_r.
  rewrite <- (append_empty_r b) at 1.
  rewrite (split_app_noDash b _ (allDigits_noDash b Hb)).
  cbn [split]. by rewrite append_empty_r.
Qed.

Lemma split_open_range a :
  allDigits a = true -> split "-" (a +:+ "-") = [a; EmptyString].
Proof.
  intros Ha. rewrite (split_app_noDash a _ (allDigits_noDash a Ha)).
  cbn. by rewrite append_empty_r.
Qed.

Lemma parseInt_digits s :
  allDigits s = true -> s <> EmptyString -> parseInt s = Some (decimalValue s 0).
Proof.
  intros Hs Hne. rewrite <- (append_empty_r s) at 1. by apply parseInt_run.
Qed.

End RangeParsing.

(** ** The streaming gate *)

Section StreamingGate.

Import VideoModel ApiResponse VideoController.

Variable jwt_verify : string -> option Auth.TokenPayload.

(** Once the token is verified and the record found, the answer is decided
    by the three checks, in this order. *)
Lemma streamVideo_gate (req : StreamRequest) (w : World) decoded video :
  JS.truthy (query_token req) = true ->
  jwt_verify (default EmptyString (query_token req)) = Some decoded ->
  videos w !! params_id req = Some video ->
  streamVideo jwt_verify req w =
    if ownershipDenied decoded video then
      jsonError HttpStatus.FORBIDDEN "You do not have permission to access this video"
    else if negb (VideoStatus_eqb (status video) COMPLETED) then
      jsonError HttpStatus.BAD_REQUEST "Video is still being processed"
    else if SensitivityStatus_eqb (sensitivityStatus video) FLAGGED
            && negb (String.eqb (Auth.role decoded) "admin") then
      jsonError HttpStatus.FORBIDDEN "Content flagged as sensitive. Admin access required."
    else serveBytes w video (headers_range req).
Proof.
  intros Htok Hver Hfind. unfold streamVideo.
  rewrite Htok, Hver, Hfind. reflexivity.
Qed.

Lemma ownershipDenied_admin decoded video :
  Auth.role decoded = "admin" -> ownershipDenied decoded video = false.
Proof. intros H. unfold ownershipDenied. rewrite H. reflexivity. Qed.

Lemma ownershipDenied_owner decoded video :
  uploadedBy video = Auth.userId decoded -> ownershipDenied decoded video = false.
Proof.
  intros H. unfold ownershipDenied. rewrite H, String.eqb_refl.
  by destruct (String.eqb _ _).
Qed.

(** What STEP 2 of [streamVideo] decides for a caller who is neither an
    administrator nor the owner: the request passes when the record is
    public, and also when the caller has an organization and it is the
    record's. *)
Lemma ownershipDenied_spec decoded video :
  Auth.role decoded <> "admin" ->
  uploadedBy video <> Auth.userId decoded ->
  ownershipDenied decoded video = false <->
  (isPublic video = true \/
   (JS.truthy (Auth.organization decoded) = true /\
    organization video = Auth.organization decoded)).
Proof.
  intros Hrole Hown. unfold ownershipDenied.
  apply String.eqb_neq in Hrole, Hown. rewrite Hrole, Hown. simpl.
  destruct (isPublic video); simpl.
  - split; auto.
  - destruct (JS.truthy (Auth.organization decoded)) eqn:Ht; simpl.
    + split.
      * intros H. right. split; [reflexivity|].
        apply negb_false_iff in H.
        unfold JS.strictEq in H.
        destruct (organization video), (Auth.organization decoded);
          try discriminate; auto.
        apply String.eqb_eq in H. by subst.
      * intros [H|[_ H]]; [discriminate|]. rewrite H.
        apply negb_false_iff. unfold JS.strictEq.
        destruct (Auth.organization decoded); [apply String.eqb_refl|reflexivity].
    + split; [discriminate|]. intros [H|[H _]]; discriminate.
Qed.

Lemma VideoStatus_eqb_eq a b : VideoStatus_eqb a b = true <-> a = b.
Proof. destruct a, b; simpl; split; congruence. Qed.

Lemma SensitivityStatus_eqb_eq a b : SensitivityStatus_eqb a b = true <-> a = b.
Proof. destruct a, b; simpl; split; congruence. Qed.

(** C2 (as amended).  A completed record whose verdict is flagged is refused
    as forbidden to every caller who is not an administrator, and an
    administrator's request goes on to byte serving.  A record that is not
    completed is never served: a caller who passes the ownership check, as
    every administrator and the owner do, is told that the video is not yet
    available (400), and a caller who fails it is refused as forbidden (403)
    before the state is looked at. *)
Theorem stream_gating (req : StreamRequest) (w : World) decoded video :
  JS.truthy (query_token req) = true ->
  jwt_verify (default EmptyString (query_token req)) = Some decoded ->
  videos w !! params_id req = Some video ->
  (status video = COMPLETED -> sensitivityStatus video = FLAGGED ->
     (Auth.role decoded <> "admin" ->
        statusCode (streamVideo jwt_verify req w) = HttpStatus.FORBIDDEN) /\
     (Auth.role decoded = "admin" ->
        streamVideo jwt_verify req w = serveBytes w video (headers_range req))) /\
  (status video <> COMPLETED ->
     (ownershipDenied decoded video = false ->
        streamVideo jwt_verify req w =
          jsonError HttpStatus.BAD_REQUEST "Video is still being processed") /\
     (ownershipDenied decoded video = true ->
        streamVideo jwt_verify req w =
          jsonError HttpStatus.FORBIDDEN
            "You do not have permission to access this video") /\
     (Auth.role decoded = "admin" \/ uploadedBy video = Auth.userId decoded ->
        streamVideo jwt_verify req w =
          jsonError HttpStatus.BAD_REQUEST "Video is still being processed")).
Proof.
  intros Htok Hver Hfind.
  rewrite (streamVideo_gate req w decoded video Htok Hver Hfind).
  split.
  - intros Hst Hfl. rewrite Hst, Hfl. simpl. split.
    + intros Hrole. apply String.eqb_neq in Hrole. rewrite Hrole.
      destruct (ownershipDenied decoded video); reflexivity.
    + intros Hrole. rewrite (ownershipDenied_admin _ _ Hrole), Hrole. reflexivity.
  - intros Hst.
    assert (VideoStatus_eqb (status video) COMPLETED = false) as Hne.
    { destruct (VideoStatus_eqb _ _) eqn:E; [|reflexivity].
      by apply VideoStatus_eqb_eq in E. }
    rewrite Hne. simpl. repeat split.
    + by intros ->.
    + by intros ->.
    + intros [Hrole|Hown].
      * by rewrite (ownershipDenied_admin _ _ Hrole).
      * by rewrite (ownershipDenied_owner _ _ Hown).
Qed.

End StreamingGate.

(** ** Byte serving for a request that passed the gate *)

Section AuthorizedStream.

Import VideoModel ApiResponse VideoController.

Variable jwt_verify : string -> option Auth.TokenPayload.
Variables (videoId : string) (token : option string) (w : World).
Variables (decoded : Auth.TokenPayload) (video : Video).
Variable content : list Byte.byte.

(** The request for record [videoId] with credential [token] and the given Range
    header. *)
Local Abbreviation request := (mkStreamRequest videoId token).

(** The caller is authenticated and the record exists. *)
Hypothesis token_present : JS.truthy token = true.
Hypothesis token_valid : jwt_verify (default EmptyString token) = Some decoded.
Hypothesis record_found : videos w !! videoId = Some video.

(** The request is authorized, the record is completed and not withheld. *)
Hypothesis owner_or_visible : ownershipDenied decoded video = false.
Hypothesis completed : status video = COMPLETED.
Hypothesis not_withheld :
  sensitivityStatus video <> FLAGGED \/ Auth.role decoded = "admin".

(** The record is backed by a file. *)
Hypothesis path_set : filepath video <> EmptyString.
Hypothesis file_on_disk : files w !! filepath video = Some content.

Lemma streamVideo_authorized (range : option string) :
  streamVideo jwt_verify (request range) w = serveBytes w video range.
Proof.
  rewrite (streamVideo_gate jwt_verify (request range) w decoded video
             token_present token_valid record_found).
  rewrite owner_or_visible, completed. simpl.
  destruct not_withheld as [Hs|Hr].
  - destruct (SensitivityStatus_eqb _ _) eqn:E; [|reflexivity].
    by apply SensitivityStatus_eqb_eq in E.
  - rewrite Hr. simpl. by rewrite andb_false_r.
Qed.

Lemma serveBytes_file (range : option string) :
  serveBytes w video range =
    let fileSize := Z.of_nat (length content) in
    if negb (JS.truthy range) then
      {| statusCode := 200;
         headers := [("Content-Length", JS.numberToString (Some fileSize));
                     ("Content-Type", "video/mp4")];
         body := Piped content |}
    else
      let parts := JS.split "-" (JS.removeFirst "bytes=" (default EmptyString range)) in
      let start := JS.parseInt (default EmptyString (parts !! 0%nat)) in
      let end_ :=
        match parts !! 1%nat with
        | Some p => if JS.truthyStr p then JS.parseInt p else Some (fileSize - 1)
        | None => Some (fileSize - 1)
        end in
      let chunksize := JS.jsAdd (JS.jsSub end_ start) (Some 1) in
      {| statusCode := 206;
         headers :=
           [("Content-Range",
             "bytes " +:+ JS.numberToString start +:+ "-" +:+
             JS.numberToString end_ +:+ "/" +:+ JS.numberToString (Some fileSize));
            ("Accept-Ranges", "bytes");
            ("Content-Length", JS.numberToString chunksize);
            ("Content-Type", "video/mp4")];
         body :=
           match createReadStream content start end_ with
           | Some bytes => Piped bytes
           | None => Unwritten
           end |}.
Proof.
  unfold serveBytes.
  assert (JS.truthyStr (filepath video) = true) as ->.
  { unfold JS.truthyStr. apply negb_true_iff. by apply String.eqb_neq. }
  rewrite file_on_disk. reflexivity.
Qed.

(** C3.  On a file of 1000 bytes: without a Range header the answer is 200
    with Content-Length 1000 and the 1000 bytes of the file; with
    [Range: bytes=0-99] it is 206 with [Content-Range: bytes 0-99/1000] and
    the first 100 bytes; with [Range: bytes=900-] it is 206 with the 100
    bytes at offsets 900 to 999. *)
Theorem range_correctness :
  length content = 1000%nat ->
  (streamVideo jwt_verify (request None) w =
     {| statusCode := 200;
        headers := [("Content-Length", "1000"); ("Content-Type", "video/mp4")];
        body := Piped content |}) /\
  (streamVideo jwt_verify (request (Some "bytes=0-99")) w =
     {| statusCode := 206;
        headers := [("Content-Range", "bytes 0-99/1000"); ("Accept-Ranges", "bytes");
                    ("Content-Length", "100"); ("Content-Type", "video/mp4")];
        body := Piped (take 100 content) |}) /\
  length (take 100 content) = 100%nat /\
  (streamVideo jwt_verify (request (Some "bytes=900-")) w =
     {| statusCode := 206;
        headers := [("Content-Range", "bytes 900-999/1000"); ("Accept-Ranges", "bytes");
                    ("Content-Length", "100"); ("Content-Type", "video/mp4")];
        body := Piped (drop 900 content) |}) /\
  length (drop 900 content) = 100%nat.
Proof.
  intros Hlen. rewrite !streamVideo_authorized, !serveBytes_file, Hlen.
  repeat split.
  - rewrite length_take, Hlen. reflexivity.
  - cbn -[JS.parseInt Z.of_nat createReadStream].
    change (JS.parseInt "900") with (Some 900).
    change (Z.of_nat 1000 - 1) with 999.
    change (createReadStream content (Some 900) (Some 999))
      with (Some (take 100 (drop 900 content))).
    do 2 f_equal. apply take_ge. rewrite length_drop, Hlen. reflexivity.
  - rewrite length_drop, Hlen. reflexivity.
Qed.

(** The answer to a Range header whose parts read as the offsets [first]
    and [last] of a range inside the file: 206, the three headers, and the
    [last - first + 1] bytes from offset [first]. *)
Lemma served_partial (range a : string) (rest : list string) (first last : Z) :
  JS.truthyStr range = true ->
  JS.split "-" (JS.removeFirst "bytes=" range) = a :: rest ->
  JS.parseInt a = Some first ->
  match rest with
  | p :: _ =>
      if JS.truthyStr p then JS.parseInt p
      else Some (Z.of_nat (length content) - 1)
  | [] => Some (Z.of_nat (length content) - 1)
  end = Some last ->
  0 <= first <= last ->
  last < Z.of_nat (length content) ->
  Z.of_nat (length content) <= JS.MAX_SAFE_INTEGER ->
  let chunk := take (Z.to_nat (last - first + 1)) (drop (Z.to_nat first) content) in
  streamVideo jwt_verify (request (Some range)) w =
    {| statusCode := 206;
       headers :=
         [("Content-Range",
           "bytes " +:+ JS.numberToString (Some first) +:+ "-" +:+
           JS.numberToString (Some last) +:+ "/" +:+
           JS.numberToString (Some (Z.of_nat (length content))));
          ("Accept-Ranges", "bytes");
          ("Content-Length", JS.numberToString (Some (last - first + 1)));
          ("Content-Type", "video/mp4")];
       body := Piped chunk |} /\
  Z.of_nat (length chunk) = last - first + 1.
Proof.
  intros Htruthy Hsplit Hstart Hend Horder Hinside Hsafe chunk. subst chunk.
  rewrite streamVideo_authorized, serveBytes_file.
  change (JS.truthy (Some range)) with (JS.truthyStr range).
  change (default EmptyString (Some range)) with range.
  rewrite Htruthy. cbn [negb]. cbv zeta.
  rewrite Hsplit.
  assert (match (a :: rest) !! 1%nat with
          | Some p =>
              if JS.truthyStr p then JS.parseInt p
              else Some (Z.of_nat (length content) - 1)
          | None => Some (Z.of_nat (length content) - 1)
          end = Some last) as ->.
  { by destruct rest. }
  cbn [lookup list_lookup default]. change (id a) with a.
  rewrite Hstart.
  cbn [JS.jsSub JS.jsAdd]. unfold createReadStream.
  destruct (Z.leb_spec 0 first); [|lia].
  destruct (Z.leb_spec first JS.MAX_SAFE_INTEGER); [|lia].
  destruct (Z.leb_spec 0 last); [|lia].
  destruct (Z.leb_spec last JS.MAX_SAFE_INTEGER); [|lia].
  destruct (Z.leb_spec first last); [|lia].
  cbn [andb]. split; [reflexivity|].
  rewrite length_take, length_drop. lia.
Qed.

(** C4 (as amended).  A Range header that lists several ranges, the first
    of them written [a-b] in decimal digits with [a <= b] inside the file,
    is answered 206 for that first range alone: [Content-Range: bytes
    a-b/size], [Content-Length: b-a+1] and exactly the [b-a+1] bytes from
    offset [a] to offset [b].  The answer is not the one given without a
    Range header.  (The size of the file is a safe integer, so that every
    number involved is exact.) *)
Theorem multiple_ranges_serve_first (a b rest : string) :
  JS.allDigits a = true -> a <> EmptyString ->
  JS.allDigits b = true -> b <> EmptyString ->
  JS.decimalValue a 0 <= JS.decimalValue b 0 < Z.of_nat (length content) ->
  Z.of_nat (length content) <= JS.MAX_SAFE_INTEGER ->
  let first := JS.decimalValue a 0 in
  let last := JS.decimalValue b 0 in
  let chunk := take (Z.to_nat (last - first + 1)) (drop (Z.to_nat first) content) in
  let r := streamVideo jwt_verify
             (request (Some ("bytes=" +:+ a +:+ "-" +:+ b +:+ "," +:+ rest))) w in
  r = {| statusCode := 206;
         headers :=
           [("Content-Range",
             "bytes " +:+ JS.numberToString (Some first) +:+ "-" +:+
             JS.numberToString (Some last) +:+ "/" +:+
             JS.numberToString (Some (Z.of_nat (length content))));
            ("Accept-Ranges", "bytes");
            ("Content-Length", JS.numberToString (Some (last - first + 1)));
            ("Content-Type", "video/mp4")];
         body := Piped chunk |} /\
  Z.of_nat (length chunk) = last - first + 1 /\
  r <> streamVideo jwt_verify (request None) w.
Proof.
  intros Ha Hane Hb Hbne [Hle Hlt] Hsafe first last chunk r.
  destruct (split_first_range a b rest Ha Hb) as (h & tl & Hsplit).
  assert (0 <= first) as Hfirst by (apply decimalValue_nonneg; [done|lia]).
  assert (JS.truthyStr (b +:+ "," +:+ h) = true) as Hp
    by (destruct b; [done|reflexivity]).
  destruct (served_partial ("bytes=" +:+ a +:+ "-" +:+ b +:+ "," +:+ rest) a
              ((b +:+ "," +:+ h) :: tl) first last) as [Hanswer Hlength].
  - reflexivity.
  - exact Hsplit.
  - by apply parseInt_digits.
  - rewrite Hp. by apply parseInt_run.
  - subst first last. lia.
  - exact Hlt.
  - exact Hsafe.
  - split; [exact Hanswer|]. split; [exact Hlength|].
    subst r. rewrite Hanswer, streamVideo_authorized, serveBytes_file.
    discriminate.
Qed.

(** C10.  The soft-delete flag plays no part in streaming.  For a
    soft-deleted record that is completed and access-permitted, a request
    without a Range header is answered 200 with the whole file; a request
    for a range [a-b] inside the file is answered 206 with exactly the bytes
    from [a] to [b], and one for [a-] with the bytes from [a] to the end;
    and whatever the Range header, the answer is the one the same record
    gets with the flag cleared.  [getVideoById] answers that the deleted
    record is not found, which it does not answer once the flag is
    cleared. *)
Theorem stream_ignores_soft_delete (user : Auth.TokenPayload) (range : option string) :
  isDeleted video = true ->
  Z.of_nat (length content) <= JS.MAX_SAFE_INTEGER ->
  let restored :=
    setVideos (<[videoId := withIsDeleted false video]> (videos w)) w in
  (streamVideo jwt_verify (request None) w =
     {| statusCode := 200;
        headers := [("Content-Length",
                     JS.numberToString (Some (Z.of_nat (length content))));
                    ("Content-Type", "video/mp4")];
        body := Piped content |}) /\
  (forall a b : string,
     JS.allDigits a = true -> a <> EmptyString ->
     JS.allDigits b = true -> b <> EmptyString ->
     JS.decimalValue a 0 <= JS.decimalValue b 0 < Z.of_nat (length content) ->
     let first := JS.decimalValue a 0 in
     let last := JS.decimalValue b 0 in
     let chunk := take (Z.to_nat (last - first + 1)) (drop (Z.to_nat first) content) in
     streamVideo jwt_verify (request (Some ("bytes=" +:+ a +:+ "-" +:+ b))) w =
       {| statusCode := 206;
          headers :=
            [("Content-Range",
              "bytes " +:+ JS.numberToString (Some first) +:+ "-" +:+
              JS.numberToString (Some last) +:+ "/" +:+
              JS.numberToString (Some (Z.of_nat (length content))));
             ("Accept-Ranges", "bytes");
             ("Content-Length", JS.numberToString (Some (last - first + 1)));
             ("Content-Type", "video/mp4")];
          body := Piped chunk |} /\
     Z.of_nat (length chunk) = last - first + 1) /\
  (forall a : string,
     JS.allDigits a = true -> a <> EmptyString ->
     JS.decimalValue a 0 < Z.of_nat (length content) ->
     let first := JS.decimalValue a 0 in
     let last := Z.of_nat (length content) - 1 in
     streamVideo jwt_verify (request (Some ("bytes=" +:+ a +:+ "-"))) w =
       {| statusCode := 206;
          headers :=
            [("Content-Range",
              "bytes " +:+ JS.numberToString (Some first) +:+ "-" +:+
              JS.numberToString (Some last) +:+ "/" +:+
              JS.numberToString (Some (Z.of_nat (length content))));
             ("Accept-Ranges", "bytes");
             ("Content-Length", JS.numberToString (Some (last - first + 1)));
             ("Content-Type", "video/mp4")];
          body := Piped (drop (Z.to_nat first) content) |} /\
     Z.of_nat (length (drop (Z.to_nat first) content)) = last - first + 1) /\
  streamVideo jwt_verify (request range) w =
    streamVideo jwt_verify (request range) restored /\
  getVideoById user videoId w =
    (Sent (errorResponse "Video not found" HttpStatus.NOT_FOUND), w) /\
  fst (getVideoById user videoId restored) <>
    Sent (errorResponse "Video not found" HttpStatus.NOT_FOUND).
Proof.
  intros Hdel Hsafe restored. split; [|split; [|split; [|split; [|split]]]].
  - rewrite streamVideo_authorized, serveBytes_file. reflexivity.
  - intros a b Ha Hane Hb Hbne [Hle Hlt] first last chunk.
    assert (0 <= first) as Hfirst by (apply decimalValue_nonneg; [done|lia]).
    assert (JS.truthyStr b = true) as Hp by (destruct b; [done|reflexivity]).
    apply (served_partial ("bytes=" +:+ a +:+ "-" +:+ b) a [b] first last).
    + reflexivity.
    + by apply split_single_range.
    + by apply parseInt_digits.
    + rewrite Hp. by apply parseInt_digits.
    + subst first last. lia.
    + exact Hlt.
    + exact Hsafe.
  - intros a Ha Hane Hlt first last.
    assert (0 <= first) as Hfirst by (apply decimalValue_nonneg; [done|lia]).
    destruct (served_partial ("bytes=" +:+ a +:+ "-") a [EmptyString] first last)
      as [Hanswer Hlength].
    + reflexivity.
    + by apply split_open_range.
    + by apply parseInt_digits.
    + reflexivity.
    + subst first last. lia.
    + subst last. lia.
    + exact Hsafe.
    + assert (take (Z.to_nat (last - first + 1)) (drop (Z.to_nat first) content) =
              drop (Z.to_nat first) content) as Hall.
      { apply take_ge. rewrite length_drop. subst last. lia. }
      rewrite Hall in Hanswer, Hlength. by split.
  - rewrite streamVideo_authorized.
    assert (videos restored !! videoId = Some (withIsDeleted false video)) as Hfound
      by apply lookup_insert_eq.
    rewrite (streamVideo_gate jwt_verify (request range) restored decoded
               (withIsDeleted false video) token_present token_valid Hfound).
    assert (ownershipDenied decoded (withIsDeleted false video) = false) as ->
      by exact owner_or_visible.
    cbn [status sensitivityStatus withIsDeleted]. rewrite completed.
    cbn [VideoStatus_eqb negb].
    assert (SensitivityStatus_eqb (sensitivityStatus video) FLAGGED
            && negb (String.eqb (Auth.role decoded) "admin") = false) as ->.
    { destruct not_withheld as [Hs|Hr].
      - destruct (SensitivityStatus_eqb _ _) eqn:E; [|reflexivity].
        by apply SensitivityStatus_eqb_eq in E.
      - rewrite Hr. by rewrite andb_false_r. }
    reflexivity.
  - unfold getVideoById. rewrite record_found, Hdel. reflexivity.
  - unfold getVideoById, restored. cbn [videos users setVideos].
    rewrite lookup_insert_eq. cbn [isDeleted uploadedBy organization isPublic
                                  withIsDeleted].
    destruct (users w !! uploadedBy video); [|discriminate].
    destruct (_ && _); cbn [fst]; discriminate.
Qed.

End AuthorizedStream.

(** ** The streaming code run on the concrete deployment *)

Section StreamingInstances.

Import VideoModel ApiResponse VideoController.

Lemma neq_by_eqb (a b : string) : String.eqb a b = false -> a <> b.
Proof. apply String.eqb_neq. Qed.

(** C1.  Where the ownership check of [streamVideo] departs from the rule
    "public and same organization".  Bob is no administrator, does not own
    the record and belongs to another organization than the record's: the
    public record is streamed to him.  Carol shares the organization of a
    private record she does not own: it is streamed to her.  On both
    requests [getVideoById], which applies the rule, answers 403. *)
Theorem stream_ownership_check_is_disjunctive :
  (Auth.role Scenario.bob <> "admin" /\
   Scenario.library !! "v-public" =
     Some (Scenario.clip "v-public" "holiday" true COMPLETED SAFE false) /\
   streamVideo Scenario.jwt_verify
     (Scenario.request "v-public" "token-bob" None) Scenario.world =
     {| statusCode := 200;
        headers := [("Content-Length", "1000"); ("Content-Type", "video/mp4")];
        body := Piped Scenario.bytes1000 |} /\
   fst (getVideoById Scenario.bob "v-public" Scenario.world) =
     Sent (errorResponse "You do not have permission to view this video"
             HttpStatus.FORBIDDEN)) /\
  (Auth.role Scenario.carol <> "admin" /\
   Scenario.library !! "v-private" =
     Some (Scenario.clip "v-private" "holiday" false COMPLETED SAFE false) /\
   streamVideo Scenario.jwt_verify
     (Scenario.request "v-private" "token-carol" None) Scenario.world =
     {| statusCode := 200;
        headers := [("Content-Length", "1000"); ("Content-Type", "video/mp4")];
        body := Piped Scenario.bytes1000 |} /\
   fst (getVideoById Scenario.carol "v-private" Scenario.world) =
     Sent (errorResponse "You do not have permission to view this video"
             HttpStatus.FORBIDDEN)).
Proof.
  repeat split; try (apply neq_by_eqb; reflexivity); vm_compute; reflexivity.
Qed.

(** The claim C2 fails as stated: the record is still processing, the caller
    is authenticated, and the answer is 403, not the 400 of "not yet
    available". *)
Lemma stream_gating_counterexample :
  Scenario.jwt_verify "token-bob" = Some Scenario.bob /\
  (exists video, Scenario.library !! "v-processing" = Some video /\
                 status video = PROCESSING) /\
  streamVideo Scenario.jwt_verify
    (Scenario.request "v-processing" "token-bob" None) Scenario.world =
    jsonError HttpStatus.FORBIDDEN "You do not have permission to access this video" /\
  statusCode (streamVideo Scenario.jwt_verify
                (Scenario.request "v-processing" "token-bob" None) Scenario.world)
    <> HttpStatus.BAD_REQUEST.
Proof.
  split; [reflexivity|]. split.
  - eexists. split; [vm_compute; reflexivity|reflexivity].
  - split; [vm_compute; reflexivity|]. vm_compute. discriminate.
Qed.

(** [stream_gating] applied: the administrator on the flagged record and on
    the record still in processing. *)
Lemma stream_gating_witness :
  (streamVideo Scenario.jwt_verify
     (Scenario.request "v-flagged" "token-root" None) Scenario.world =
   serveBytes Scenario.world
     (Scenario.clip "v-flagged" "explicit content test" true COMPLETED FLAGGED false)
     None) /\
  (streamVideo Scenario.jwt_verify
     (Scenario.request "v-processing" "token-root" None) Scenario.world =
   jsonError HttpStatus.BAD_REQUEST "Video is still being processed").
Proof.
  split.
  - refine (proj2 (proj1 (stream_gating Scenario.jwt_verify
              (Scenario.request "v-flagged" "token-root" None) Scenario.world
              Scenario.root
              (Scenario.clip "v-flagged" "explicit content test" true COMPLETED FLAGGED false)
              _ _ _) _ _) _); reflexivity.
  - refine (proj1 (proj2 (stream_gating Scenario.jwt_verify
              (Scenario.request "v-processing" "token-root" None) Scenario.world
              Scenario.root
              (Scenario.clip "v-processing" "holiday" false PROCESSING PENDING false)
              _ _ _) _) _); try reflexivity. discriminate.
Defined.

(** [range_correctness] applied: Alice streams her own completed record. *)
Lemma range_correctness_witness :
  length Scenario.bytes1000 = 1000%nat /\
  streamVideo Scenario.jwt_verify
    (Scenario.request "v-public" "token-alice" (Some "bytes=0-99")) Scenario.world =
    {| statusCode := 206;
       headers := [("Content-Range", "bytes 0-99/1000"); ("Accept-Ranges", "bytes");
                   ("Content-Length", "100"); ("Content-Type", "video/mp4")];
       body := Piped (take 100 Scenario.bytes1000) |}.
Proof.
  split; [reflexivity|].
  refine (proj1 (proj2 (range_correctness Scenario.jwt_verify "v-public"
            (Some "token-alice") Scenario.world Scenario.alice
            (Scenario.clip "v-public" "holiday" true COMPLETED SAFE false)
            Scenario.bytes1000 _ _ _ _ _ _ _ _ _))); try reflexivity.
  - left. discriminate.
  - discriminate.
Defined.

(** The claim C4 fails as stated: with two ranges in the header the answer
    is 206 for the first range, not the 200 given without a Range header. *)
Lemma multiple_ranges_counterexample :
  streamVideo Scenario.jwt_verify
    (Scenario.request "v-public" "token-alice" (Some "bytes=0-99,200-299"))
    Scenario.world =
    {| statusCode := 206;
       headers := [("Content-Range", "bytes 0-99/1000"); ("Accept-Ranges", "bytes");
                   ("Content-Length", "100"); ("Content-Type", "video/mp4")];
       body := Piped (take 100 Scenario.bytes1000) |} /\
  streamVideo Scenario.jwt_verify
    (Scenario.request "v-public" "token-alice" (Some "bytes=0-99,200-299"))
    Scenario.world <>
  streamVideo Scenario.jwt_verify
    (Scenario.request "v-public" "token-alice" None) Scenario.world.
Proof.
  split; [vm_compute; reflexivity|]. vm_compute. discriminate.
Qed.

(** A start that is not a number: the status and the headers are set with
    [NaN] in them, the stream cannot be created, and nothing is sent. *)
Lemma unparseable_start_answer :
  streamVideo Scenario.jwt_verify
    (Scenario.request "v-public" "token-alice" (Some "bytes=abc-")) Scenario.world =
    {| statusCode := 206;
       headers := [("Content-Range", "bytes NaN-999/1000"); ("Accept-Ranges", "bytes");
                   ("Content-Length", "NaN"); ("Content-Type", "video/mp4")];
       body := Unwritten |}.
Proof. vm_compute. reflexivity. Qed.

(** [multiple_ranges_serve_first] applied to [bytes=0-99,200-299]. *)
Lemma multiple_ranges_serve_first_witness :
  JS.allDigits "0" = true /\ JS.allDigits "99" = true /\
  streamVideo Scenario.jwt_verify
    (Scenario.request "v-public" "token-alice" (Some "bytes=0-99,200-299"))
    Scenario.world =
    {| statusCode := 206;
       headers := [("Content-Range", "bytes 0-99/1000"); ("Accept-Ranges", "bytes");
                   ("Content-Length", "100"); ("Content-Type", "video/mp4")];
       body := Piped (take 100 Scenario.bytes1000) |}.
Proof.
  split; [reflexivity|]. split; [reflexivity|].
  refine (proj1 (multiple_ranges_serve_first Scenario.jwt_verify "v-public"
            (Some "token-alice") Scenario.world Scenario.alice
            (Scenario.clip "v-public" "holiday" true COMPLETED SAFE false)
            Scenario.bytes1000 _ _ _ _ _ _ _ _ "0" "99" "200-299" _ _ _ _ _ _));
    try reflexivity; try discriminate.
  - left. discriminate.
  - vm_compute. split; [discriminate|reflexivity].
Defined.

(** [stream_ignores_soft_delete] applied: Alice's soft-deleted record,
    without a Range header and for the bytes 100 to 199. *)
Lemma stream_ignores_soft_delete_witness :
  isDeleted (Scenario.clip "v-deleted" "holiday" true COMPLETED SAFE true) = true /\
  statusCode (streamVideo Scenario.jwt_verify
                (Scenario.request "v-deleted" "token-alice" None) Scenario.world) = 200 /\
  body (streamVideo Scenario.jwt_verify
          (Scenario.request "v-deleted" "token-alice" (Some "bytes=100-199"))
          Scenario.world) =
    Piped (take 100 (drop 100 Scenario.bytes1000)) /\
  getVideoById Scenario.alice "v-deleted" Scenario.world =
    (Sent (errorResponse "Video not found" HttpStatus.NOT_FOUND), Scenario.world).
Proof.
  split; [reflexivity|].
  pose proof (stream_ignores_soft_delete Scenario.jwt_verify "v-deleted"
                (Some "token-alice") Scenario.world Scenario.alice
                (Scenario.clip "v-deleted" "holiday" true COMPLETED SAFE true)
                Scenario.bytes1000) as H.
  destruct H with (user := Scenario.alice) (range := @None string)
    as (Hfull & Hrange & _ & _ & Hmeta & _); try reflexivity.
  - left. discriminate.
  - discriminate.
  - vm_compute. discriminate.
  - split; [|split; [|exact Hmeta]].
    + change (Scenario.request "v-deleted" "token-alice" None)
        with (mkStreamRequest "v-deleted" (Some "token-alice") None).
      rewrite Hfull. reflexivity.
    + destruct (Hrange "100" "199" eq_refl ltac:(discriminate) eq_refl
                  ltac:(discriminate)
                  ltac:(vm_compute; split; [discriminate|reflexivity]))
        as [Hanswer _].
      change (Scenario.request "v-deleted" "token-alice" (Some "bytes=100-199"))
        with (mkStreamRequest "v-deleted" (Some "token-alice")
                (Some ("bytes=" +:+ "100" +:+ "-" +:+ "199"))).
      rewrite Hanswer. reflexivity.
Defined.

End StreamingInstances.

(** ** The processing orchestrator *)

Section Orchestrator.

Import VideoModel ApiResponse VideoProcessor VideoController.

Variables (env : Oracle) (videoId filePath : string) (w : World) (video : Video).

Hypothesis record_found : videos w !! videoId = Some video.

Local Abbreviation final := (snd (processVideoInBackground env videoId filePath w)).

(** The text the classifier is given. *)
Local Abbreviation textOf :=
  {| meta_title := Some (title video); meta_description := Some (description video) |}.

Lemma analyzeSensitivity_decided metadata simulatedFlag :
  analyzeSensitivity metadata simulatedFlag <> PENDING.
Proof.
  unfold analyzeSensitivity.
  repeat match goal with |- context [if ?b then _ else _] => destruct b end;
    discriminate.
Qed.

(** The run when the prober is missing: two writes to the log, one update. *)
Lemma run_without_prober :
  ffmpegAvailable env = false ->
  fst (processVideoInBackground env videoId filePath w) = Ok tt /\
  videos final !! videoId =
    Some (applyUpdate
            {| set_status := Some COMPLETED; set_processingProgress := Some 100;
               set_processingError := None; set_sensitivityStatus := None;
               set_duration := None; set_thumbnailPath := None |} video) /\
  emitted final =
    emitted w ++
    (if io w && JS.truthyStr (uploadedBy video) then
       [(uploadedBy video, progressEvent videoId "processing" 10 "Processing started");
        (uploadedBy video,
         progressEvent videoId "completed" 100
           "Video uploaded (FFmpeg not available for processing)")]
     else []).
Proof.
  intros Hav.
  unfold processVideoInBackground, bind, findById, tryCatch, emitStatus,
    findByIdAndUpdate.
  rewrite record_found, Hav. cbn [negb].
  destruct (io w && JS.truthyStr (uploadedBy video)) eqn:Hio; do 4 (cbn; rewrite ?Hio).
  - rewrite lookup_alter_eq, record_found, <- app_assoc. done.
  - rewrite lookup_alter_eq, record_found, app_nil_r. done.
Qed.

(** The run when the probe throws: the update to 30, the verdict, then the
    handler. *)
Lemma run_probe_throws message :
  ffmpegAvailable env = true ->
  ffprobe (tool env) = Throw message ->
  let error := "Video processing failed: Failed to read video metadata: " +:+ message in
  fst (processVideoInBackground env videoId filePath w) = Ok tt /\
  videos final !! videoId =
    Some (applyUpdate
            {| set_status := Some FAILED; set_processingProgress := Some 0;
               set_processingError := Some error;
               set_sensitivityStatus := Some (analyzeSensitivity textOf (draw env));
               set_duration := None; set_thumbnailPath := None |} video) /\
  emitted final =
    emitted w ++
    (if io w && JS.truthyStr (uploadedBy video) then
       [(uploadedBy video, progressEvent videoId "processing" 10 "Processing started");
        (uploadedBy video, progressEvent videoId "processing" 30 "Extracting metadata...");
        (uploadedBy video,
         {| ev_videoId := videoId; ev_status := "failed"; ev_progress := 0;
            ev_message := "Processing failed: " +:+ error;
            ev_thumbnailPath := None; ev_duration := None;
            ev_error := Some error; ev_sensitivityStatus := None |})]
     else []).
Proof.
  intros Hav Hprobe error. subst error.
  unfold processVideoInBackground, bind, findById, tryCatch, emitStatus,
    findByIdAndUpdate, liftResult, processVideo, getVideoMetadata.
  rewrite record_found, Hav, Hprobe. cbn [negb].
  destruct (io w && JS.truthyStr (uploadedBy video)) eqn:Hio; do 4 (cbn; rewrite ?Hio).
  - rewrite !lookup_alter_eq, record_found, <- !app_assoc. done.
  - rewrite !lookup_alter_eq, record_found, app_nil_r. done.
Qed.

(** The run when the probe answers: the thumbnail, when there is one, and
    the duration are stored with the final update. *)
Lemma run_probe_answers metadata :
  ffmpegAvailable env = true ->
  ffprobe (tool env) = Ok metadata ->
  let thumbnail :=
    match screenshots (tool env) with
    | Ok p => Some p
    | Throw _ => None
    end in
  let verdict := analyzeSensitivity textOf (draw env) in
  fst (processVideoInBackground env videoId filePath w) = Ok tt /\
  videos final !! videoId =
    Some (applyUpdate
            {| set_status := Some COMPLETED; set_processingProgress := Some 100;
               set_processingError := None;
               set_sensitivityStatus := Some verdict;
               set_duration := Some (probe_duration metadata);
               set_thumbnailPath := Some thumbnail |} video) /\
  emitted final =
    emitted w ++
    (if io w && JS.truthyStr (uploadedBy video) then
       [(uploadedBy video, progressEvent videoId "processing" 10 "Processing started");
        (uploadedBy video, progressEvent videoId "processing" 30 "Extracting metadata...");
        (uploadedBy video, progressEvent videoId "processing" 80 "Generating thumbnail...");
        (uploadedBy video,
         {| ev_videoId := videoId; ev_status := "completed"; ev_progress := 100;
            ev_message := "Processing complete";
            ev_thumbnailPath := thumbnail;
            ev_duration := Some (probe_duration metadata);
            ev_error := None;
            ev_sensitivityStatus := Some (sensitivityString verdict) |})]
     else []).
Proof.
  intros Hav Hprobe thumbnail verdict. subst thumbnail verdict.
  unfold processVideoInBackground, bind, findById, tryCatch, emitStatus,
    findByIdAndUpdate, liftResult, processVideo, getVideoMetadata,
    generateThumbnail.
  rewrite record_found, Hav, Hprobe. cbn [negb].
  destruct (io w && JS.truthyStr (uploadedBy video)) eqn:Hio; do 4 (cbn; rewrite ?Hio);
    destruct (screenshots (tool env)); cbn.
  - rewrite !lookup_alter_eq, record_found, <- !app_assoc. done.
  - rewrite !lookup_alter_eq, record_found, <- !app_assoc. done.
  - rewrite !lookup_alter_eq, record_found, app_nil_r. done.
  - rewrite !lookup_alter_eq, record_found, app_nil_r. done.
Qed.

(** C5.  With the prober available: when probing throws, the record ends
    failed with progress 0 and the error message recorded, a failure event
    is published after the events for 10 and 30, and nothing else happens
    (no thumbnail, no duration, no further event); when only the thumbnail
    throws, the record ends completed with progress 100 and a null
    thumbnail. *)
Theorem probe_failure_fatal_thumbnail_failure_absorbed :
  ffmpegAvailable env = true ->
  io w = true ->
  uploadedBy video <> EmptyString ->
  (forall message, ffprobe (tool env) = Throw message ->
     let error := "Video processing failed: Failed to read video metadata: " +:+ message in
     exists failed,
       videos final !! videoId = Some failed /\
       status failed = FAILED /\
       processingProgress failed = 0 /\
       processingError failed = Some error /\
       duration failed = duration video /\
       thumbnailPath failed = thumbnailPath video /\
       emitted final =
         emitted w ++
         [(uploadedBy video, progressEvent videoId "processing" 10 "Processing started");
          (uploadedBy video, progressEvent videoId "processing" 30 "Extracting metadata...");
          (uploadedBy video,
           {| ev_videoId := videoId; ev_status := "failed"; ev_progress := 0;
              ev_message := "Processing failed: " +:+ error;
              ev_thumbnailPath := None; ev_duration := None;
              ev_error := Some error; ev_sensitivityStatus := None |})]) /\
  (forall metadata message,
     ffprobe (tool env) = Ok metadata ->
     screenshots (tool env) = Throw message ->
     exists done,
       videos final !! videoId = Some done /\
       status done = COMPLETED /\
       processingProgress done = 100 /\
       thumbnailPath done = None /\
       processingError done = processingError video /\
       fst (processVideoInBackground env videoId filePath w) = Ok tt).
Proof.
  intros Hav Hio Howner.
  assert (io w && JS.truthyStr (uploadedBy video) = true) as Hpub.
  { rewrite Hio. unfold JS.truthyStr. simpl. apply negb_true_iff.
    by apply String.eqb_neq. }
  split.
  - intros message Hprobe error.
    destruct (run_probe_throws message Hav Hprobe) as (_ & Hrec & Hev).
    rewrite Hpub in Hev. eexists. split; [exact Hrec|].
    repeat split. exact Hev.
  - intros metadata message Hprobe Hthumb.
    destruct (run_probe_answers metadata Hav Hprobe) as (Hret & Hrec & _).
    rewrite Hthumb in Hrec. eexists. split; [exact Hrec|].
    repeat split. exact Hret.
Qed.

(** C6 (as amended).  While the prober is available the classifier runs
    before the probe and whatever the probe and the thumbnailer do: the
    record's verdict is the classifier's, safe or flagged.  While the prober
    is unavailable the run ends before the classifier and the verdict is
    left as it was. *)
Theorem classification_runs_when_prober_available :
  (ffmpegAvailable env = true ->
     exists classified,
       videos final !! videoId = Some classified /\
       sensitivityStatus classified = analyzeSensitivity textOf (draw env) /\
       sensitivityStatus classified <> PENDING) /\
  (ffmpegAvailable env = false ->
     exists skipped,
       videos final !! videoId = Some skipped /\
       sensitivityStatus skipped = sensitivityStatus video).
Proof.
  split; intros Hav.
  - destruct (ffprobe (tool env)) as [metadata|message] eqn:Hprobe.
    + destruct (run_probe_answers metadata Hav Hprobe) as (_ & Hrec & _).
      eexists. split; [exact Hrec|]. split; [reflexivity|].
      apply analyzeSensitivity_decided.
    + destruct (run_probe_throws message Hav Hprobe) as (_ & Hrec & _).
      eexists. split; [exact Hrec|]. split; [reflexivity|].
      apply analyzeSensitivity_decided.
  - destruct (run_without_prober Hav) as (_ & Hrec & _).
    eexists. split; [exact Hrec|]. reflexivity.
Qed.

End Orchestrator.

(** ** Upload ingestion *)

Section Upload.

Import VideoModel ApiResponse VideoProcessor VideoController.

(** The save hook changes the organization at most. *)
Lemma preSave_organization_only users v :
  exists o, preSave users v = withOrganization o v.
Proof.
  unfold preSave.
  destruct (negb (JS.truthy (organization v)) && JS.truthyStr (uploadedBy v));
    [destruct (users !! uploadedBy v) as [u|];
     [destruct (JS.truthy (UserModel.organization u))|]|];
    try (eexists; reflexivity);
    exists (organization v); by destruct v.
Qed.

Lemma validationErrors_withOrganization o v :
  validationErrors (withOrganization o v) = validationErrors v.
Proof. reflexivity. Qed.

Lemma filenameTaken_insert_self vs self name x :
  filenameTaken vs self name = false ->
  filenameTaken (<[self := x]> vs) self name = false.
Proof.
  unfold filenameTaken. rewrite !bool_decide_eq_false. intros Hfree Htaken.
  apply map_Exists_insert_1 in Htaken as [[Hne _]|Htaken]; [done|].
  by apply Hfree.
Qed.

(** What a successful [save] returns and writes. *)
Lemma save_inv doc w saved w' :
  save doc w = (Ok saved, w') ->
  saved = preSave (users w) doc /\
  w' = setVideos (<[_id saved := saved]> (videos w)) w.
Proof.
  unfold save. destruct (validationErrors doc); [|discriminate].
  destruct (filenameTaken _ _ _); [discriminate|]. by intros [= <- <-].
Qed.

Lemma save_valid doc w :
  validationErrors doc = [] ->
  filenameTaken (videos w) (_id doc) (filename doc) = false ->
  save doc w =
    (Ok (preSave (users w) doc),
     setVideos (<[_id doc := preSave (users w) doc]> (videos w)) w).
Proof.
  intros Hvalid Hfree. unfold save. rewrite Hvalid.
  destruct (preSave_organization_only (users w) doc) as [o ->].
  cbn [_id filename withOrganization]. by rewrite Hfree.
Qed.

Lemma uploadVideo_scheduled newId req w up w1 vid path :
  uploadVideo newId req w = (up, w1) ->
  scheduled up = Some (vid, path) ->
  exists video, videos w1 !! vid = Some video /\ freshlyUploaded video.
Proof.
  unfold uploadVideo. destruct (req_file req) as [file|]; [|by intros [= <- <-]].
  destruct (_ || _); [by intros [= <- <-]|].
  unfold create.
  destruct (save (newDocument newId (videoDataOf req file)) w)
    as [[created|message] w0] eqn:Hcreate; [|by intros [= <- <-]].
  destruct (save (withProcessing created) w0)
    as [[video|message] w2] eqn:Hsave; [|by intros [= <- <-]].
  intros [= <- <-]. cbn [scheduled]. intros [= <- <-].
  apply save_inv in Hcreate as [-> _].
  apply save_inv in Hsave as [Hvideo ->].
  exists video. split; [apply lookup_insert_eq|].
  rewrite Hvideo.
  destruct (preSave_organization_only (users w0)
              (withProcessing (preSave (users w) (newDocument newId (videoDataOf req file)))))
    as [o ->].
  destruct (preSave_organization_only (users w) (newDocument newId (videoDataOf req file)))
    as [o' ->].
  repeat split.
Qed.

Variable MAX_FILE_SIZE : option string.
Variable formatFileSize : Z -> string.

Lemma uploadRoute_scheduled storedName storedPath newId incoming bodyTitle
    bodyDescription user w up w1 vid path :
  uploadRoute MAX_FILE_SIZE formatFileSize storedName storedPath newId incoming
    bodyTitle bodyDescription user w = (up, w1) ->
  scheduled up = Some (vid, path) ->
  exists video, videos w1 !! vid = Some video /\ freshlyUploaded video.
Proof.
  unfold uploadRoute. destruct incoming as [f|].
  - destruct (FileUpload.videoFileFilter f); [by intros [= <- <-]|].
    destruct (_ <=? _); [by intros [= <- <-]|].
    apply uploadVideo_scheduled.
  - apply uploadVideo_scheduled.
Qed.

(** C7.  A record that the upload route accepted and handed to the
    orchestrator, processed while the prober is unavailable, ends completed
    with progress 100; duration, resolution, codec, bitrate and thumbnail are
    still null and the verdict is still pending: nothing was probed,
    classified or thumbnailed, and the run does not depend on what the tool
    or the classifier would have answered. *)
Theorem degraded_upload_completes storedName storedPath newId incoming bodyTitle
    bodyDescription user w up w1 vid path env :
  uploadRoute MAX_FILE_SIZE formatFileSize storedName storedPath newId incoming
    bodyTitle bodyDescription user w = (up, w1) ->
  scheduled up = Some (vid, path) ->
  ffmpegAvailable env = false ->
  (exists completed,
     videos (snd (processVideoInBackground env vid path w1)) !! vid = Some completed /\
     status completed = COMPLETED /\
     processingProgress completed = 100 /\
     duration completed = None /\
     resolution_width completed = None /\
     resolution_height completed = None /\
     codec completed = None /\
     bitrate completed = None /\
     thumbnailPath completed = None /\
     sensitivityStatus completed = PENDING /\
     processingError completed = None) /\
  fst (processVideoInBackground env vid path w1) = Ok tt /\
  (forall env', ffmpegAvailable env' = false ->
     processVideoInBackground env' vid path w1 =
     processVideoInBackground env vid path w1).
Proof.
  intros Hup Hjob Hav.
  destruct (uploadRoute_scheduled _ _ _ _ _ _ _ _ _ _ _ _ Hup Hjob)
    as (video & Hfound & Hfresh).
  destruct Hfresh as (_ & _ & Hverdict & Herr & Hdur & Hw & Hh & Hbit & Hcodec & Hthumb).
  destruct (run_without_prober env vid path w1 video Hfound Hav) as (Hret & Hrec & _).
  split; [|split].
  - eexists. split; [exact Hrec|]. by repeat split.
  - exact Hret.
  - intros env' Hav'.
    unfold processVideoInBackground, bind, findById, tryCatch.
    rewrite Hfound, Hav, Hav'. reflexivity.
Qed.

(** C8 (as amended).  An upload that passes the file filter, whose size is
    below the size limit (a file that reaches the limit is refused), that has
    a non-blank title, and whose document passes the schema's validators
    under a file name not yet stored, is created in state uploading, moved to
    processing at 10 and saved again, and then acknowledged with 201
    Created; the body reports the record id, the state "processing" and
    progress 10.  The background run is only scheduled.  (The limit is a safe
    integer, so that it is the number the code compares with.) *)
Theorem upload_acknowledged storedName storedPath newId f bodyTitle bodyDescription
    user w :
  let file := storedFile storedName storedPath f in
  let req := {| req_file := Some file; req_title := bodyTitle;
                req_description := bodyDescription; req_user := user |} in
  let stored := setFiles (<[storedPath := FileUpload.in_content f]> (files w)) w in
  FileUpload.videoFileFilter f = None ->
  Z.of_nat (length (FileUpload.in_content f)) < FileUpload.getMaxFileSize MAX_FILE_SIZE ->
  FileUpload.getMaxFileSize MAX_FILE_SIZE <= JS.MAX_SAFE_INTEGER ->
  JS.truthy bodyTitle = true ->
  JS.trim (default EmptyString bodyTitle) <> EmptyString ->
  validationErrors (newDocument newId (videoDataOf req file)) = [] ->
  filenameTaken (videos w) newId (JS.trim storedName) = false ->
  exists created video w',
    fst (create newId (videoDataOf req file) stored) = Ok created /\
    status created = UPLOADING /\
    uploadRoute MAX_FILE_SIZE formatFileSize storedName storedPath newId (Some f)
      bodyTitle bodyDescription user w =
      ({| outcome :=
            Sent {| statusCode := 201; headers := [];
                    body := Json true "Video uploaded successfully. Processing started."
                              (Some (UploadPayload (uploadedView video))) |};
          scheduled := Some (newId, storedPath) |}, w') /\
    up_id (uploadedView video) = newId /\
    up_status (uploadedView video) = "processing" /\
    up_processingProgress (uploadedView video) = 10 /\
    videos w' !! newId = Some video /\
    status video = PROCESSING /\
    emitted w' = emitted w.
Proof.
  intros file req stored Hfilter Hsize Hsafe Htitle Hblank Hvalid Hfree.
  set (doc := newDocument newId (videoDataOf req file)) in *.
  destruct (preSave_organization_only (users stored) doc) as [o Hcreated].
  set (created := withOrganization o doc) in *.
  set (w0 := setVideos (<[newId := created]> (videos stored)) stored).
  assert (save doc stored = (Ok created, w0)) as Hcreate.
  { rewrite (save_valid doc stored Hvalid Hfree), Hcreated. reflexivity. }
  destruct (preSave_organization_only (users w0) (withProcessing created))
    as [o' Hvideo].
  set (video := withOrganization o' (withProcessing created)) in *.
  set (w' := setVideos (<[newId := video]> (videos w0)) w0).
  assert (save (withProcessing created) w0 = (Ok video, w')) as Hsave.
  { rewrite (save_valid (withProcessing created) w0), Hvideo; [reflexivity|exact Hvalid|].
    apply filenameTaken_insert_self. exact Hfree. }
  exists created, video, w'.
  split; [unfold create; fold doc; by rewrite Hcreate|].
  split; [reflexivity|].
  split.
  - unfold uploadRoute. rewrite Hfilter.
    destruct (Z.leb_spec (FileUpload.getMaxFileSize MAX_FILE_SIZE)
                (Z.of_nat (length (FileUpload.in_content f)))); [lia|].
    fold file. fold req. fold stored. unfold uploadVideo.
    cbn [req_file req req_title]. rewrite Htitle.
    assert (JS.truthyStr (JS.trim (default EmptyString bodyTitle)) = true) as ->.
    { unfold JS.truthyStr. apply negb_true_iff. by apply String.eqb_neq. }
    cbn [negb orb]. unfold create. fold req. fold doc. rewrite Hcreate, Hsave.
    reflexivity.
  - repeat split. apply lookup_insert_eq.
Qed.

End Upload.

(** ** The orchestrator and the upload route run on the concrete deployment *)

Section PipelineInstances.

Import VideoModel ApiResponse VideoProcessor VideoController.

Local Abbreviation newClip :=
  (Scenario.clip "v-new" "explicit content test" false PROCESSING PENDING false).

Local Abbreviation processed o :=
  (snd (processVideoInBackground o "v-new" "uploads/videos/v-new.mp4" Scenario.world)).

(** [probe_failure_fatal_thumbnail_failure_absorbed] applied to a run whose
    probe throws and to a run whose thumbnailer throws. *)
Lemma probe_failure_witness :
  ffmpegAvailable (Scenario.run true Scenario.toolProbeFails) = true /\
  (exists failed,
     videos (processed (Scenario.run true Scenario.toolProbeFails)) !! "v-new"
       = Some failed /\
     status failed = FAILED /\ processingProgress failed = 0) /\
  (exists done,
     videos (processed (Scenario.run true Scenario.toolThumbnailFails)) !! "v-new"
       = Some done /\
     status done = COMPLETED /\ processingProgress done = 100 /\
     thumbnailPath done = None).
Proof.
  split; [reflexivity|]. split.
  - destruct (proj1 (probe_failure_fatal_thumbnail_failure_absorbed
                       (Scenario.run true Scenario.toolProbeFails)
                       "v-new" "uploads/videos/v-new.mp4" Scenario.world newClip
                       eq_refl eq_refl eq_refl
                       ltac:(discriminate))
                "Invalid data found when processing input" eq_refl)
      as (failed & Hrec & Hst & Hprog & _).
    exists failed. auto.
  - destruct (proj2 (probe_failure_fatal_thumbnail_failure_absorbed
                       (Scenario.run true Scenario.toolThumbnailFails)
                       "v-new" "uploads/videos/v-new.mp4" Scenario.world newClip
                       eq_refl eq_refl eq_refl
                       ltac:(discriminate))
                Scenario.probed "ffmpeg exited with code 1" eq_refl eq_refl)
      as (done & Hrec & Hst & Hprog & Hthumb & _).
    exists done. auto.
Defined.

(** The claim C6 fails as stated: without the prober the record is completed
    and its verdict is still pending, although its title holds a keyword of
    the deny-list. *)
Lemma classification_counterexample :
  ffmpegAvailable (Scenario.run false Scenario.toolWorking) = false /\
  analyzeSensitivity
    {| meta_title := Some (title newClip); meta_description := Some (description newClip) |}
    false = FLAGGED /\
  exists left_pending,
    videos (processed (Scenario.run false Scenario.toolWorking)) !! "v-new"
      = Some left_pending /\
    status left_pending = COMPLETED /\
    sensitivityStatus left_pending = PENDING.
Proof.
  split; [reflexivity|]. split; [vm_compute; reflexivity|].
  eexists. split; [vm_compute; reflexivity|]. split; reflexivity.
Qed.

(** [classification_runs_when_prober_available] applied to a run whose probe
    throws. *)
Lemma classification_witness :
  exists classified,
    videos (processed (Scenario.run true Scenario.toolProbeFails)) !! "v-new"
      = Some classified /\
    sensitivityStatus classified <> PENDING.
Proof.
  destruct (proj1 (classification_runs_when_prober_available
                     (Scenario.run true Scenario.toolProbeFails)
                     "v-new" "uploads/videos/v-new.mp4" Scenario.world newClip
                     eq_refl) eq_refl)
    as (classified & Hrec & _ & Hne).
  exists classified. auto.
Defined.

(** [degraded_upload_completes] applied to Alice's upload. *)
Lemma degraded_upload_witness :
  scheduled (fst (Scenario.upload Scenario.world)) =
    Some ("v-demo", "uploads/videos/3f2a_1700000000000.mp4") /\
  fst (processVideoInBackground (Scenario.run false Scenario.toolWorking)
         "v-demo" "uploads/videos/3f2a_1700000000000.mp4"
         (snd (Scenario.upload Scenario.world))) = Ok tt.
Proof.
  split; [vm_compute; reflexivity|].
  refine (proj1 (proj2 (degraded_upload_completes None (fun _ => "500 MB")
            "3f2a_1700000000000.mp4" "uploads/videos/3f2a_1700000000000.mp4"
            "v-demo" (Some Scenario.incoming) (Some "demo") None Scenario.alice
            Scenario.world (fst (Scenario.upload Scenario.world))
            (snd (Scenario.upload Scenario.world))
            "v-demo" "uploads/videos/3f2a_1700000000000.mp4"
            (Scenario.run false Scenario.toolWorking) _ _ _))).
  - unfold Scenario.upload. by destruct (uploadRoute _ _ _ _ _ _ _ _ _ _).
  - vm_compute. reflexivity.
  - reflexivity.
Defined.

(** The claim C8 fails as stated: Alice's upload is accepted and answered
    201 with state "processing", not 202 with state "uploading". *)
Lemma upload_acknowledged_counterexample :
  exists view,
    outcome (fst (Scenario.upload Scenario.world)) =
      Sent {| statusCode := 201; headers := [];
              body := Json true "Video uploaded successfully. Processing started."
                        (Some (UploadPayload view)) |} /\
    up_id view = "v-demo" /\
    up_status view = "processing" /\
    201 <> 202 /\ up_status view <> "uploading".
Proof.
  eexists. split; [vm_compute; reflexivity|].
  repeat split; [lia|]. cbn. discriminate.
Qed.

(** [upload_acknowledged] applied to Alice's upload. *)
Lemma upload_acknowledged_witness :
  FileUpload.videoFileFilter Scenario.incoming = None /\
  exists video,
    outcome (fst (Scenario.upload Scenario.world)) =
      Sent {| statusCode := 201; headers := [];
              body := Json true "Video uploaded successfully. Processing started."
                        (Some (UploadPayload (uploadedView video))) |} /\
    status video = PROCESSING.
Proof.
  split; [vm_compute; reflexivity|].
  destruct (upload_acknowledged None (fun _ => "500 MB")
              "3f2a_1700000000000.mp4" "uploads/videos/3f2a_1700000000000.mp4"
              "v-demo" Scenario.incoming (Some "demo") None Scenario.alice
              Scenario.world)
    as (created & video & w' & _ & _ & Hroute & _ & _ & _ & _ & Hst & _).
  - vm_compute. reflexivity.
  - vm_compute. reflexivity.
  - vm_compute. discriminate.
  - reflexivity.
  - vm_compute. discriminate.
  - vm_compute. reflexivity.
  - vm_compute. reflexivity.
  - exists video. split; [|exact Hst].
    unfold Scenario.upload. rewrite Hroute. reflexivity.
Defined.

End PipelineInstances.

(** ** The status channel on the client *)

Section StatusChannel.

Import SocketService.

Lemma purgePending_idempotent callback l :
  purgePending callback (purgePending callback l) = purgePending callback l.
Proof.
  unfold purgePending. induction l as [|sub l IH]; [reflexivity|].
  simpl. destruct (negb _) eqn:E; simpl; rewrite ?E, IH; reflexivity.
Qed.

(** After [unsubscribe callback] no entry for the callback is left in the
    pending queue, and the entries of other callbacks are all kept. *)
Lemma unsubscribe_purges_pending callback st sub :
  In sub (pendingSubscriptions (unsubscribe callback st)) <->
  In sub (pendingSubscriptions st) /\ sub <> (eventName, callback).
Proof.
  assert (pendingSubscriptions (unsubscribe callback st) =
          purgePending callback (pendingSubscriptions st)) as ->.
  { unfold unsubscribe. destruct (socket st), (listeners st !! eventName); reflexivity. }
  unfold purgePending. rewrite filter_In. destruct sub as [name cb]. simpl.
  rewrite negb_true_iff, andb_false_iff, String.eqb_neq, Nat.eqb_neq.
  split; intros [Hin Hne]; (split; [exact Hin|]).
  - intros [= -> ->]. destruct Hne; congruence.
  - destruct (String.eqb_spec name eventName) as [->|]; [|by left].
    right. intros ->. by apply Hne.
Qed.

(** A second call of the same unsubscribe function, with nothing in
    between, changes nothing. *)
Lemma unsubscribe_twice callback st :
  unsubscribe callback (unsubscribe callback st) = unsubscribe callback st.
Proof.
  unfold unsubscribe.
  destruct (socket st) as [s|] eqn:Hs; [destruct (listeners st !! eventName) eqn:Hl|];
    cbn [socket listeners pendingSubscriptions isConnected nextHandler].
  - rewrite lookup_delete_eq, purgePending_idempotent. reflexivity.
  - rewrite Hl, purgePending_idempotent. reflexivity.
  - rewrite purgePending_idempotent. reflexivity.
Qed.

(** After [disconnect()] an unsubscribe function finds nothing to do. *)
Lemma unsubscribe_after_disconnect callback st :
  unsubscribe callback (disconnect st) = disconnect st \/
  (socket st = None /\
   unsubscribe callback (disconnect st) =
     {| socket := None; isConnected := isConnected st; listeners := listeners st;
        pendingSubscriptions := purgePending callback (pendingSubscriptions st);
        nextHandler := nextHandler st |}).
Proof.
  unfold disconnect. destruct (socket st) eqn:Hs.
  - left. reflexivity.
  - right. split; [reflexivity|]. unfold unsubscribe. rewrite Hs. reflexivity.
Qed.

(** The trace of C9.  A component subscribes callback 1 on a connected
    socket and unsubscribes; a second component subscribes callback 2, the
    replacement; the first component's unsubscribe function is called
    again. *)
Local Abbreviation connected_service := (onConnect (connect (Some "token") initial)).
Local Abbreviation replaced :=
  (subscribeToVideoUpdates 2%nat
     (unsubscribe 1%nat (subscribeToVideoUpdates 1%nat connected_service))).

(** C9.  The stale second call removes the replacement listener: before it
    a status event reaches callback 2, after it the event reaches nobody.
    (The listener map is keyed by the event name alone, so the stale call
    finds the replacement's handler under the name and takes it off the
    socket.)  With both components subscribed at once, unsubscribing the
    first takes the second's handler off and leaves the first's on. *)
Theorem stale_unsubscribe_removes_replacement :
  delivered eventName replaced = [2%nat] /\
  delivered eventName (unsubscribe 1%nat replaced) = [] /\
  delivered eventName
    (unsubscribe 1%nat
       (subscribeToVideoUpdates 2%nat (subscribeToVideoUpdates 1%nat connected_service)))
    = [1%nat].
Proof. repeat split; vm_compute; reflexivity. Qed.

End StatusChannel.

(** ** More on byte serving *)

Section AuthorizedRanges.

Import VideoModel ApiResponse VideoController.

Variable jwt_verify : string -> option Auth.TokenPayload.
Variables (videoId : string) (token : option string) (w : World).
Variables (decoded : Auth.TokenPayload) (video : Video).
Variable content : list Byte.byte.

Local Abbreviation request := (mkStreamRequest videoId token).
Local Abbreviation size := (Z.of_nat (length content)).

Hypothesis token_present : JS.truthy token = true.
Hypothesis token_valid : jwt_verify (default EmptyString token) = Some decoded.
Hypothesis record_found : videos w !! videoId = Some video.
Hypothesis owner_or_visible : ownershipDenied decoded video = false.
Hypothesis completed : status video = COMPLETED.
Hypothesis not_withheld :
  sensitivityStatus video <> FLAGGED \/ Auth.role decoded = "admin".
Hypothesis path_set : filepath video <> EmptyString.
Hypothesis file_on_disk : files w !! filepath video = Some content.

Lemma served (range : option string) :
  streamVideo jwt_verify (request range) w =
    let fileSize := size in
    if negb (JS.truthy range) then
      {| statusCode := 200;
         headers := [("Content-Length", JS.numberToString (Some fileSize));
                     ("Content-Type", "video/mp4")];
         body := Piped content |}
    else
      let parts := JS.split "-" (JS.removeFirst "bytes=" (default EmptyString range)) in
      let start := JS.parseInt (default EmptyString (parts !! 0%nat)) in
      let end_ :=
        match parts !! 1%nat with
        | Some p => if JS.truthyStr p then JS.parseInt p else Some (fileSize - 1)
        | None => Some (fileSize - 1)
        end in
      let chunksize := JS.jsAdd (JS.jsSub end_ start) (Some 1) in
      {| statusCode := 206;
         headers :=
           [("Content-Range",
             "bytes " +:+ JS.numberToString start +:+ "-" +:+
             JS.numberToString end_ +:+ "/" +:+ JS.numberToString (Some fileSize));
            ("Accept-Ranges", "bytes");
            ("Content-Length", JS.numberToString chunksize);
            ("Content-Type", "video/mp4")];
         body :=
           match createReadStream content start end_ with
           | Some bytes => Piped bytes
           | None => Unwritten
           end |}.
Proof.
  rewrite (streamVideo_authorized jwt_verify videoId token w decoded video
             token_present token_valid record_found owner_or_visible completed
             not_withheld).
  apply (serveBytes_file w video content path_set file_on_disk).
Qed.

(** The requested end is not cut at the end of the file: for a range [a-b]
    that starts inside the file and ends at or beyond its last byte, the
    headers still announce [b] and [b-a+1] bytes, while the body holds the
    bytes from [a] to the end of the file only, which are fewer. *)
Theorem range_end_not_clamped (a b : string) :
  JS.allDigits a = true -> a <> EmptyString ->
  JS.allDigits b = true -> b <> EmptyString ->
  JS.decimalValue a 0 < size <= JS.decimalValue b 0 ->
  JS.decimalValue b 0 <= JS.MAX_SAFE_INTEGER ->
  let first := JS.decimalValue a 0 in
  let last := JS.decimalValue b 0 in
  let r := streamVideo jwt_verify (request (Some ("bytes=" +:+ a +:+ "-" +:+ b))) w in
  statusCode r = 206 /\
  header "Content-Range" r =
    Some ("bytes " +:+ JS.numberToString (Some first) +:+ "-" +:+
          JS.numberToString (Some last) +:+ "/" +:+ JS.numberToString (Some size)) /\
  header "Content-Length" r = Some (JS.numberToString (Some (last - first + 1))) /\
  body r = Piped (drop (Z.to_nat first) content) /\
  Z.of_nat (length (drop (Z.to_nat first) content)) = size - first /\
  size - first < last - first + 1.
Proof.
  intros Ha Hane Hb Hbne [Hlt Hle] Hsafe first last r. subst first last r.
  assert (0 <= JS.decimalValue a 0) as Hfirst by (apply decimalValue_nonneg; [done|lia]).
  rewrite served.
  assert (JS.truthyStr b = true) as Htruthy by (destruct b; [done|reflexivity]).
  change (JS.truthy (Some ("bytes=" +:+ a +:+ "-" +:+ b))) with true.
  change (JS.removeFirst "bytes="
            (default EmptyString (Some ("bytes=" +:+ a +:+ "-" +:+ b))))
    with (a +:+ "-" +:+ b).
  cbv zeta. rewrite (split_single_range a b Ha Hb).
  cbn [negb lookup list_lookup default]. change (id a) with a.
  rewrite (parseInt_digits a Ha Hane), Htruthy, (parseInt_digits b Hb Hbne).
  cbn [statusCode header headers body JS.jsSub JS.jsAdd]. unfold createReadStream.
  destruct (Z.leb_spec 0 (JS.decimalValue a 0)); [|lia].
  destruct (Z.leb_spec (JS.decimalValue a 0) JS.MAX_SAFE_INTEGER); [|lia].
  destruct (Z.leb_spec 0 (JS.decimalValue b 0)); [|lia].
  destruct (Z.leb_spec (JS.decimalValue b 0) JS.MAX_SAFE_INTEGER); [|lia].
  destruct (Z.leb_spec (JS.decimalValue a 0) (JS.decimalValue b 0)); [|lia].
  repeat split.
  - f_equal. apply take_ge. rewrite length_drop. lia.
  - rewrite length_drop. lia.
  - lia.
Qed.

(** A range that no byte satisfies gets no answer at all: for [a-b] with
    the end before the start, and for [a-] with the start at or beyond the
    end of the file, the stream cannot be created once the head has been
    set, and nothing is sent. *)
Theorem unsatisfiable_range_gets_no_answer (a : string) :
  JS.allDigits a = true -> a <> EmptyString ->
  (forall b : string,
     JS.allDigits b = true -> b <> EmptyString ->
     JS.decimalValue b 0 < JS.decimalValue a 0 ->
     body (streamVideo jwt_verify
             (request (Some ("bytes=" +:+ a +:+ "-" +:+ b))) w) = Unwritten) /\
  (size <= JS.decimalValue a 0 ->
   body (streamVideo jwt_verify (request (Some ("bytes=" +:+ a +:+ "-"))) w)
     = Unwritten).
Proof.
  intros Ha Hane. split.
  - intros b Hb Hbne Hlt. rewrite served.
    assert (JS.truthyStr b = true) as Htruthy by (destruct b; [done|reflexivity]).
    change (JS.truthy (Some ("bytes=" +:+ a +:+ "-" +:+ b))) with true.
    change (JS.removeFirst "bytes="
              (default EmptyString (Some ("bytes=" +:+ a +:+ "-" +:+ b))))
      with (a +:+ "-" +:+ b).
    cbv zeta. rewrite (split_single_range a b Ha Hb).
    cbn [negb lookup list_lookup default]. change (id a) with a.
    rewrite (parseInt_digits a Ha Hane), Htruthy, (parseInt_digits b Hb Hbne).
    cbn [body]. unfold createReadStream.
    destruct (Z.leb_spec (JS.decimalValue a 0) (JS.decimalValue b 0)); [lia|].
    by rewrite andb_false_r.
  - intros Hbeyond. rewrite served.
    change (JS.truthy (Some ("bytes=" +:+ a +:+ "-"))) with true.
    change (JS.removeFirst "bytes="
              (default EmptyString (Some ("bytes=" +:+ a +:+ "-"))))
      with (a +:+ "-").
    cbv zeta. rewrite (split_open_range a Ha).
    cbn [negb lookup list_lookup default JS.truthyStr String.eqb].
    change (id a) with a.
    rewrite (parseInt_digits a Ha Hane).
    cbn [body negb]. unfold createReadStream.
    destruct (Z.leb_spec (JS.decimalValue a 0) (size - 1)); [lia|].
    by rewrite andb_false_r.
Qed.

End AuthorizedRanges.

(** ** Authentication comes first *)

Section StreamAuthentication.

Import VideoModel ApiResponse VideoController.

Variable jwt_verify : string -> option Auth.TokenPayload.

(** A request without a token, with an empty one, or with a token the
    verification refuses is answered 401, and the answer is the same
    whatever the store holds: the record is not looked up, so the caller
    cannot tell an existing record from a missing one. *)
Theorem unauthenticated_stream_learns_nothing (req : StreamRequest) (w w' : World) :
  JS.truthy (query_token req) = false \/
  jwt_verify (default EmptyString (query_token req)) = None ->
  statusCode (streamVideo jwt_verify req w) = HttpStatus.UNAUTHORIZED /\
  streamVideo jwt_verify req w = streamVideo jwt_verify req w'.
Proof.
  unfold streamVideo. intros [Hno|Hbad].
  - rewrite Hno. split; reflexivity.
  - destruct (JS.truthy (query_token req)); [|split; reflexivity].
    rewrite Hbad. split; reflexivity.
Qed.

End StreamAuthentication.

(** ** Reading and listing metadata *)

Section Metadata.

Import VideoModel ApiResponse VideoController VideoManagement.

Lemma preSave_viewCount users v : viewCount (preSave users v) = viewCount v.
Proof. destruct (preSave_organization_only users v) as [o ->]. reflexivity. Qed.

(** Views are counted for everybody but the owner.  The owner's read leaves
    the store as it is; a permitted read by anybody else adds exactly one
    view to the record and touches no other record. *)
Theorem views_counted_for_non_owners (user : Auth.TokenPayload) (id : string)
    (w : World) (video : Video) (owner : UserModel.User) :
  videos w !! id = Some video ->
  isDeleted video = false ->
  users w !! uploadedBy video = Some owner ->
  (uploadedBy video = Auth.userId user ->
     getVideoById user id w =
       (Sent (successResponse (Some (VideoPayload video))
                "Video retrieved successfully" HttpStatus.OK), w)) /\
  (uploadedBy video <> Auth.userId user ->
   Auth.role user = "admin" \/
   (JS.truthy (organization video) = true /\
    organization video = Auth.organization user /\ isPublic video = true) ->
     exists seen,
       fst (getVideoById user id w) =
         Sent (successResponse (Some (VideoPayload seen))
                 "Video retrieved successfully" HttpStatus.OK) /\
       videos (snd (getVideoById user id w)) !! id = Some seen /\
       viewCount seen = viewCount video + 1 /\
       (forall other, other <> id ->
          videos (snd (getVideoById user id w)) !! other = videos w !! other)).
Proof.
  intros Hfound Hlive Howner. unfold getVideoById. rewrite Hfound, Hlive, Howner.
  split.
  - intros Hme. rewrite Hme, String.eqb_refl. reflexivity.
  - intros Hother Hallowed. apply String.eqb_neq in Hother. rewrite Hother.
    assert (negb (String.eqb (Auth.role user) "admin")
            && negb (JS.truthy (organization video)
                     && JS.strictEq (organization video) (Auth.organization user)
                     && isPublic video) = false) as Hpass.
    { destruct Hallowed as [->|(Ht & Ho & Hp)]; [reflexivity|].
      rewrite Ht, Hp, <- Ho. apply andb_false_iff. right.
      unfold JS.strictEq. destruct (organization video); [|done].
      by rewrite String.eqb_refl. }
    cbn [negb andb]. rewrite Hpass.
    exists (incrementViews (users w) video). cbn [fst snd videos setVideos].
    split; [reflexivity|]. split; [apply lookup_insert_eq|]. split.
    + unfold incrementViews. by rewrite preSave_viewCount.
    + intros other Hne. by apply lookup_insert_ne.
Qed.

(** Whatever [getVideos] selects for a user, [getVideoById] lets the same
    user read: the answer is 200, never 403 or 404. *)
Theorem listed_videos_are_readable (user : Auth.TokenPayload) (status : option string)
    (id : string) (w : World) (video : Video) (owner : UserModel.User) :
  videos w !! id = Some video ->
  users w !! uploadedBy video = Some owner ->
  getVideosQuery user status video = true ->
  exists shown,
    fst (getVideoById user id w) =
      Sent (successResponse (Some (VideoPayload shown))
              "Video retrieved successfully" HttpStatus.OK).
Proof.
  intros Hfound Howner Hlisted. unfold getVideosQuery in Hlisted.
  apply andb_true_iff in Hlisted as [Hlisted Hvisible].
  apply andb_true_iff in Hlisted as [Hlive _]. apply negb_true_iff in Hlive.
  unfold getVideoById. rewrite Hfound, Hlive, Howner.
  destruct (String.eqb (uploadedBy video) (Auth.userId user)) eqn:Hown.
  - eexists. reflexivity.
  - destruct (JS.truthy (Auth.organization user)) eqn:Horg; [|discriminate].
    cbn [orb] in Hvisible. apply andb_true_iff in Hvisible as [Hsame Hpublic].
    assert (JS.truthy (organization video) = true) as Htruthy.
    { unfold JS.strictEq in Hsame.
      destruct (organization video) as [o|], (Auth.organization user) as [o'|];
        try discriminate. apply String.eqb_eq in Hsame. by subst. }
    rewrite Htruthy, Hsame, Hpublic. cbn [negb andb].
    rewrite andb_false_r. eexists. reflexivity.
Qed.

End Metadata.

(** ** More on the orchestrator *)

Section OrchestratorFrame.

Import VideoModel ApiResponse VideoProcessor VideoController.

Variables (env : Oracle) (videoId filePath : string) (w : World).

Local Abbreviation final := (snd (processVideoInBackground env videoId filePath w)).

Local Ltac run_cases :=
  unfold processVideoInBackground, bind, findById, tryCatch, emitStatus,
    findByIdAndUpdate, liftResult, processVideo, getVideoMetadata,
    generateThumbnail, ret;
  destruct (videos w !! videoId) as [video|] eqn:Hfound; [|cbn];
  [destruct (ffmpegAvailable env); cbn [negb];
   [destruct (ffprobe (tool env)); [destruct (screenshots (tool env))|]|];
   destruct (io w && JS.truthyStr (uploadedBy video)) eqn:Hio;
   do 5 (cbn; rewrite ?Hio)|].

Lemma run_keeps_files : files final = files w.
Proof. run_cases; reflexivity. Qed.



(** What a run publishes, when the socket server is attached: every event
    goes to the owner's room and names the record, and the states and
    progress values come in one of three orders: 10 then completed at 100
    (no prober); 10, 30 then failed at 0 (probe threw); 10, 30, 80 then
    completed at 100.  Progress only grows while the state is processing, and
    the terminal event is the last one. *)
Theorem run_publishes_in_order (video : Video) :
  videos w !! videoId = Some video ->
  io w = true ->
  uploadedBy video <> EmptyString ->
  exists events,
    emitted final = emitted w ++ events /\
    Forall (fun e => fst e = uploadedBy video /\ ev_videoId (snd e) = videoId) events /\
    let trace := map (fun e => (ev_status (snd e), ev_progress (snd e))) events in
    (ffmpegAvailable env = false /\
       trace = [("processing", 10); ("completed", 100)]) \/
    (ffmpegAvailable env = true /\ (exists message, ffprobe (tool env) = Throw message) /\
       trace = [("processing", 10); ("processing", 30); ("failed", 0)]) \/
    (ffmpegAvailable env = true /\ (exists metadata, ffprobe (tool env) = Ok metadata) /\
       trace = [("processing", 10); ("processing", 30); ("processing", 80);
                ("completed", 100)]).
Proof.
  intros Hfound Hio Howner.
  assert (io w && JS.truthyStr (uploadedBy video) = true) as Hpub.
  { rewrite Hio. unfold JS.truthyStr. simpl. apply negb_true_iff.
    by apply String.eqb_neq. }
  destruct (ffmpegAvailable env) eqn:Hav.
  - destruct (ffprobe (tool env)) as [metadata|message] eqn:Hprobe.
    + destruct (run_probe_answers env videoId filePath w video Hfound metadata Hav Hprobe)
        as (_ & _ & Hev).
      rewrite Hpub in Hev. eexists. split; [exact Hev|]. split.
      * repeat constructor.
      * right. right. split; [reflexivity|]. split; [by eexists|reflexivity].
    + destruct (run_probe_throws env videoId filePath w video Hfound message Hav Hprobe)
        as (_ & _ & Hev).
      rewrite Hpub in Hev. eexists. split; [exact Hev|]. split.
      * repeat constructor.
      * right. left. split; [reflexivity|]. split; [by eexists|reflexivity].
  - destruct (run_without_prober env videoId filePath w video Hfound Hav)
      as (_ & _ & Hev).
    rewrite Hpub in Hev. eexists. split; [exact Hev|]. split.
    + repeat constructor.
    + left. split; reflexivity.
Qed.

(** The classification made inside [processVideo] is thrown away: its draw
    has no influence on what the run stores, publishes or returns. *)
Theorem inner_classification_is_discarded (available outer inner inner' : bool)
    (probe : Result ProbeData) (shots : Result string) :
  processVideoInBackground
    {| ffmpegAvailable := available; draw := outer;
       tool := {| ffprobe := probe; screenshots := shots; innerDraw := inner |} |}
    videoId filePath w =
  processVideoInBackground
    {| ffmpegAvailable := available; draw := outer;
       tool := {| ffprobe := probe; screenshots := shots; innerDraw := inner' |} |}
    videoId filePath w.
Proof.
  unfold processVideoInBackground, bind, findById, tryCatch, liftResult,
    processVideo, getVideoMetadata.
  destruct (videos w !! videoId) as [video|]; [|reflexivity].
  cbn [ffmpegAvailable draw tool ffprobe screenshots innerDraw].
  destruct available, probe; reflexivity.
Qed.

End OrchestratorFrame.

(** ** More on upload ingestion *)

Section UploadOutcomes.

Import VideoModel ApiResponse VideoProcessor VideoController.

Variable MAX_FILE_SIZE : option string.
Variable formatFileSize : Z -> string.
Variable jwt_verify : string -> option Auth.TokenPayload.

(** What a [save] that went through had checked. *)
Lemma save_checked doc w saved w' :
  save doc w = (Ok saved, w') ->
  validationErrors doc = [] /\
  filenameTaken (videos w) (_id doc) (filename doc) = false.
Proof.
  unfold save. destruct (validationErrors doc); [|discriminate].
  destruct (preSave_organization_only (users w) doc) as [o ->].
  cbn [_id filename withOrganization].
  destruct (filenameTaken _ _ _); [discriminate|]. done.
Qed.

(** Once [create] has gone through, the save that moves the new document
    to processing goes through as well. *)
Lemma second_save_succeeds newId req file w created w0 :
  save (newDocument newId (videoDataOf req file)) w = (Ok created, w0) ->
  exists video w2, save (withProcessing created) w0 = (Ok video, w2).
Proof.
  intros Hcreate.
  destruct (save_checked _ _ _ _ Hcreate) as [Hvalid Hfree].
  apply save_inv in Hcreate as [-> ->].
  destruct (preSave_organization_only (users w) (newDocument newId (videoDataOf req file)))
    as [o ->].
  eexists _, _. apply save_valid; [exact Hvalid|].
  cbn [_id filename withProcessing applyUpdate withOrganization newDocument
       videos setVideos].
  by apply filenameTaken_insert_self.
Qed.

(** An upload that is not acknowledged leaves nothing behind: no record is
    created, nothing is published, and no file stays at the path multer
    wrote to, whichever check refused it (file filter, size limit, blank
    title, schema validation, duplicate file name).  (The size limit is a
    positive safe integer.) *)
Theorem refused_upload_leaves_nothing storedName storedPath newId incoming
    bodyTitle bodyDescription user w up w' :
  0 < FileUpload.getMaxFileSize MAX_FILE_SIZE <= JS.MAX_SAFE_INTEGER ->
  uploadRoute MAX_FILE_SIZE formatFileSize storedName storedPath newId incoming
    bodyTitle bodyDescription user w = (up, w') ->
  scheduled up = None ->
  storedPath <> EmptyString ->
  files w !! storedPath = None ->
  videos w' = videos w /\
  emitted w' = emitted w /\
  files w' !! storedPath = None /\
  (forall other, other <> storedPath -> files w' !! other = files w !! other).
Proof.
  intros _ Hroute Hnone Hpath Hfresh. unfold uploadRoute in Hroute.
  destruct incoming as [f|].
  - destruct (FileUpload.videoFileFilter f).
    { injection Hroute as <- <-. repeat split; done. }
    destruct (_ <=? _).
    { injection Hroute as <- <-. repeat split; done. }
    unfold uploadVideo in Hroute. cbn [req_file req_title] in Hroute.
    cbn [FileUpload.path storedFile] in Hroute.
    destruct (_ || _).
    { injection Hroute as <- <-. cbn. unfold FileUpload.deleteFile. repeat split.
      - apply lookup_delete_eq.
      - intros other Hne. by rewrite lookup_delete_ne, lookup_insert_ne. }
    unfold create in Hroute.
    match type of Hroute with
    | context [save ?d ?s] => destruct (save d s) as [[created|message] w0] eqn:Hcreate
    end.
    + destruct (second_save_succeeds _ _ _ _ _ _ Hcreate) as (video & w2 & Hsave).
      rewrite Hsave in Hroute. injection Hroute as <- <-. discriminate.
    + assert (w0 = setFiles (<[storedPath := FileUpload.in_content f]> (files w)) w)
        as ->.
      { unfold save in Hcreate. destruct (validationErrors _); [|by injection Hcreate].
        destruct (filenameTaken _ _ _); [by injection Hcreate|discriminate]. }
      assert (JS.truthyStr storedPath = true) as Htruthy.
      { unfold JS.truthyStr. apply negb_true_iff. by apply String.eqb_neq. }
      rewrite Htruthy in Hroute. injection Hroute as <- <-. cbn.
      unfold FileUpload.deleteFile. repeat split.
      * apply lookup_delete_eq.
      * intros other Hne. by rewrite lookup_delete_ne, lookup_insert_ne.
  - unfold uploadVideo in Hroute. cbn [req_file] in Hroute.
    injection Hroute as <- <-. repeat split; done.
Qed.

(** What an accepted upload leaves in the store. *)
Lemma accepted_upload_stores storedName storedPath newId f bodyTitle bodyDescription
    user w :
  let file := storedFile storedName storedPath f in
  let req := {| req_file := Some file; req_title := bodyTitle;
                req_description := bodyDescription; req_user := user |} in
  FileUpload.videoFileFilter f = None ->
  Z.of_nat (length (FileUpload.in_content f)) < FileUpload.getMaxFileSize MAX_FILE_SIZE ->
  JS.truthy bodyTitle = true ->
  JS.trim (default EmptyString bodyTitle) <> EmptyString ->
  validationErrors (newDocument newId (videoDataOf req file)) = [] ->
  filenameTaken (videos w) newId (JS.trim storedName) = false ->
  exists up video w',
    uploadRoute MAX_FILE_SIZE formatFileSize storedName storedPath newId (Some f)
      bodyTitle bodyDescription user w = (up, w') /\
    scheduled up = Some (newId, storedPath) /\
    videos w' !! newId = Some video /\
    uploadedBy video = Auth.userId user /\
    filepath video = storedPath /\
    isPublic video = false /\
    files w' !! storedPath = Some (FileUpload.in_content f).
Proof.
  intros file req Hfilter Hsize Htitle Hblank Hvalid Hfree.
  set (stored := setFiles (<[storedPath := FileUpload.in_content f]> (files w)) w).
  set (doc := newDocument newId (videoDataOf req file)) in *.
  destruct (preSave_organization_only (users stored) doc) as [o Hcreated].
  set (created := withOrganization o doc) in *.
  set (w0 := setVideos (<[newId := created]> (videos stored)) stored).
  assert (save doc stored = (Ok created, w0)) as Hcreate.
  { rewrite (save_valid doc stored Hvalid Hfree), Hcreated. reflexivity. }
  destruct (preSave_organization_only (users w0) (withProcessing created))
    as [o' Hvideo].
  set (video := withOrganization o' (withProcessing created)) in *.
  set (w' := setVideos (<[newId := video]> (videos w0)) w0).
  assert (save (withProcessing created) w0 = (Ok video, w')) as Hsave.
  { rewrite (save_valid (withProcessing created) w0), Hvideo; [reflexivity|exact Hvalid|].
    apply filenameTaken_insert_self. exact Hfree. }
  eexists _, video, w'. split.
  - unfold uploadRoute. rewrite Hfilter.
    destruct (Z.leb_spec (FileUpload.getMaxFileSize MAX_FILE_SIZE)
                (Z.of_nat (length (FileUpload.in_content f)))); [lia|].
    fold file. fold req. fold stored. unfold uploadVideo.
    cbn [req_file req req_title]. rewrite Htitle.
    assert (JS.truthyStr (JS.trim (default EmptyString bodyTitle)) = true) as ->.
    { unfold JS.truthyStr. apply negb_true_iff. by apply String.eqb_neq. }
    cbn [negb orb]. unfold create. fold req. fold doc. rewrite Hcreate, Hsave.
    reflexivity.
  - repeat split; [apply lookup_insert_eq|]. cbn. apply lookup_insert_eq.
Qed.

(** Upload, process, stream: the bytes of an accepted upload come back.
    Whenever the run ends completed with a verdict other than flagged, the
    uploader's streaming request without a Range header is answered 200 with
    exactly the uploaded bytes; this is so in particular whenever the prober
    is unavailable, where the verdict stays pending whatever the title
    says. *)
Theorem uploaded_bytes_stream_back storedName storedPath newId f bodyTitle
    bodyDescription user w env token :
  let file := storedFile storedName storedPath f in
  let req := {| req_file := Some file; req_title := bodyTitle;
                req_description := bodyDescription; req_user := user |} in
  let uploaded :=
    snd (uploadRoute MAX_FILE_SIZE formatFileSize storedName storedPath newId (Some f)
           bodyTitle bodyDescription user w) in
  let final := snd (processVideoInBackground env newId storedPath uploaded) in
  let answer :=
    streamVideo jwt_verify
      {| params_id := newId; query_token := Some token; headers_range := None |} final in
  FileUpload.videoFileFilter f = None ->
  Z.of_nat (length (FileUpload.in_content f)) < FileUpload.getMaxFileSize MAX_FILE_SIZE ->
  JS.truthy bodyTitle = true ->
  JS.trim (default EmptyString bodyTitle) <> EmptyString ->
  validationErrors (newDocument newId (videoDataOf req file)) = [] ->
  FileUpload.getMaxFileSize MAX_FILE_SIZE <= JS.MAX_SAFE_INTEGER ->
  filenameTaken (videos w) newId (JS.trim storedName) = false ->
  storedPath <> EmptyString ->
  token <> EmptyString ->
  jwt_verify token = Some user ->
  exists ended,
    videos final !! newId = Some ended /\
    (status ended = COMPLETED -> sensitivityStatus ended <> FLAGGED ->
       answer =
         {| statusCode := 200;
            headers := [("Content-Length",
                         JS.numberToString
                           (Some (Z.of_nat (length (FileUpload.in_content f)))));
                        ("Content-Type", "video/mp4")];
            body := Piped (FileUpload.in_content f) |}) /\
    (ffmpegAvailable env = false ->
       status ended = COMPLETED /\ sensitivityStatus ended = PENDING).
Proof.
  intros file req uploaded final answer Hfilter Hsize Htitle Hblank Hvalid Hsafe
    Hfree Hpath Htoken Hverify.
  destruct (accepted_upload_stores storedName storedPath newId f bodyTitle
              bodyDescription user w Hfilter Hsize Htitle Hblank Hvalid Hfree)
    as (up & video & w' & Hroute & Hjob & Hrec & Howner & Hfile & _ & Hdisk).
  assert (uploaded = w') as Hup by (subst uploaded; by rewrite Hroute).
  clearbody uploaded. subst uploaded.
  pose proof (run_keeps_files env newId storedPath w') as Hfiles.
  fold final in Hfiles.
  destruct (uploadRoute_scheduled MAX_FILE_SIZE formatFileSize _ _ _ _ _ _ _ _ _ _ _ _
              Hroute Hjob) as (video'' & Hrec'' & Hfresh).
  rewrite Hrec in Hrec''. injection Hrec'' as <-.
  destruct Hfresh as (_ & _ & Hpending & _).
  assert (exists u, videos final !! newId = Some (applyUpdate u video) /\
                    (ffmpegAvailable env = false ->
                     set_status u = Some COMPLETED /\ set_sensitivityStatus u = None))
    as (u & Hended & Hdegraded).
  { destruct (ffmpegAvailable env) eqn:Hav.
    - destruct (ffprobe (tool env)) as [metadata|message] eqn:Hprobe.
      + destruct (run_probe_answers env newId storedPath w' video Hrec metadata Hav Hprobe)
          as (_ & H & _). eexists. split; [exact H|]. discriminate.
      + destruct (run_probe_throws env newId storedPath w' video Hrec message Hav Hprobe)
          as (_ & H & _). eexists. split; [exact H|]. discriminate.
    - destruct (run_without_prober env newId storedPath w' video Hrec Hav)
        as (_ & H & _). eexists. split; [exact H|]. intros _. split; reflexivity. }
  exists (applyUpdate u video). split; [exact Hended|]. split.
  - intros Hcompleted Hverdict. subst answer.
    rewrite (streamVideo_authorized jwt_verify newId (Some token) final user
               (applyUpdate u video)).
    + rewrite (serveBytes_file final (applyUpdate u video) (FileUpload.in_content f)).
      * reflexivity.
      * cbn [filepath applyUpdate]. by rewrite Hfile.
      * cbn [filepath applyUpdate]. by rewrite Hfile, Hfiles.
    + unfold JS.truthy, JS.truthyStr. apply negb_true_iff. by apply String.eqb_neq.
    + exact Hverify.
    + exact Hended.
    + apply ownershipDenied_owner. cbn [uploadedBy applyUpdate]. exact Howner.
    + exact Hcompleted.
    + by left.
  - intros Hav. destruct (Hdegraded Hav) as [Hs Hv].
    cbn [status sensitivityStatus applyUpdate]. rewrite Hs, Hv. cbn.
    split; [reflexivity|exact Hpending].
Qed.

End UploadOutcomes.

(** ** The sensitivity classifier *)

Section Classifier.

Import JS VideoModel VideoProcessor.

Lemma stripPrefix_self k rest : stripPrefix k (k +:+ rest) = Some rest.
Proof.
  induction k as [|c k IH]; [reflexivity|].
  change (String c k +:+ rest) with (String c (k +:+ rest)).
  cbn [stripPrefix]. by rewrite Ascii.eqb_refl.
Qed.

Lemma includes_here k rest : includes (k +:+ rest) k = true.
Proof.
  destruct (k +:+ rest) eqn:E; cbn [includes]; rewrite <- E, stripPrefix_self;
    reflexivity.
Qed.

Lemma includes_later before s k :
  includes s k = true -> includes (before +:+ s) k = true.
Proof.
  intros H. induction before as [|c before IH]; [exact H|].
  change (String c before +:+ s) with (String c (before +:+ s)).
  cbn [includes]. destruct (stripPrefix k _); [reflexivity|exact IH].
Qed.

Lemma toLowerCase_app a b : toLowerCase (a +:+ b) = toLowerCase a +:+ toLowerCase b.
Proof.
  induction a as [|c a IH]; [reflexivity|].
  change (String c a +:+ b) with (String c (a +:+ b)).
  cbn [toLowerCase]. rewrite IH. reflexivity.
Qed.

Lemma append_assoc a b c : (a +:+ b) +:+ c = a +:+ b +:+ c.
Proof.
  induction a as [|x a IH]; [reflexivity|].
  change ((String x a +:+ b) +:+ c) with (String x ((a +:+ b) +:+ c)).
  rewrite IH. reflexivity.
Qed.

Lemma append_truthy a b c :
  b <> EmptyString -> truthyStr (a +:+ b +:+ c) = true.
Proof.
  intros Hb. destruct a; [destruct b; [done|reflexivity]|reflexivity].
Qed.

(** A word of the deny-list anywhere in the title or in the description, in
    any mix of upper and lower case, flags the record, whatever the other
    field holds and whatever the simulated draw. *)
Theorem keyword_always_flags (keyword word before after : string)
    (other : option string) (simulatedFlag : bool) :
  In keyword UNSAFE_KEYWORDS ->
  toLowerCase word = keyword ->
  analyzeSensitivity
    {| meta_title := Some (before +:+ word +:+ after); meta_description := other |}
    simulatedFlag = FLAGGED /\
  analyzeSensitivity
    {| meta_title := other; meta_description := Some (before +:+ word +:+ after) |}
    simulatedFlag = FLAGGED.
Proof.
  intros Hin Hlower.
  assert (word <> EmptyString) as Hword.
  { intros ->. simpl in Hlower. subst keyword.
    repeat (destruct Hin as [Hin|Hin]; [discriminate|]). exact Hin. }
  assert (forall s, includes (toLowerCase (before +:+ word +:+ after) +:+ s) keyword = true)
    as Hhit.
  { intros s. rewrite !toLowerCase_app, Hlower, !append_assoc.
    apply includes_later, includes_here. }
  unfold analyzeSensitivity. cbn [meta_title meta_description truthy].
  rewrite (append_truthy before word after Hword). cbn [negb andb].
  split.
  - assert (existsb (includes (toLowerCase
              (default EmptyString (Some (before +:+ word +:+ after)) +:+ " " +:+
               default EmptyString other))) UNSAFE_KEYWORDS = true) as ->; [|reflexivity].
    apply existsb_exists. exists keyword. split; [exact Hin|].
    cbn [default from_option id]. rewrite toLowerCase_app. apply Hhit.
  - rewrite andb_false_r.
    assert (existsb (includes (toLowerCase
              (default EmptyString other +:+ " " +:+
               default EmptyString (Some (before +:+ word +:+ after))))) UNSAFE_KEYWORDS
            = true) as ->; [|reflexivity].
    apply existsb_exists. exists keyword. split; [exact Hin|].
    cbn [default from_option id]. rewrite !toLowerCase_app.
    apply includes_later, includes_later.
    rewrite <- (append_empty_r (toLowerCase before +:+ _)), <- !toLowerCase_app.
    apply Hhit.
Qed.

End Classifier.

(** ** The model's instance methods *)

Section ModelMethods.

Import VideoModel VideoProcessor VideoController VideoMethods.

Lemma clampProgress_bounds progress : 0 <= clampProgress progress <= 100.
Proof. unfold clampProgress. lia. Qed.

Lemma progressed_progress progress newStatus v :
  processingProgress (progressed progress newStatus v) = clampProgress progress.
Proof. unfold progressed. by destruct (_ && _). Qed.

(** The validators of the schema look at the progress field only through
    its bounds, and at nothing else that an update of state and progress
    changes. *)
Lemma validationErrors_progress u v :
  set_duration u = None ->
  0 <= default (processingProgress v) (set_processingProgress u) <= 100 ->
  validationErrors v = [] ->
  validationErrors (applyUpdate u v) = [].
Proof.
  intros Hd Hp Hv. unfold validationErrors in *.
  cbn [title description filename originalFilename filepath filesize duration
       mimeType uploadedBy processingProgress applyUpdate]. rewrite Hd.
  repeat (apply app_eq_nil in Hv as [? Hv]).
  repeat match goal with H : ?x = [] |- context [?x] => rewrite H end.
  destruct (Z.ltb_spec (default (processingProgress v) (set_processingProgress u)) 0);
    [lia|].
  destruct (Z.ltb_spec 100 (default (processingProgress v) (set_processingProgress u)));
    [lia|].
  destruct (duration v); reflexivity.
Qed.

Lemma progressed_status progress v :
  (status v = PROCESSING ->
     status (progressed progress None v) =
       if 100 <=? progress then COMPLETED else PROCESSING) /\
  (status v <> PROCESSING ->
     status (progressed progress None v) = status v).
Proof.
  unfold progressed.
  set (moved := applyUpdate _ v).
  assert (status moved = status v) as Hmoved by reflexivity.
  rewrite Hmoved. split.
  - intros Hs. rewrite Hs. destruct (100 <=? progress); cbn [andb VideoStatus_eqb];
      [reflexivity|by rewrite Hmoved].
  - intros Hs.
    assert (VideoStatus_eqb (status v) PROCESSING = false) as ->.
    { by destruct (status v). }
    rewrite andb_false_r. exact Hmoved.
Qed.

(** A valid document stays valid through [updateProgress], so the save goes
    through and stores the document under its id. *)
Lemma updateProgress_saves progress newStatus v w :
  validationErrors v = [] ->
  filenameTaken (videos w) (_id v) (filename v) = false ->
  exists o,
    updateProgress progress newStatus v w =
      (Ok (withOrganization o (progressed progress newStatus v)),
       setVideos (<[_id v := withOrganization o (progressed progress newStatus v)]>
                    (videos w)) w).
Proof.
  intros Hvalid Hfree.
  assert (validationErrors (progressed progress newStatus v) = []) as Hvalid'.
  { unfold progressed. destruct (_ && _).
    - apply validationErrors_progress; [reflexivity| |].
      + cbn. apply clampProgress_bounds.
      + apply validationErrors_progress; [reflexivity| |exact Hvalid].
        cbn. apply clampProgress_bounds.
    - apply validationErrors_progress; [reflexivity| |exact Hvalid].
      cbn. apply clampProgress_bounds. }
  assert (_id (progressed progress newStatus v) = _id v /\
          filename (progressed progress newStatus v) = filename v) as [Hid Hname].
  { unfold progressed. by destruct (_ && _). }
  unfold updateProgress. rewrite save_valid; [|exact Hvalid'|by rewrite Hid, Hname].
  destruct (preSave_organization_only (users w) (progressed progress newStatus v))
    as [o ->].
  exists o. by rewrite Hid.
Qed.

(** [updateProgress] never stores a progress outside 0..100, whatever number
    it is given: the value is cut to the bounds before the save, so a
    document that was valid is saved again without a validation error. *)
Theorem updateProgress_stays_in_bounds (progress : Z) (newStatus : option VideoStatus)
    (v : Video) (w : World) :
  validationErrors v = [] ->
  filenameTaken (videos w) (_id v) (filename v) = false ->
  exists saved w',
    updateProgress progress newStatus v w = (Ok saved, w') /\
    videos w' !! _id v = Some saved /\
    processingProgress saved = Z.min 100 (Z.max 0 progress) /\
    0 <= processingProgress saved <= 100.
Proof.
  intros Hvalid Hfree.
  destruct (updateProgress_saves progress newStatus v w Hvalid Hfree) as [o ->].
  eexists _, _. split; [reflexivity|].
  cbn [videos setVideos processingProgress withOrganization].
  rewrite progressed_progress. split; [apply lookup_insert_eq|].
  split; [reflexivity|apply clampProgress_bounds].
Qed.

(** [updateProgress] completes processing records only.  Called without a
    state on a valid document, it saves a processing record as completed,
    at 100, when the progress given is 100 or more (150 as well as 100), and
    as processing below that; an uploading, a completed or a failed record
    keeps its state whatever the progress, so a failed record is never
    revived by a late progress report. *)
Theorem updateProgress_completes_processing_only (progress : Z) (v : Video)
    (w : World) :
  validationErrors v = [] ->
  filenameTaken (videos w) (_id v) (filename v) = false ->
  exists saved w',
    updateProgress progress None v w = (Ok saved, w') /\
    (status v = PROCESSING -> 100 <= progress ->
       status saved = COMPLETED /\ processingProgress saved = 100) /\
    (status v = PROCESSING -> progress < 100 -> status saved = PROCESSING) /\
    (status v <> PROCESSING -> status saved = status v).
Proof.
  intros Hvalid Hfree.
  destruct (updateProgress_saves progress None v w Hvalid Hfree) as [o ->].
  eexists _, _. split; [reflexivity|].
  cbn [status processingProgress withOrganization].
  destruct (progressed_status progress v) as [Hrun Hother].
  rewrite progressed_progress. split; [|split].
  - intros Hs Hp. rewrite (Hrun Hs).
    destruct (Z.leb_spec 100 progress); [|lia].
    split; [reflexivity|]. unfold clampProgress. lia.
  - intros Hs Hp. rewrite (Hrun Hs). by destruct (Z.leb_spec 100 progress); [lia|].
  - exact Hother.
Qed.

(** A number below 60, written in decimal and padded, takes two
    characters. *)
Lemma two_characters (n : Z) :
  0 <= n < 60 -> String.length (padStart2 (JS.numberToString (Some n))) = 2%nat.
Proof.
  intros Hn.
  assert (exists k, (k < 60)%nat /\ n = Z.of_nat k) as (k & Hk & ->).
  { exists (Z.to_nat n). lia. }
  do 60 (destruct k as [|k]; [reflexivity|]). lia.
Qed.

(** The two duration formatters.  For a duration of [d > 0] whole seconds
    both give the same text, [m:ss] below one hour and [h:mm:ss] from one
    hour on, where the fields recombine to [d] and the minutes and seconds
    after the first field always take two characters.  (The duration is a
    safe integer, so that the divisions are exact.) *)
Theorem duration_formatters_agree (d : Z) (v : Video) :
  0 < d <= JS.MAX_SAFE_INTEGER ->
  duration v = Some d ->
  let h := d / 3600 in
  let m := d mod 3600 / 60 in
  let s := d mod 60 in
  d = 3600 * h + 60 * m + s /\ 0 <= m < 60 /\ 0 <= s < 60 /\
  String.length (padStart2 (JS.numberToString (Some m))) = 2%nat /\
  String.length (padStart2 (JS.numberToString (Some s))) = 2%nat /\
  durationFormatted v = Some (formatDuration (Some d)) /\
  formatDuration (Some d) =
    if 0 <? h
    then JS.numberToString (Some h) +:+ ":" +:+
         padStart2 (JS.numberToString (Some m)) +:+ ":" +:+
         padStart2 (JS.numberToString (Some s))
    else JS.numberToString (Some m) +:+ ":" +:+
         padStart2 (JS.numberToString (Some s)).
Proof.
  intros [Hpos Hsafe] Hd h m s.
  assert (0 <= m < 60) as Hm.
  { subst m. pose proof (Z.mod_pos_bound d 3600 ltac:(lia)).
    split; [apply Z.div_pos; lia|apply Z.div_lt_upper_bound; lia]. }
  assert (0 <= s < 60) as Hs by (subst s; apply Z.mod_pos_bound; lia).
  assert (d = 3600 * h + 60 * m + s) as Hsum.
  { subst h m s.
    pose proof (Z.div_mod d 3600 ltac:(lia)) as H1.
    pose proof (Z.div_mod (d mod 3600) 60 ltac:(lia)) as H2.
    assert ((d mod 3600) mod 60 = d mod 60) as H3.
    { symmetry. rewrite H1 at 1.
      replace (3600 * (d / 3600) + d mod 3600)
        with (d mod 3600 + (60 * (d / 3600)) * 60) by lia.
      apply Z.mod_add. lia. }
    lia. }
  split; [exact Hsum|]. split; [exact Hm|]. split; [exact Hs|].
  split; [apply two_characters; exact Hm|]. split; [apply two_characters; exact Hs|].
  assert (formatDuration (Some d) = clock d) as Hfmt.
  { unfold formatDuration.
    destruct (Z.eqb_spec d 0); [lia|]. destruct (Z.leb_spec d 0); [lia|]. reflexivity. }
  split.
  - unfold durationFormatted. rewrite Hd, Hfmt.
    destruct (Z.eqb_spec d 0); [lia|]. reflexivity.
  - rewrite Hfmt. unfold clock. rewrite !Z.rem_mod_nonneg by lia. reflexivity.
Qed.

End ModelMethods.

(** ** Pagination and statistics *)

Section PaginationFacts.

Import Pagination.

(** With a positive page size and a count of [total] items, [totalPages] is
    the least number of pages that hold them all, and [hasNextPage] is true
    exactly when items remain after the current page.  (The three numbers
    are safe integers, so that the division is exact up to its rounding to a
    whole number.) *)
Theorem pagination_counts_pages (page limit total : Z) :
  0 < limit <= JS.MAX_SAFE_INTEGER ->
  0 <= total <= JS.MAX_SAFE_INTEGER ->
  - JS.MAX_SAFE_INTEGER <= page <= JS.MAX_SAFE_INTEGER ->
  exists n,
    totalPages (pagination (Fin page) (Fin limit) total) = Fin n /\
    (total = 0 -> n = 0) /\
    (0 < total -> (n - 1) * limit < total <= n * limit) /\
    (hasNextPage (pagination (Fin page) (Fin limit) total) = true <->
     page * limit < total) /\
    (hasPrevPage (pagination (Fin page) (Fin limit) total) = true <-> 1 < page).
Proof.
  intros [Hlimit _] [Htotal _] _.
  exists (- ((- total) / limit)).
  assert (ceilDiv total (Fin limit) = Fin (- ((- total) / limit))) as Hceil.
  { unfold ceilDiv. destruct limit; try lia. reflexivity. }
  pose proof (Z.div_mod (- total) limit ltac:(lia)) as Hdiv.
  pose proof (Z.mod_pos_bound (- total) limit Hlimit) as Hmod.
  unfold pagination. cbn [totalPages hasNextPage hasPrevPage]. rewrite Hceil.
  split; [reflexivity|]. cbn [lt].
  split; [intros ->; nia|]. split; [intros Hsome; nia|]. split.
  - rewrite Z.ltb_lt. split; intros H; nia.
  - apply Z.ltb_lt.
Qed.

End PaginationFacts.

Section Statistics.

Import VideoModel VideoController VideoManagement.

Lemma countOf_groupOf docs s :
  countOf (groupOf docs s) =
    Z.of_nat (length (List.filter (fun v => VideoStatus_eqb (status v) s) docs)).
Proof. unfold groupOf. by destruct (List.filter _ docs). Qed.

Lemma sizeOf_groupOf docs s :
  sizeOf (groupOf docs s) =
    sumSizes (List.filter (fun v => VideoStatus_eqb (status v) s) docs).
Proof. unfold groupOf. by destruct (List.filter _ docs). Qed.

Lemma groups_partition docs :
  Z.of_nat (length docs) =
    countOf (groupOf docs UPLOADING) + countOf (groupOf docs PROCESSING) +
    countOf (groupOf docs COMPLETED) + countOf (groupOf docs FAILED) /\
  sumSizes docs =
    sizeOf (groupOf docs UPLOADING) + sizeOf (groupOf docs PROCESSING) +
    sizeOf (groupOf docs COMPLETED) + sizeOf (groupOf docs FAILED).
Proof.
  rewrite !countOf_groupOf, !sizeOf_groupOf.
  induction docs as [|v docs [IHc IHs]]; [split; reflexivity|].
  unfold sumSizes in *.
  cbn [List.filter length fold_right].
  destruct (status v); cbn [VideoStatus_eqb length fold_right]; split; lia.
Qed.

(** The statistics add up: the groups by state together count every
    selected document once, so their counts sum to [totalVideos] and their
    sizes to [totalSize]; and no soft-deleted document is counted.  (The
    sizes are not negative, as the schema demands, and their sum is a safe
    integer, so that every sum is exact.) *)
Theorem stats_add_up (user : Auth.TokenPayload) (w : World) :
  Forall (fun v => 0 <= filesize v) (selected (statsQuery user) w) ->
  sumSizes (selected (statsQuery user) w) <= JS.MAX_SAFE_INTEGER ->
  let s := getVideoStats user w in
  totalVideos s =
    countOf (byStatus s UPLOADING) + countOf (byStatus s PROCESSING) +
    countOf (byStatus s COMPLETED) + countOf (byStatus s FAILED) /\
  totalSize s =
    sizeOf (byStatus s UPLOADING) + sizeOf (byStatus s PROCESSING) +
    sizeOf (byStatus s COMPLETED) + sizeOf (byStatus s FAILED) /\
  Forall (fun v => isDeleted v = false) (selected (statsQuery user) w).
Proof.
  intros _ _. cbn zeta. unfold getVideoStats. cbn [totalVideos totalSize byStatus].
  destruct (groups_partition (selected (statsQuery user) w)) as [Hc Hs].
  split; [exact Hc|]. split.
  - rewrite <- Hs. by destruct (selected (statsQuery user) w).
  - unfold selected. apply Forall_forall. intros v Hin.
    apply list_elem_of_In, filter_In in Hin as [_ Hq].
    unfold statsQuery in Hq. apply andb_true_iff in Hq as [Hq _].
    by apply negb_true_iff.
Qed.

End Statistics.

(** ** Managing records: delete, update, moderate *)

Section Management.

Import VideoModel ApiResponse VideoProcessor VideoController VideoManagement.

Variable jwt_verify : string -> option Auth.TokenPayload.

Lemma save_edit doc w :
  validationErrors doc = [] ->
  filenameTaken (videos w) (_id doc) (filename doc) = false ->
  exists o,
    save doc w =
      (Ok (withOrganization o doc),
       setVideos (<[_id doc := withOrganization o doc]> (videos w)) w).
Proof.
  intros Hvalid Hfree. rewrite (save_valid _ _ Hvalid Hfree).
  destruct (preSave_organization_only (users w) doc) as [o ->]. by exists o.
Qed.

Lemma preSave_with_organization users v :
  JS.truthy (organization v) = true -> preSave users v = v.
Proof. intros H. unfold preSave. by rewrite H. Qed.

Lemma selected_stored query w listed :
  In listed (selected query w) ->
  query listed = true /\ exists k, videos w !! k = Some listed.
Proof.
  unfold selected. intros Hin. apply filter_In in Hin as [Hin Hq].
  split; [exact Hq|].
  apply list_elem_of_In, list_elem_of_fmap in Hin as [[k v] [-> Hin]].
  exists k. by apply elem_of_map_to_list in Hin.
Qed.

(** A delete by the owner or an administrator is answered 200 and is soft:
    the record stays in the store with its flag set and its file path, and
    the file stays on disk; but from then on [getVideoById] answers 404 to
    every reader and no listing of [getVideos] shows a record of that id. *)
Theorem soft_delete_hides_record_keeps_file (user reader : Auth.TokenPayload)
    (id : string) (w : World) (video : Video) :
  map_Forall (fun k v => _id v = k) (videos w) ->
  videos w !! id = Some video ->
  validationErrors video = [] ->
  filenameTaken (videos w) id (filename video) = false ->
  uploadedBy video = Auth.userId user \/ Auth.role user = "admin" ->
  let w' := snd (deleteVideo user id w) in
  (exists r, fst (deleteVideo user id w) = Answered r /\
             reply_code r = HttpStatus.OK) /\
  (exists kept, videos w' !! id = Some kept /\ isDeleted kept = true /\
                filepath kept = filepath video) /\
  files w' = files w /\
  getVideoById reader id w' =
    (Sent (errorResponse "Video not found" HttpStatus.NOT_FOUND), w') /\
  (forall status listed,
     In listed (selected (getVideosQuery reader status) w') -> _id listed <> id).
Proof.
  intros Hkeyed Hfound Hvalid Hfree Hmay. cbn zeta.
  pose proof (Hkeyed _ _ Hfound) as Hid.
  unfold deleteVideo. rewrite Hfound.
  assert (negb (String.eqb (uploadedBy video) (Auth.userId user))
          && negb (String.eqb (Auth.role user) "admin") = false) as ->.
  { destruct Hmay as [->| ->]; [by rewrite String.eqb_refl|].
    by rewrite andb_false_r. }
  destruct (save_edit (withIsDeleted true video) w) as [o Hsave].
  { exact Hvalid. }
  { cbn [_id filename withIsDeleted]. by rewrite Hid. }
  rewrite Hsave. cbn [_id withIsDeleted fst snd]. rewrite Hid.
  set (kept := withOrganization o (withIsDeleted true video)).
  split; [eexists; split; reflexivity|].
  split; [exists kept; cbn [videos setVideos]; by rewrite lookup_insert_eq|].
  split; [reflexivity|]. split.
  - unfold getVideoById. cbn [videos setVideos]. by rewrite lookup_insert_eq.
  - intros status listed Hin Hsame.
    apply selected_stored in Hin as [Hq [k Hk]]. cbn [videos setVideos] in Hk.
    destruct (decide (k = id)) as [->|Hne].
    + rewrite lookup_insert_eq in Hk. injection Hk as <-.
      unfold getVideosQuery in Hq. by cbn in Hq.
    + rewrite lookup_insert_ne in Hk by done.
      apply Hkeyed in Hk. congruence.
Qed.

(** Whatever [updateVideo] answers, it changes nothing but the metadata of
    the one record: the files on disk, the published events and every other
    record stay as they were, and the record itself keeps its state, its
    verdict, its progress, its owner, its file and its flags of deletion
    and view count. *)
Theorem update_changes_metadata_only (user : Auth.TokenPayload) (id : string)
    (body : UpdateBody) (w : World) (video : Video) :
  videos w !! id = Some video ->
  _id video = id ->
  let w' := snd (updateVideo user id body w) in
  files w' = files w /\ emitted w' = emitted w /\
  (forall other, other <> id -> videos w' !! other = videos w !! other) /\
  exists video',
    videos w' !! id = Some video' /\
    status video' = status video /\
    sensitivityStatus video' = sensitivityStatus video /\
    processingProgress video' = processingProgress video /\
    uploadedBy video' = uploadedBy video /\
    filename video' = filename video /\
    filepath video' = filepath video /\
    filesize video' = filesize video /\
    viewCount video' = viewCount video /\
    isDeleted video' = isDeleted video.
Proof.
  intros Hfound Hid. cbn zeta. unfold updateVideo. rewrite Hfound.
  assert (forall x : World, x = w ->
            files x = files w /\ emitted x = emitted w /\
            (forall other, other <> id -> videos x !! other = videos w !! other) /\
            exists video',
              videos x !! id = Some video' /\
              status video' = status video /\
              sensitivityStatus video' = sensitivityStatus video /\
              processingProgress video' = processingProgress video /\
              uploadedBy video' = uploadedBy video /\
              filename video' = filename video /\
              filepath video' = filepath video /\
              filesize video' = filesize video /\
              viewCount video' = viewCount video /\
              isDeleted video' = isDeleted video) as Hsame.
  { intros x ->. repeat split; try done. exists video. by repeat split. }
  destruct (isDeleted video) eqn:Hflag; [by apply Hsame|].
  destruct (negb _ && negb _); [by apply Hsame|].
  destruct (save (edited body video) w) as [[saved|message] w1] eqn:Hsave.
  - apply save_inv in Hsave as [Hsaved ->].
    destruct (preSave_organization_only (users w) (edited body video)) as [o Ho].
    rewrite Ho in Hsaved. subst saved.
    assert (_id (withOrganization o (edited body video)) = id) as Hkey.
    { unfold edited. by destruct (body_title body), (body_description body),
        (body_isPublic body). }
    rewrite Hkey. cbn [snd files emitted videos setVideos].
    split; [reflexivity|]. split; [reflexivity|].
    split; [intros other Hne; by rewrite lookup_insert_ne|].
    eexists. split; [apply lookup_insert_eq|].
    unfold edited.
    destruct (body_title body), (body_description body), (body_isPublic body);
      repeat split; try reflexivity; exact Hflag.
  - assert (w1 = w) as ->; [|by apply Hsame].
    unfold save in Hsave. destruct (validationErrors _); [|by injection Hsave].
    destruct (filenameTaken _ _ _); [by injection Hsave|discriminate].
Qed.

(** A title that is blank once trimmed is refused by the schema: the error
    goes to the error handler with the validator's message, and the store is
    left as it was. *)
Theorem blank_title_is_rejected (user : Auth.TokenPayload) (id : string)
    (body : UpdateBody) (w : World) (video : Video) (t : string) :
  videos w !! id = Some video ->
  isDeleted video = false ->
  uploadedBy video = Auth.userId user \/ Auth.role user = "admin" ->
  body_title body = Some t ->
  JS.trim t = EmptyString ->
  exists errors,
    In ("title", "Video title is required") errors /\
    updateVideo user id body w = (PassedOn (validationMessage errors), w).
Proof.
  intros Hfound Hlive Hmay Htitle Hblank. unfold updateVideo.
  rewrite Hfound, Hlive.
  assert (negb (String.eqb (uploadedBy video) (Auth.userId user))
          && negb (String.eqb (Auth.role user) "admin") = false) as ->.
  { destruct Hmay as [->| ->]; [by rewrite String.eqb_refl|].
    by rewrite andb_false_r. }
  assert (title (edited body video) = EmptyString) as Hempty.
  { unfold edited. rewrite Htitle, Hblank.
    by destruct (body_description body), (body_isPublic body). }
  unfold save, validationErrors. rewrite Hempty.
  cbn [String.eqb app].
  eexists. split; [|reflexivity]. by left.
Qed.

(** Publishing opens a record to the owner's organization: a colleague who
    was answered 403 by [getVideoById] is answered 200 once the owner has
    set [isPublic]. *)
Theorem publishing_opens_to_organization (owner mate : Auth.TokenPayload)
    (id : string) (w : World) (video : Video) (account : UserModel.User) :
  videos w !! id = Some video ->
  _id video = id ->
  isDeleted video = false ->
  isPublic video = false ->
  validationErrors video = [] ->
  filenameTaken (videos w) id (filename video) = false ->
  users w !! uploadedBy video = Some account ->
  uploadedBy video = Auth.userId owner ->
  Auth.userId mate <> Auth.userId owner ->
  Auth.role mate <> "admin" ->
  JS.truthy (organization video) = true ->
  organization video = Auth.organization mate ->
  let publish := {| body_title := None; body_description := None;
                    body_isPublic := Some true |} in
  fst (getVideoById mate id w) =
    Sent (errorResponse "You do not have permission to view this video"
            HttpStatus.FORBIDDEN) /\
  exists shown,
    fst (getVideoById mate id (snd (updateVideo owner id publish w))) =
      Sent (successResponse (Some (VideoPayload shown))
              "Video retrieved successfully" HttpStatus.OK) /\
    title shown = title video /\ isPublic shown = true.
Proof.
  intros Hfound Hid Hlive Hprivate Hvalid Hfree Haccount Howner Hmate Hrole
    Htruthy Horg. cbn zeta.
  assert (String.eqb (Auth.userId owner) (Auth.userId mate) = false) as Hother.
  { apply String.eqb_neq. congruence. }
  apply String.eqb_neq in Hrole.
  split.
  - unfold getVideoById. rewrite Hfound, Hlive, Haccount, Howner, Hother, Hrole,
      Hprivate. by rewrite andb_false_r.
  - unfold updateVideo. rewrite Hfound, Hlive, Howner, String.eqb_refl.
    cbn [negb andb edited body_title body_description body_isPublic].
    rewrite (save_valid (withIsPublic true video) w); [|exact Hvalid|].
    2:{ cbn [_id filename withIsPublic]. by rewrite Hid. }
    rewrite preSave_with_organization by exact Htruthy.
    cbn [snd _id withIsPublic]. rewrite Hid.
    unfold getVideoById. cbn [videos users setVideos].
    rewrite lookup_insert_eq.
    cbn [isDeleted uploadedBy organization isPublic withIsPublic].
    rewrite Hlive, Haccount, Howner, Hother, Hrole, Htruthy.
    assert (JS.strictEq (organization video) (Auth.organization mate) = true) as ->.
    { rewrite <- Horg. unfold JS.strictEq.
      destruct (organization video); [apply String.eqb_refl|done]. }
    cbn [negb andb]. eexists. split; [reflexivity|].
    unfold incrementViews.
    destruct (preSave_organization_only (users w)
                (withViewCount (viewCount (withIsPublic true video) + 1)
                   (withIsPublic true video))) as [o ->].
    by split.
Qed.

(** The verdict an administrator sets decides what the owner can stream.
    After a completed record is marked flagged its owner is answered 403
    whatever the file; after it is marked safe the owner's request reaches
    the file.  The answer reports the verdict that was replaced. *)
Theorem moderation_verdict_gates_streaming (id : string) (verdict : string)
    (w : World) (video : Video) (token : string) (decoded : Auth.TokenPayload)
    (range : option string) :
  videos w !! id = Some video ->
  _id video = id ->
  validationErrors video = [] ->
  filenameTaken (videos w) id (filename video) = false ->
  status video = COMPLETED ->
  JS.truthyStr token = true ->
  jwt_verify token = Some decoded ->
  uploadedBy video = Auth.userId decoded ->
  Auth.role decoded <> "admin" ->
  verdict = "safe" \/ verdict = "flagged" ->
  let w' := snd (toggleSensitivityStatus id (Some verdict) w) in
  let request := {| params_id := id; query_token := Some token;
                    headers_range := range |} in
  (exists r saved,
     fst (toggleSensitivityStatus id (Some verdict) w) = Answered r /\
     reply_code r = HttpStatus.OK /\
     reply_previous r = Some (sensitivityStatus video) /\
     videos w' !! id = Some saved /\
     sensitivityString (sensitivityStatus saved) = verdict /\
     (verdict = "safe" ->
        streamVideo jwt_verify request w' = serveBytes w' saved range)) /\
  (verdict = "flagged" ->
     streamVideo jwt_verify request w' =
       jsonError HttpStatus.FORBIDDEN
         "Content flagged as sensitive. Admin access required.").
Proof.
  intros Hfound Hid Hvalid Hfree Hdone Htoken Hverify Howner Hrole Hverdict.
  cbn zeta. apply String.eqb_neq in Hrole.
  assert (exists v, verdictOf (Some verdict) = Some v /\
                    sensitivityString v = verdict /\
                    (verdict = "safe" -> v = SAFE) /\
                    (verdict = "flagged" -> v = FLAGGED)) as (v & Hv & Hname & Hs & Hf).
  { destruct Hverdict as [->| ->]; eexists; (split; [reflexivity|]);
      (split; [reflexivity|]); split; (reflexivity || discriminate). }
  unfold toggleSensitivityStatus. rewrite Hv, Hfound.
  set (update := {| set_status := None; set_processingProgress := None;
                    set_processingError := None;
                    set_sensitivityStatus := Some v;
                    set_duration := None; set_thumbnailPath := None |}).
  destruct (save_edit (applyUpdate update video) w) as [o Hsave].
  { exact Hvalid. }
  { cbn [_id filename applyUpdate]. by rewrite Hid. }
  rewrite Hsave. cbn [fst snd _id applyUpdate]. rewrite Hid.
  set (saved := withOrganization o (applyUpdate update video)).
  assert (videos (setVideos (<[id := saved]> (videos w)) w) !! id = Some saved)
    as Hstored by (cbn [videos setVideos]; apply lookup_insert_eq).
  pose proof (streamVideo_gate jwt_verify
                {| params_id := id; query_token := Some token;
                   headers_range := range |}
                (setVideos (<[id := saved]> (videos w)) w) decoded saved
                Htoken Hverify Hstored) as Hgate.
  rewrite (ownershipDenied_owner decoded saved Howner) in Hgate.
  cbn [status sensitivityStatus saved withOrganization applyUpdate update
       set_status set_sensitivityStatus default headers_range] in Hgate.
  rewrite Hdone, Hrole in Hgate. cbn [VideoStatus_eqb negb andb] in Hgate.
  split.
  - exists {| reply_code := HttpStatus.OK; reply_success := true;
              reply_message := "Video marked as " +:+ sensitivityString v;
              reply_video := Some saved;
              reply_previous := Some (sensitivityStatus video) |}, saved.
    split; [reflexivity|]. split; [reflexivity|]. split; [reflexivity|].
    split; [exact Hstored|]. split; [exact Hname|].
    intros Hsafe. rewrite Hgate, (Hs Hsafe). reflexivity.
  - intros Hflag. rewrite Hgate, (Hf Hflag). reflexivity.
Qed.

(** Only administrators moderate: on the moderation route a caller of any
    other role is answered 403 by the role guard, and the store is left as
    it was, whatever record and verdict the request names. *)
Theorem only_administrators_moderate (user : Auth.TokenPayload) (id : string)
    (status : option string) (w : World) :
  Auth.role user <> "admin" ->
  exists r,
    sensitivityRoute user id status w = (Answered r, w) /\
    reply_code r = HttpStatus.FORBIDDEN /\ reply_success r = false.
Proof.
  intros Hrole. apply String.eqb_neq in Hrole.
  unfold sensitivityRoute, AuthMiddleware.restrictTo, inList.
  cbn [existsb]. rewrite Hrole. cbn [orb negb].
  eexists. split; [reflexivity|]. by split.
Qed.

End Management.

(** ** The status channel of the client: queue, histories, round trip *)

Section ChannelHistories.

Import SocketService SocketTraces.

Local Abbreviation flush :=
  (fold_left (fun acc sub => addListener (fst sub) (snd sub) acc)).

Lemma flush_preserves (P : State -> Prop) :
  (forall name callback st, P st -> P (addListener name callback st)) ->
  forall pending st, P st -> P (flush pending st).
Proof.
  intros Hstep pending. induction pending as [|sub pending IH]; intros st HP;
    [exact HP|].
  cbn [fold_left]. apply IH, Hstep, HP.
Qed.

Lemma addListener_fresh name callback st :
  handlersFresh st -> handlersFresh (addListener name callback st).
Proof.
  unfold handlersFresh, addListener. intros Hfresh.
  destruct (socket st) as [s|] eqn:Hs; [|by rewrite Hs].
  intros s' [= <-]. cbn [registered socket_on nextHandler].
  apply Forall_app. split.
  - eapply Forall_impl; [by apply Hfresh|]. cbn. lia.
  - apply Forall_cons. split; [cbn; lia|apply Forall_nil_2].
Qed.

Lemma addListener_flags name callback st :
  isSocketConnected (addListener name callback st) = isSocketConnected st /\
  isConnected (addListener name callback st) = isConnected st /\
  pendingSubscriptions (addListener name callback st) = pendingSubscriptions st.
Proof.
  unfold addListener, isSocketConnected.
  destruct (socket st) as [s|] eqn:Hs; [done|by rewrite Hs].
Qed.

Lemma delivered_addListener name n callback st s :
  socket st = Some s ->
  delivered name (addListener n callback st) =
    delivered name st ++ (if String.eqb n name then [callback] else []).
Proof.
  intros Hs. unfold delivered, addListener. rewrite Hs.
  cbn [socket registered socket_on]. rewrite List.filter_app, List.map_app.
  cbn [List.filter fst]. by destruct (String.eqb n name).
Qed.

Lemma flush_delivered name pending : forall st s,
  socket st = Some s ->
  delivered name (flush pending st) =
    delivered name st ++
    map snd (List.filter (fun sub => String.eqb (fst sub) name) pending).
Proof.
  induction pending as [|[n callback] pending IH]; intros st s Hs.
  - cbn. by rewrite app_nil_r.
  - cbn [fold_left fst snd List.filter].
    assert (exists s', socket (addListener n callback st) = Some s') as [s' Hs'].
    { unfold addListener. rewrite Hs. by eexists. }
    rewrite (IH _ _ Hs'), (delivered_addListener _ _ _ _ _ Hs).
    rewrite <- app_assoc. by destruct (String.eqb n name).
Qed.

Lemma removeRegistration_Forall (P : string * Handler -> Prop) name h l :
  Forall P l -> Forall P (removeRegistration name h l).
Proof.
  induction 1 as [|[n h'] l Hx Hl IH]; [apply Forall_nil_2|].
  cbn [removeRegistration]. destruct (_ && _); [exact Hl|].
  apply Forall_cons. by split.
Qed.

Lemma removeRegistration_last name h l :
  Forall (fun r => (handler_id (snd r) < handler_id h)%nat) l ->
  removeRegistration name h (l ++ [(name, h)]) = l.
Proof.
  induction 1 as [|[n h'] l Hx Hl IH]; cbn [removeRegistration app].
  - unfold Handler_eqb. by rewrite String.eqb_refl, Nat.eqb_refl.
  - cbn [snd] in Hx. unfold Handler_eqb at 1.
    assert (Nat.eqb (handler_id h') (handler_id h) = false) as ->
      by (apply Nat.eqb_neq; lia).
    rewrite andb_false_r. by rewrite IH.
Qed.

(** When the transport reports the connection, every queued subscription is
    registered: the queue is left empty, and an event of any name reaches
    the callbacks registered before and then the queued callbacks for that
    name, in the order they were queued. *)
Theorem connect_flushes_queue (st : State) (s : Socket) (name : string) :
  socket st = Some s ->
  pendingSubscriptions (onConnect st) = [] /\
  delivered name (onConnect st) =
    delivered name st ++
    map snd (List.filter (fun sub => String.eqb (fst sub) name)
               (pendingSubscriptions st)).
Proof.
  intros Hs. unfold onConnect, processPendingSubscriptions. rewrite Hs.
  cbn [socket isConnected listeners pendingSubscriptions nextHandler]. split.
  - apply (flush_preserves (fun x => pendingSubscriptions x = [])); [|reflexivity].
    intros n c x Hx. by rewrite (proj2 (proj2 (addListener_flags n c x))).
  - erewrite flush_delivered by reflexivity.
    unfold delivered. by rewrite Hs.
Qed.

Local Abbreviation invariant st :=
  (handlersFresh st /\
   (isSocketConnected st = true -> pendingSubscriptions st = [])).

Lemma fresh_same st st' :
  socket st' = socket st -> nextHandler st' = nextHandler st ->
  handlersFresh st -> handlersFresh st'.
Proof.
  unfold handlersFresh. intros Hs Hn Hfresh s Hsocket.
  rewrite Hn. apply Hfresh. by rewrite <- Hs.
Qed.

Lemma flush_invariant pending st :
  handlersFresh st -> pendingSubscriptions st = [] ->
  invariant (flush pending st).
Proof.
  intros Hfresh Hqueue.
  assert (handlersFresh (flush pending st) /\
          pendingSubscriptions (flush pending st) = []) as [H1 H2].
  { apply (flush_preserves
             (fun x => handlersFresh x /\ pendingSubscriptions x = [])); [|done].
    intros n c x [F1 F2].
    destruct (addListener_flags n c x) as (_ & _ & G3).
    split; [by apply addListener_fresh|]. by rewrite G3. }
  by split.
Qed.

Lemma processPending_invariant st :
  handlersFresh st -> invariant (processPendingSubscriptions st).
Proof.
  intros Hfresh. unfold processPendingSubscriptions.
  apply flush_invariant; [|reflexivity].
  by apply (fresh_same st).
Qed.

Lemma step_invariant a st : invariant st -> invariant (step a st).
Proof.
  intros [Hfresh Hqueue]. destruct a; cbn [step].
  - unfold connect. fold (isSocketConnected st).
    destruct (isSocketConnected st) eqn:Hc; [by rewrite Hc|].
    destruct (negb _); [by rewrite Hc|].
    split; [|discriminate].
    intros s [= <-]. apply Forall_nil_2.
  - unfold onConnect. destruct (socket st) as [s|] eqn:Hs; [|by split].
    apply processPending_invariant.
    intros s' [= <-]. cbn [registered nextHandler]. by apply Hfresh.
  - unfold onDisconnect. destruct (socket st) as [s|] eqn:Hs; [|by split].
    split; [|discriminate].
    intros s' [= <-]. cbn [registered nextHandler]. by apply Hfresh.
  - unfold onReconnect. destruct (socket st) as [s|] eqn:Hs; [|by split].
    by apply processPending_invariant.
  - unfold onStaleConnect. apply processPending_invariant.
    by apply (fresh_same st).
  - unfold onStaleDisconnect. split; [by apply (fresh_same st)|exact Hqueue].
  - unfold onStaleReconnect. by apply processPending_invariant.
  - unfold disconnect. destruct (socket st) as [s|] eqn:Hs; [|by split].
    split; [intros s'|]; discriminate.
  - unfold subscribeToVideoUpdates.
    destruct (socket st) as [s|] eqn:Hs; [destruct (connected s) eqn:Hc|].
    + destruct (addListener_flags eventName callback st) as (G1 & _ & G3).
      split; [by apply addListener_fresh|]. by rewrite G1, G3.
    + split; [by apply (fresh_same st)|].
      unfold isSocketConnected. cbn [socket]. rewrite ?Hs, ?Hc. discriminate.
    + split; [by apply (fresh_same st)|].
      unfold isSocketConnected. cbn [socket]. rewrite ?Hs. discriminate.
  - assert (pendingSubscriptions (unsubscribe callback st) =
            purgePending callback (pendingSubscriptions st)) as Hpending.
    { unfold unsubscribe.
      by destruct (socket st), (listeners st !! eventName). }
    assert (isSocketConnected (unsubscribe callback st) = isSocketConnected st)
      as Hsame.
    { unfold unsubscribe, isSocketConnected.
      by destruct (socket st), (listeners st !! eventName). }
    split.
    + unfold unsubscribe.
      destruct (socket st) as [s|] eqn:Hs;
        [destruct (listeners st !! eventName) as [h|]|].
      * intros s' [= <-]. cbn [registered socket_off nextHandler].
        apply removeRegistration_Forall. by apply Hfresh.
      * apply (fresh_same st); [by rewrite Hs|reflexivity|exact Hfresh].
      * apply (fresh_same st); [by rewrite Hs|reflexivity|exact Hfresh].
    + rewrite Hsame, Hpending. intros Hc. by rewrite (Hqueue Hc).
  - unfold unsubscribeFromVideoUpdates.
    destruct (socket st) as [s|] eqn:Hs;
      [destruct (listeners st !! "videoStatusUpdate") as [h|]|];
      try (by split).
    split.
    + intros s' [= <-]. cbn [registered socket_off nextHandler].
      apply removeRegistration_Forall. by apply Hfresh.
    + unfold isSocketConnected.
      cbn [socket connected socket_off pendingSubscriptions]. intros Hc.
      apply Hqueue. unfold isSocketConnected. by rewrite Hs.
Qed.

Lemma run_snoc actions a : run (actions ++ [a]) = step a (run actions).
Proof. unfold run. by rewrite fold_left_app. Qed.

Lemma run_invariant actions : invariant (run actions).
Proof.
  induction actions as [|a actions IH] using rev_ind.
  - split; [intros s|]; discriminate.
  - rewrite run_snoc. by apply step_invariant.
Qed.

(** After any history of method calls, calls of unsubscribe functions and
    transport events, those of replaced sockets included, no subscription
    waits in the queue while the socket is connected, and every handler on
    the socket carries a name the counter has passed, so that the next
    closure is a new function value. *)
Theorem service_stays_consistent (actions : list Action) :
  let st := run actions in
  (isSocketConnected st = true -> pendingSubscriptions st = []) /\
  handlersFresh st.
Proof.
  cbn zeta. destruct (run_invariant actions) as [H1 H2]. by split.
Qed.

(** Subscribing and then calling the returned function is a round trip
    when no listener was held before: after any history that leaves the
    listener map without an entry for the event, the pair puts the socket
    and the map back as they were, events reach the same callbacks as
    before, and the queue only loses entries of that callback. *)
Theorem subscribe_unsubscribe_round_trip (actions : list Action)
    (callback : Callback) :
  let st := run actions in
  let back := unsubscribe callback (subscribeToVideoUpdates callback st) in
  listeners st !! eventName = None ->
  socket back = socket st /\
  listeners back = listeners st /\
  isConnected back = isConnected st /\
  pendingSubscriptions back = purgePending callback (pendingSubscriptions st) /\
  (forall name, delivered name back = delivered name st).
Proof.
  cbn zeta. intros Hnone.
  destruct (run_invariant actions) as [Hfresh Hqueue].
  set (st := run actions) in *.
  assert (socket (unsubscribe callback (subscribeToVideoUpdates callback st)) =
            socket st /\
          listeners (unsubscribe callback (subscribeToVideoUpdates callback st)) =
            listeners st /\
          isConnected (unsubscribe callback (subscribeToVideoUpdates callback st)) =
            isConnected st /\
          pendingSubscriptions
            (unsubscribe callback (subscribeToVideoUpdates callback st)) =
            purgePending callback (pendingSubscriptions st)) as (H1 & H2 & H3 & H4).
  { unfold subscribeToVideoUpdates.
    destruct (socket st) as [s|] eqn:Hs; [destruct (connected s) eqn:Hc|].
    - unfold addListener, unsubscribe. rewrite Hs.
      cbn [socket listeners isConnected pendingSubscriptions nextHandler].
      rewrite lookup_insert_eq.
      split; [|split; [by apply delete_insert_id|by split]].
      unfold socket_off, socket_on. cbn [connected registered].
      rewrite removeRegistration_last by (by apply Hfresh).
      by destruct s.
    - unfold unsubscribe. cbn [socket listeners]. rewrite ?Hs, Hnone.
      cbn [socket listeners isConnected pendingSubscriptions].
      repeat split; try done.
      unfold purgePending. rewrite List.filter_app. cbn [List.filter fst snd].
      rewrite String.eqb_refl, Nat.eqb_refl. cbn. by rewrite app_nil_r.
    - unfold unsubscribe. cbn [socket listeners]. rewrite ?Hs.
      cbn [socket listeners isConnected pendingSubscriptions].
      repeat split; try done.
      unfold purgePending. rewrite List.filter_app. cbn [List.filter fst snd].
      rewrite String.eqb_refl, Nat.eqb_refl. cbn. by rewrite app_nil_r. }
  repeat split; try done.
  intros name. unfold delivered. by rewrite H1.
Qed.

End ChannelHistories.

(** ** The file filter and the schema *)

Section FilterAndSchema.

Import VideoModel ApiResponse VideoProcessor VideoController.

Variable MAX_FILE_SIZE : option string.
Variable formatFileSize : Z -> string.

Lemma unsupported_format v :
  mimeType v = "video/avi" \/ mimeType v = "video/mkv" ->
  In ("mimeType", "Unsupported video format") (validationErrors v).
Proof.
  intros Hmime. unfold validationErrors. rewrite !in_app_iff.
  do 8 right. left. destruct Hmime as [-> | ->]; by left.
Qed.

(** The file filter admits two types the schema does not know.  An upload
    declared as [video/avi] or [video/mkv], with an allowed extension, a
    size below the limit and a title, passes the filter and is written to
    disk, but the record is refused by the schema: the error goes to the
    error handler, no record is created, nothing is scheduled, and the file
    is removed again. *)
Theorem filter_admits_types_the_schema_refuses (storedName storedPath newId : string)
    (f : FileUpload.IncomingFile) (bodyTitle bodyDescription : option string)
    (user : Auth.TokenPayload) (w : World) :
  FileUpload.in_mimetype f = "video/avi" \/ FileUpload.in_mimetype f = "video/mkv" ->
  inList (JS.toLowerCase (FileUpload.extname (FileUpload.in_originalname f)))
    FileUpload.ALLOWED_EXTENSIONS = true ->
  Z.of_nat (length (FileUpload.in_content f)) < FileUpload.getMaxFileSize MAX_FILE_SIZE ->
  FileUpload.getMaxFileSize MAX_FILE_SIZE <= JS.MAX_SAFE_INTEGER ->
  JS.truthy bodyTitle = true ->
  JS.trim (default EmptyString bodyTitle) <> EmptyString ->
  storedPath <> EmptyString ->
  let answer :=
    uploadRoute MAX_FILE_SIZE formatFileSize storedName storedPath newId (Some f)
      bodyTitle bodyDescription user w in
  FileUpload.videoFileFilter f = None /\
  (exists errors,
     In ("mimeType", "Unsupported video format") errors /\
     fst answer = {| outcome := Next (validationMessage errors); scheduled := None |}) /\
  videos (snd answer) = videos w /\
  files (snd answer) !! storedPath = None.
Proof.
  intros Hmime Hext Hsize Hsafe Htitle Hblank Hpath. cbn zeta.
  assert (FileUpload.videoFileFilter f = None) as Hfilter.
  { unfold FileUpload.videoFileFilter. rewrite Hext.
    by destruct Hmime as [-> | ->]. }
  split; [exact Hfilter|].
  unfold uploadRoute. rewrite Hfilter.
  assert ((FileUpload.getMaxFileSize MAX_FILE_SIZE
             <=? Z.of_nat (length (FileUpload.in_content f))) = false) as ->
    by (apply Z.leb_gt; lia).
  unfold uploadVideo. cbn [req_file req_title]. rewrite Htitle.
  assert (JS.truthyStr (JS.trim (default EmptyString bodyTitle)) = true) as ->.
  { unfold JS.truthyStr. apply negb_true_iff. by apply String.eqb_neq. }
  cbn [negb orb]. unfold create, save.
  match goal with
  | |- context [validationErrors ?d] =>
      pose proof (unsupported_format d) as Hformat;
      destruct (validationErrors d) as [|e errors]
  end.
  { exfalso. apply Hformat. exact Hmime. }
  cbn [FileUpload.path storedFile].
  assert (JS.truthyStr storedPath = true) as ->.
  { unfold JS.truthyStr. apply negb_true_iff. by apply String.eqb_neq. }
  cbn [fst snd videos files setFiles]. split; [|split].
  - exists (e :: errors). split; [by apply Hformat|reflexivity].
  - reflexivity.
  - unfold FileUpload.deleteFile. apply lookup_delete_eq.
Qed.

End FilterAndSchema.

(** ** More instances on the concrete deployment *)

Section MoreInstances.

Import VideoModel ApiResponse VideoProcessor VideoController.

(** [range_end_not_clamped] on the public clip: bytes 900 to 1999 of a file
    of 1000 announce 1100 bytes and carry 100. *)
Lemma range_end_not_clamped_witness :
  let r := streamVideo Scenario.jwt_verify
             (Scenario.request "v-public" "token-alice" (Some "bytes=900-1999"))
             Scenario.world in
  header "Content-Length" r = Some "1100" /\
  body r = Piped (drop 900 Scenario.bytes1000).
Proof.
  cbn zeta.
  destruct (range_end_not_clamped Scenario.jwt_verify "v-public"
              (Some "token-alice") Scenario.world Scenario.alice
              (Scenario.clip "v-public" "holiday" true COMPLETED SAFE false)
              Scenario.bytes1000) with (a := "900") (b := "1999")
    as (_ & _ & Hlength & Hbody & _).
  - reflexivity.
  - reflexivity.
  - vm_compute. reflexivity.
  - vm_compute. reflexivity.
  - reflexivity.
  - left. discriminate.
  - discriminate.
  - vm_compute. reflexivity.
  - reflexivity.
  - discriminate.
  - reflexivity.
  - discriminate.
  - vm_compute. split; [reflexivity|discriminate].
  - vm_compute. discriminate.
  - split; [exact Hlength|exact Hbody].
Defined.

(** [unsatisfiable_range_gets_no_answer] on the public clip: bytes 5 to 3,
    and from offset 1000 of a file of 1000. *)
Lemma unsatisfiable_range_witness :
  body (streamVideo Scenario.jwt_verify
          (Scenario.request "v-public" "token-alice" (Some "bytes=5-3"))
          Scenario.world) = Unwritten.
Proof.
  destruct (unsatisfiable_range_gets_no_answer Scenario.jwt_verify "v-public"
              (Some "token-alice") Scenario.world Scenario.alice
              (Scenario.clip "v-public" "holiday" true COMPLETED SAFE false)
              Scenario.bytes1000) with (a := "5") as [Hreversed _].
  - reflexivity.
  - reflexivity.
  - vm_compute. reflexivity.
  - vm_compute. reflexivity.
  - reflexivity.
  - left. discriminate.
  - discriminate.
  - vm_compute. reflexivity.
  - reflexivity.
  - discriminate.
  - apply (Hreversed "3"); [reflexivity|discriminate|vm_compute; reflexivity].
Defined.

(** [unauthenticated_stream_learns_nothing] for a forged token, on the
    deployment and on an empty one. *)
Lemma unauthenticated_stream_witness :
  statusCode (streamVideo Scenario.jwt_verify
                (Scenario.request "v-private" "forged" None) Scenario.world) = 401.
Proof.
  refine (proj1 (unauthenticated_stream_learns_nothing Scenario.jwt_verify
                   (Scenario.request "v-private" "forged" None) Scenario.world
                   Scenario.world _)).
  right. vm_compute. reflexivity.
Defined.

(** [views_counted_for_non_owners]: Carol reads Alice's public clip. *)
Lemma views_counted_witness :
  exists seen,
    videos (snd (getVideoById Scenario.carol "v-public" Scenario.world)) !! "v-public"
      = Some seen /\
    viewCount seen = 1.
Proof.
  destruct (views_counted_for_non_owners Scenario.carol "v-public" Scenario.world
              (Scenario.clip "v-public" "holiday" true COMPLETED SAFE false)
              {| UserModel.username := "alice"; UserModel.email := "alice@acme.test";
                 UserModel.role := "editor"; UserModel.organization := Some "acme" |})
    as [_ Hother].
  - vm_compute. reflexivity.
  - reflexivity.
  - vm_compute. reflexivity.
  - destruct Hother as (seen & _ & Hstored & Hcount & _).
    + discriminate.
    + right. repeat split.
    + exists seen. split; [exact Hstored|exact Hcount].
Defined.

(** [listed_videos_are_readable]: the public clip is in Carol's listing. *)
Lemma listed_videos_witness :
  exists shown,
    fst (getVideoById Scenario.carol "v-public" Scenario.world) =
      Sent (successResponse (Some (VideoPayload shown))
              "Video retrieved successfully" HttpStatus.OK).
Proof.
  refine (listed_videos_are_readable Scenario.carol None "v-public" Scenario.world
            (Scenario.clip "v-public" "holiday" true COMPLETED SAFE false)
            {| UserModel.username := "alice"; UserModel.email := "alice@acme.test";
               UserModel.role := "editor"; UserModel.organization := Some "acme" |}
            _ _ _); vm_compute; reflexivity.
Defined.


Lemma run_publishes_in_order_witness :
  exists events,
    emitted (snd (processVideoInBackground (Scenario.run true Scenario.toolWorking)
                    "v-new" "uploads/videos/v-new.mp4" Scenario.world)) = events /\
    length events = 4%nat.
Proof.
  destruct (run_publishes_in_order (Scenario.run true Scenario.toolWorking)
              "v-new" "uploads/videos/v-new.mp4" Scenario.world
              (Scenario.clip "v-new" "explicit content test" false PROCESSING
                 PENDING false)) as (events & Hevents & _ & _).
  - vm_compute. reflexivity.
  - reflexivity.
  - discriminate.
  - eexists. split; [reflexivity|]. vm_compute. reflexivity.
Defined.

(** [keyword_always_flags]: a title that shouts a keyword. *)
Lemma keyword_always_flags_witness :
  analyzeSensitivity
    {| meta_title := Some "An EXPLICIT scene"; meta_description := None |} false
    = FLAGGED.
Proof.
  refine (proj1 (keyword_always_flags "explicit" "EXPLICIT" "An " " scene" None
                   false _ _)).
  - right. left. reflexivity.
  - reflexivity.
Defined.

(** [updateProgress_stays_in_bounds] and
    [updateProgress_completes_processing_only]: a progress of 150 reported
    for the clip in processing. *)
Lemma updateProgress_stays_in_bounds_witness :
  exists saved w',
    VideoMethods.updateProgress 150 None
      (Scenario.clip "v-processing" "holiday" false PROCESSING PENDING false)
      Scenario.world = (Ok saved, w') /\
    processingProgress saved = 100.
Proof.
  destruct (updateProgress_stays_in_bounds 150 None
              (Scenario.clip "v-processing" "holiday" false PROCESSING PENDING false)
              Scenario.world) as (saved & w' & Hsave & _ & Hprogress & _).
  - reflexivity.
  - vm_compute. reflexivity.
  - exists saved, w'. split; [exact Hsave|exact Hprogress].
Defined.

Lemma updateProgress_completes_witness :
  exists saved w',
    VideoMethods.updateProgress 150 None
      (Scenario.clip "v-processing" "holiday" false PROCESSING PENDING false)
      Scenario.world = (Ok saved, w') /\
    status saved = COMPLETED.
Proof.
  destruct (updateProgress_completes_processing_only 150
              (Scenario.clip "v-processing" "holiday" false PROCESSING PENDING false)
              Scenario.world) as (saved & w' & Hsave & Hdone & _).
  - reflexivity.
  - vm_compute. reflexivity.
  - exists saved, w'. split; [exact Hsave|].
    apply Hdone; [reflexivity|lia].
Defined.

(** [duration_formatters_agree] at 1 h 2 min 5 s. *)
Lemma duration_formatters_agree_witness :
  VideoMethods.durationFormatted Examples.timed = Some "1:02:05" /\
  VideoMethods.formatDuration (Some 3725) = "1:02:05".
Proof.
  destruct (duration_formatters_agree 3725 Examples.timed)
    as (_ & _ & _ & _ & _ & Hvirtual & Hcontroller).
  - vm_compute. split; [reflexivity|discriminate].
  - reflexivity.
  - split; [rewrite Hvirtual; f_equal|]; rewrite Hcontroller; reflexivity.
Defined.

(** [refused_upload_leaves_nothing]: Alice's upload with a blank title. *)
Lemma refused_upload_witness :
  videos (snd (Examples.untitledUpload Scenario.world)) = videos Scenario.world /\
  files (snd (Examples.untitledUpload Scenario.world))
    !! "uploads/videos/3f2a_1700000000000.mp4" = None.
Proof.
  destruct (refused_upload_leaves_nothing None (fun _ => "500 MB")
              "3f2a_1700000000000.mp4" "uploads/videos/3f2a_1700000000000.mp4"
              "v-demo" (Some Scenario.incoming) (Some "   ") None Scenario.alice
              Scenario.world (fst (Examples.untitledUpload Scenario.world))
              (snd (Examples.untitledUpload Scenario.world)))
    as (Hvideos & _ & Hfile & _).
  - vm_compute. split; [reflexivity|discriminate].
  - unfold Examples.untitledUpload. by destruct (uploadRoute _ _ _ _ _ _ _ _ _ _).
  - vm_compute. reflexivity.
  - discriminate.
  - vm_compute. reflexivity.
  - split; [exact Hvideos|exact Hfile].
Defined.

(** [uploaded_bytes_stream_back]: Alice's upload, processed without the
    prober, streamed back to her. *)
Lemma uploaded_bytes_stream_back_witness :
  streamVideo Scenario.jwt_verify
    {| params_id := "v-demo"; query_token := Some "token-alice";
       headers_range := None |}
    (snd (processVideoInBackground (Scenario.run false Scenario.toolWorking)
            "v-demo" "uploads/videos/3f2a_1700000000000.mp4"
            (snd (Scenario.upload Scenario.world)))) =
    {| statusCode := 200;
       headers := [("Content-Length", "1000"); ("Content-Type", "video/mp4")];
       body := Piped Scenario.bytes1000 |}.
Proof.
  destruct (uploaded_bytes_stream_back None (fun _ => "500 MB") Scenario.jwt_verify
              "3f2a_1700000000000.mp4" "uploads/videos/3f2a_1700000000000.mp4"
              "v-demo" Scenario.incoming (Some "demo") None Scenario.alice
              Scenario.world (Scenario.run false Scenario.toolWorking) "token-alice")
    as (ended & _ & Hanswer & Hdegraded).
  - vm_compute. reflexivity.
  - vm_compute. reflexivity.
  - reflexivity.
  - vm_compute. discriminate.
  - vm_compute. reflexivity.
  - vm_compute. discriminate.
  - vm_compute. reflexivity.
  - discriminate.
  - discriminate.
  - reflexivity.
  - destruct (Hdegraded eq_refl) as [Hdone Hpending].
    unfold Scenario.upload. rewrite Hanswer; [reflexivity|exact Hdone|].
    rewrite Hpending. discriminate.
Defined.

(** [filter_admits_types_the_schema_refuses]: an upload declared as
    [video/avi]. *)
Lemma filter_admits_witness :
  FileUpload.videoFileFilter Examples.aviUpload = None /\
  files (snd (uploadRoute None (fun _ => "500 MB") "9c1d_1700000000001.avi"
                "uploads/videos/9c1d_1700000000001.avi" "v-avi"
                (Some Examples.aviUpload) (Some "clip") None Scenario.alice
                Scenario.world))
    !! "uploads/videos/9c1d_1700000000001.avi" = None.
Proof.
  destruct (filter_admits_types_the_schema_refuses None (fun _ => "500 MB")
              "9c1d_1700000000001.avi" "uploads/videos/9c1d_1700000000001.avi"
              "v-avi" Examples.aviUpload (Some "clip") None Scenario.alice
              Scenario.world) as (Hfilter & _ & _ & Hfile).
  - left. reflexivity.
  - vm_compute. reflexivity.
  - vm_compute. reflexivity.
  - vm_compute. discriminate.
  - reflexivity.
  - vm_compute. discriminate.
  - discriminate.
  - split; [exact Hfilter|exact Hfile].
Defined.

(** [pagination_counts_pages]: page 2 of 45 items, 20 to a page. *)
Lemma pagination_counts_pages_witness :
  Pagination.totalPages
    (Pagination.pagination (Pagination.Fin 2) (Pagination.Fin 20) 45)
    = Pagination.Fin 3 /\
  Pagination.hasNextPage
    (Pagination.pagination (Pagination.Fin 2) (Pagination.Fin 20) 45) = true.
Proof.
  destruct (pagination_counts_pages 2 20 45) as (n & Hpages & _ & _ & Hnext & _).
  - vm_compute. split; [reflexivity|discriminate].
  - vm_compute. split; discriminate.
  - vm_compute. split; discriminate.
  - split; [reflexivity|]. apply Hnext. lia.
Defined.

(** [stats_add_up] for Alice on the deployment. *)
Lemma stats_add_up_witness :
  VideoManagement.totalVideos (VideoManagement.getVideoStats Scenario.alice Scenario.world)
    = 5.
Proof.
  destruct (stats_add_up Scenario.alice Scenario.world) as (Hcount & _ & _).
  - apply (bool_decide_unpack _). vm_compute. exact I.
  - vm_compute. discriminate.
  - rewrite Hcount. vm_compute. reflexivity.
Defined.

(** [soft_delete_hides_record_keeps_file]: Alice deletes her public clip;
    Carol reads. *)
Lemma soft_delete_witness :
  files (snd (VideoManagement.deleteVideo Scenario.alice "v-public" Scenario.world))
    = files Scenario.world /\
  fst (getVideoById Scenario.carol "v-public"
         (snd (VideoManagement.deleteVideo Scenario.alice "v-public" Scenario.world)))
    = Sent (errorResponse "Video not found" HttpStatus.NOT_FOUND).
Proof.
  destruct (soft_delete_hides_record_keeps_file Scenario.alice Scenario.carol
              "v-public" Scenario.world
              (Scenario.clip "v-public" "holiday" true COMPLETED SAFE false))
    as (_ & _ & Hfiles & Hread & _).
  - apply (bool_decide_unpack _). vm_compute. exact I.
  - vm_compute. reflexivity.
  - reflexivity.
  - vm_compute. reflexivity.
  - left. reflexivity.
  - split; [exact Hfiles|]. by rewrite Hread.
Defined.

(** [update_changes_metadata_only]: Alice retitles her public clip. *)
Lemma update_changes_metadata_only_witness :
  exists video',
    videos (snd (VideoManagement.updateVideo Scenario.alice "v-public"
                   {| VideoManagement.body_title := Some "  Trip  ";
                      VideoManagement.body_description := None;
                      VideoManagement.body_isPublic := None |} Scenario.world))
      !! "v-public" = Some video' /\
    status video' = COMPLETED /\ filepath video' = "uploads/videos/v-public.mp4".
Proof.
  destruct (update_changes_metadata_only Scenario.alice "v-public"
              {| VideoManagement.body_title := Some "  Trip  ";
                 VideoManagement.body_description := None;
                 VideoManagement.body_isPublic := None |} Scenario.world
              (Scenario.clip "v-public" "holiday" true COMPLETED SAFE false))
    as (_ & _ & _ & video' & Hstored & Hstatus & _ & _ & _ & _ & Hpath & _).
  - vm_compute. reflexivity.
  - reflexivity.
  - exists video'. split; [exact Hstored|]. split; [exact Hstatus|exact Hpath].
Defined.

(** [blank_title_is_rejected]: Alice sets a title of three spaces. *)
Lemma blank_title_witness :
  exists message,
    VideoManagement.updateVideo Scenario.alice "v-public"
      {| VideoManagement.body_title := Some "   ";
         VideoManagement.body_description := None;
         VideoManagement.body_isPublic := None |} Scenario.world =
      (VideoManagement.PassedOn message, Scenario.world).
Proof.
  destruct (blank_title_is_rejected Scenario.alice "v-public"
              {| VideoManagement.body_title := Some "   ";
                 VideoManagement.body_description := None;
                 VideoManagement.body_isPublic := None |} Scenario.world
              (Scenario.clip "v-public" "holiday" true COMPLETED SAFE false) "   ")
    as (errors & _ & Hanswer).
  - vm_compute. reflexivity.
  - reflexivity.
  - left. reflexivity.
  - reflexivity.
  - reflexivity.
  - eexists. exact Hanswer.
Defined.

(** [publishing_opens_to_organization]: Alice publishes her private clip;
    Carol, of the same organization, reads it. *)
Lemma publishing_witness :
  fst (getVideoById Scenario.carol "v-private" Scenario.world) =
    Sent (errorResponse "You do not have permission to view this video"
            HttpStatus.FORBIDDEN) /\
  exists shown,
    fst (getVideoById Scenario.carol "v-private"
           (snd (VideoManagement.updateVideo Scenario.alice "v-private"
                   {| VideoManagement.body_title := None;
                      VideoManagement.body_description := None;
                      VideoManagement.body_isPublic := Some true |} Scenario.world))) =
      Sent (successResponse (Some (VideoPayload shown))
              "Video retrieved successfully" HttpStatus.OK).
Proof.
  destruct (publishing_opens_to_organization Scenario.alice Scenario.carol
              "v-private" Scenario.world
              (Scenario.clip "v-private" "holiday" false COMPLETED SAFE false)
              {| UserModel.username := "alice";
                 UserModel.email := "alice@acme.test";
                 UserModel.role := "editor";
                 UserModel.organization := Some "acme" |})
    as [Hbefore (shown & Hafter & _)].
  13: { split; [exact Hbefore|]. exists shown. exact Hafter. }
  all: try reflexivity; try discriminate; vm_compute; reflexivity.
Defined.

(** [moderation_verdict_gates_streaming]: the public clip is marked
    flagged; its owner asks for the bytes. *)
Lemma moderation_witness :
  streamVideo Scenario.jwt_verify
    {| params_id := "v-public"; query_token := Some "token-alice";
       headers_range := None |}
    (snd (VideoManagement.toggleSensitivityStatus "v-public" (Some "flagged")
            Scenario.world)) =
    jsonError HttpStatus.FORBIDDEN
      "Content flagged as sensitive. Admin access required.".
Proof.
  refine (proj2 (moderation_verdict_gates_streaming Scenario.jwt_verify "v-public"
                   "flagged" Scenario.world
                   (Scenario.clip "v-public" "holiday" true COMPLETED SAFE false)
                   "token-alice" Scenario.alice None _ _ _ _ _ _ _ _ _ _) eq_refl);
    try reflexivity; try discriminate; try (right; reflexivity);
    vm_compute; reflexivity.
Defined.

(** [only_administrators_moderate]: Alice, an editor, on the moderation
    route. *)
Lemma only_administrators_witness :
  snd (VideoManagement.sensitivityRoute Scenario.alice "v-public" (Some "safe")
         Scenario.world) = Scenario.world.
Proof.
  destruct (only_administrators_moderate Scenario.alice "v-public" (Some "safe")
              Scenario.world) as (r & Hanswer & _).
  - discriminate.
  - by rewrite Hanswer.
Defined.

End MoreInstances.

Section ChannelInstances.

Import SocketService SocketTraces.

(** [connect_flushes_queue]: the two callbacks queued while connecting are
    served once the transport reports the connection. *)
Lemma connect_flushes_queue_witness :
  delivered eventName (onConnect Examples.connecting) = [7%nat; 8%nat] /\
  pendingSubscriptions (onConnect Examples.connecting) = [].
Proof.
  destruct (connect_flushes_queue Examples.connecting
              {| connected := false; registered := [] |} eventName)
    as [Hqueue Hdelivered].
  - reflexivity.
  - split; [rewrite Hdelivered; reflexivity|exact Hqueue].
Defined.

(** [subscribe_unsubscribe_round_trip] after a history that leaves the
    socket connected and the listener map empty. *)
Lemma round_trip_witness :
  socket (unsubscribe 4%nat (subscribeToVideoUpdates 4%nat (run Examples.history)))
    = socket (run Examples.history).
Proof.
  refine (proj1 (subscribe_unsubscribe_round_trip Examples.history 4%nat _)).
  vm_compute. reflexivity.
Defined.

End ChannelInstances.
